(** * nx-build-tools: the [tag-and-build] executor

    A shallow embedding of
    [build-tools/src/executors/tag-and-build/tag-and-build.ts] and the
    properties of its version resolution, tag generation and orchestration.

    Conventions.
    - A JavaScript string is a [string]: a sequence of code units, each
      below 256.  The source only concatenates, compares, splits, trims and
      truncates strings, all of which act unit by unit.
    - The executor is an [async] function that talks to the file system, to
      child processes and to Nx.  Those collaborators are the fields of an
      environment record [Env]; every call to one of them is recorded as an
      [Event], in program order, next to the way the function completes. *)

From Stdlib Require Import String Ascii List Bool Arith Lia.
Import ListNotations.
Local Open Scope list_scope.
Local Open Scope string_scope.

(** ** JavaScript string and array primitives used by the executor *)

Module JS.

Definition LF : string := String (ascii_of_nat 10) EmptyString.
Definition DQ : string := String (ascii_of_nat 34) EmptyString.

(** Truthiness of a string value: every string but the empty one. *)
Definition truthy (s : string) : bool :=
  match s with EmptyString => false | String _ _ => true end.

(** Truthiness of [string | null | undefined]. *)
Definition truthy_opt (o : option string) : bool :=
  match o with Some s => truthy s | None => false end.

(** [`${x}`] for [x : string | null]. *)
Definition interp (o : option string) : string :=
  match o with Some s => s | None => "null" end.

(** [`${x}`] for [x : string | undefined]. *)
Definition interp_undef (o : option string) : string :=
  match o with Some s => s | None => "undefined" end.

(** [s.split(sep)] for a one-character separator.  The result is never
    empty: a string without separator yields itself as only segment. *)
Fixpoint split (sep : ascii) (s : string) : list string :=
  match s with
  | EmptyString => [EmptyString]
  | String c rest =>
      if Ascii.eqb c sep then EmptyString :: split sep rest
      else match split sep rest with
           | seg :: segs => String c seg :: segs
           | [] => [String c EmptyString]
           end
  end.

(** White space and line terminators removed by [trim], among the code
    units below 256: TAB, LF, VT, FF, CR, SPACE and NBSP. *)
Definition isWhiteSpace (c : ascii) : bool :=
  let n := nat_of_ascii c in
  (Nat.leb 9 n && Nat.leb n 13) || Nat.eqb n 32 || Nat.eqb n 160.

Fixpoint trimStart (s : string) : string :=
  match s with
  | EmptyString => EmptyString
  | String c rest => if isWhiteSpace c then trimStart rest else s
  end.

Fixpoint trimEnd (s : string) : string :=
  match s with
  | EmptyString => EmptyString
  | String c rest =>
      match trimEnd rest with
      | EmptyString => if isWhiteSpace c then EmptyString
                       else String c EmptyString
      | r => String c r
      end
  end.

(** [s.trim()] *)
Definition trim (s : string) : string := trimEnd (trimStart s).

(** [s.substring(0, n)] *)
Definition substring0 (n : nat) (s : string) : string := substring 0 n s.

(** [a.join(sep)] *)
Fixpoint join (sep : string) (a : list string) : string :=
  match a with
  | [] => EmptyString
  | [x] => x
  | x :: rest => x ++ sep ++ join sep rest
  end.

(** [x ? f(x) : g] for [x : string | undefined]. *)
Definition ifTruthy {A} (o : option string) (f : string -> A) (g : A) : A :=
  match o with
  | Some s => if truthy s then f s else g
  | None => g
  end.

(** [x || d] *)
Definition orElse (o : option string) (d : string) : string :=
  ifTruthy o (fun s => s) d.

(** [x === y] on [string | null] values. *)
Definition strictEq (x y : option string) : bool :=
  match x, y with
  | Some a, Some b => String.eqb a b
  | None, None => true
  | _, _ => false
  end.

(** [a.find(p)] *)
Definition find {A} (p : A -> bool) (a : list A) : option A :=
  List.find p a.

(** [a.filter(Boolean)] on an array of strings. *)
Definition filterBoolean (a : list string) : list string :=
  List.filter truthy a.

(** [a.push(x)]: the array after the call. *)
Definition push {A} (a : list A) (x : A) : list A := (a ++ [x])%list.

(** [a.forEach(f)] where [f] updates a state of type [S]. *)
Definition forEach {A S} (a : list A) (f : S -> A -> S) (s : S) : S :=
  fold_left f a s.

(** The members of [Object.prototype].  A property lookup [o[name]] on a
    plain object finds them when [o] has no property of its own by that
    name; each of them is a function or an object, hence truthy, and none
    has a property [root]. *)
Definition objectPrototypeMembers : list string :=
  ["constructor"; "hasOwnProperty"; "isPrototypeOf"; "propertyIsEnumerable";
   "toLocaleString"; "toString"; "valueOf"; "__proto__";
   "__defineGetter__"; "__defineSetter__"; "__lookupGetter__";
   "__lookupSetter__"].

(** [name] is found on every plain object, by inheritance. *)
Definition inherited (name : string) : bool :=
  existsb (String.eqb name) objectPrototypeMembers.

End JS.

(** ** Node's [path.join], POSIX flavour *)

Module Path.

Definition slash : ascii := "/"%char.

(** [normalizeString]: drops empty and [.] segments and resolves [..]
    against the segment before it; [acc] holds the kept segments, last
    one first. *)
Fixpoint normalizeSegments (allowAboveRoot : bool) (segs acc : list string)
  : list string :=
  match segs with
  | [] => rev acc
  | seg :: rest =>
      if (seg =? EmptyString) || (seg =? ".")
      then normalizeSegments allowAboveRoot rest acc
      else if seg =? ".."
      then match acc with
           | top :: acc' =>
               if top =? ".."
               then normalizeSegments allowAboveRoot rest
                      (if allowAboveRoot then ".." :: acc else acc)
               else normalizeSegments allowAboveRoot rest acc'
           | [] =>
               normalizeSegments allowAboveRoot rest
                 (if allowAboveRoot then [".."] else [])
           end
      else normalizeSegments allowAboveRoot rest (seg :: acc)
  end.

Fixpoint lastChar (s : string) : option ascii :=
  match s with
  | EmptyString => None
  | String c EmptyString => Some c
  | String _ rest => lastChar rest
  end.

Definition startsWithSlash (s : string) : bool :=
  match s with String c _ => Ascii.eqb c slash | EmptyString => false end.

Definition endsWithSlash (s : string) : bool :=
  match lastChar s with Some c => Ascii.eqb c slash | None => false end.

(** [path.posix.normalize] *)
Definition normalize (p : string) : string :=
  match p with
  | EmptyString => "."
  | _ =>
      let isAbsolute := startsWithSlash p in
      let trailingSeparator := endsWithSlash p in
      let body :=
        JS.join "/" (normalizeSegments (negb isAbsolute)
                       (JS.split slash p) []) in
      match body with
      | EmptyString =>
          if isAbsolute then "/"
          else if trailingSeparator then "./" else "."
      | _ =>
          let body := if trailingSeparator then body ++ "/" else body in
          if isAbsolute then "/" ++ body else body
      end
  end.

(** [path.posix.join(a, b)]: empty arguments are skipped. *)
Definition join (a b : string) : string :=
  match JS.truthy a, JS.truthy b with
  | true, true => normalize (a ++ "/" ++ b)
  | true, false => normalize a
  | false, true => normalize b
  | false, false => "."
  end.

End Path.

(** ** Data model *)

(** [TagAndBuildExecutorSchema] (schema.d.ts).  [dockerfile] and [context]
    are declared as plain strings, yet the executor tests them for
    truthiness and falls back to a default, as for an option left out of
    the target's configuration: they are optional here as well. *)
Record TagAndBuildExecutorSchema := {
  appName : string;
  dockerRepository : string;
  buildTarget : string;
  dockerfile : option string;
  context : option string;
  push : bool;
  additionalTags : option (list string);
  generateMajorMinor : option bool;
  tagPrefix : option string
}.

(** The part of a project's configuration the executor reads. *)
Record ProjectConfiguration := { projectRoot : string }.

(** The part of Nx's [ExecutorContext] the executor reads:
    [context.root] and [context.projectsConfigurations.projects], a plain
    object with one property per project of the workspace; [projects] gives
    these properties, the object's own. *)
Record ExecutorContext := {
  root : string;
  projects : string -> option ProjectConfiguration
}.

(** Line 28, [context.projectsConfigurations.projects[appName]], followed
    by line 33, [projectConfig.root].  The lookup finds the configuration
    of the project of that name, whose root is a string; without such a
    project it finds the member of that name that the object inherits from
    [Object.prototype], which is truthy and has no [root]; otherwise it
    gives [undefined].  The result is [None] when the lookup gives
    [undefined], so that line 29 ends the executor, and otherwise the value
    of [projectConfig.root], with [None] inside for [undefined]. *)
Definition lookupProjectRoot (ctx : ExecutorContext) (appName : string)
  : option (option string) :=
  match projects ctx appName with
  | Some projectConfig => Some (Some (projectRoot projectConfig))
  | None => if JS.inherited appName then Some None else None
  end.

(** [{ success: boolean }]: what an executor returns and what the build
    target's iterator yields. *)
Record ExecutorResult := { success : bool }.

(** The asynchronous iterator that [runExecutor] resolves to, as a
    [for await] loop drives it.  [yielded] are the results that its
    [next()] yields, in order.  [ending] is what [next()] does after the
    last of them: it reports the end ([None]) or throws.  [closing] is
    what [return()] does, which the loop calls on the iterator when it is
    left before the end: nothing that matters ([None], also for an
    iterator without [return]) or it throws.  The results are finitely
    many: an iterator that yields for ever keeps the executor in its loop,
    as a collaborator that never answers keeps it waiting, and neither has
    a counterpart here. *)
Record BuildIterator := {
  yielded : list ExecutorResult;
  ending : option string;
  closing : option string
}.

(** The iterator that yields [results] and is done. *)
Definition doneAfter (results : list ExecutorResult) : BuildIterator :=
  {| yielded := results; ending := None; closing := None |}.

(** The iterator that yields [results] and then throws [e]. *)
Definition throwsAfter (results : list ExecutorResult) (e : string)
  : BuildIterator :=
  {| yielded := results; ending := Some e; closing := None |}.

(** The parsed manifest, as far as the executor looks at it: the value of
    its [version] key when that is a string, [None] when the key is
    missing.  A file that is absent or does not parse makes the read throw,
    which is the [Raise] answer of [readJsonFile]. *)
Record PackageJson := { version : option string }.

(** What [promisify(exec)(cmd)] resolves to. *)
Record ExecOutput := { stdout : string; stderr : string }.

(** The first argument of [runExecutor]. *)
Record Target := { project : string; target : string; configuration : string }.

(** A compiled regular expression with one capture group.  [re_exec s] is
    [None] when [s] does not match, and otherwise what group 1 captured
    ([None] inside when the group took no part in the match).
    [re_toString] is the text of [toString()]. *)
Record RegExp := {
  re_exec : string -> option (option string);
  re_toString : string
}.

(** [re.test(s)] *)
Definition re_test (re : RegExp) (s : string) : bool :=
  match re_exec re s with Some _ => true | None => false end.

(** A call that returns or throws; an exception is kept as the text that
    [`${error}`] renders. *)
Inductive Exc (A : Type) : Type :=
| Ok (a : A)
| Raise (e : string).
Arguments Ok {A} a.
Arguments Raise {A} e.

(** The collaborators of the executor.  [newRegExp] is the regular
    expression engine of the platform: the pattern is assembled from
    option values that may hold any regular-expression syntax, so the
    engine is taken as it comes; [Raise] is a [SyntaxError].
    [joinTypeError] is the text of the [TypeError] that Node's [path.join]
    throws when an argument is not a string; its wording depends on the
    version of Node. *)
Record Env := {
  readJsonFile : string -> Exc PackageJson;
  exec : string -> Exc ExecOutput;
  runExecutor : Target -> ExecutorContext -> Exc BuildIterator;
  newRegExp : string -> Exc RegExp;
  joinTypeError : string
}.

(** What the executor does to the outside, in program order.  A console
    line carries its text; the options object that is logged next to
    [Executor Options] is not rendered. *)
Inductive Event : Type :=
| ConsoleLog (msg : string)
| ConsoleWarn (msg : string)
| ConsoleError (msg : string)
| ReadJsonFile (path : string)
| Exec (command : string)
| RunExecutor (t : Target).

(** The three working variables of the executor (lines 36-38). *)
Record Versions := {
  appVersion : option string;
  majorMinorVersion : option string;
  majorVersion : option string
}.

(** ** The monad of the function body

    A piece of the body emits events and then either carries on with a
    value, hits a [return] statement, or throws. *)

Inductive Completion (A : Type) : Type :=
| Normal (a : A)
| Returned (r : ExecutorResult)
| Throw (e : string).
Arguments Normal {A} a.
Arguments Returned {A} r.
Arguments Throw {A} e.

Definition M (A : Type) : Type := (list Event * Completion A)%type.

Definition ret {A} (a : A) : M A := ([], Normal a).

Definition bind {A B} (m : M A) (f : A -> M B) : M B :=
  match m with
  | (t, Normal a) => let (t', c) := f a in ((t ++ t')%list, c)
  | (t, Returned r) => (t, Returned r)
  | (t, Throw e) => (t, Throw e)
  end.

Definition emit (e : Event) : M unit := ([e], Normal tt).

(** [return r;] *)
Definition return_ {A} (r : ExecutorResult) : M A := ([], Returned r).

(** [try { m } catch (e) { h(e) }] *)
Definition tryCatch {A} (m : M A) (h : string -> M A) : M A :=
  match m with
  | (t, Throw e) => let (t', c) := h e in ((t ++ t')%list, c)
  | _ => m
  end.

(** Lifting a collaborator's answer. *)
Definition liftExc {A} (r : Exc A) : Completion A :=
  match r with Ok a => Normal a | Raise e => Throw e end.

Declare Scope js_scope.
Delimit Scope js_scope with js.
Notation "x <- m ;; k" := (bind m (fun x => k))
  (at level 61, m at next level, right associativity) : js_scope.
Notation "m ;; k" := (bind m (fun _ => k))
  (at level 61, right associativity) : js_scope.
Local Open Scope js_scope.

(** How the promise returned by the [async] function settles. *)
Inductive Outcome : Type :=
| Fulfilled (r : ExecutorResult)
| Rejected (e : string).

Definition settle (m : M ExecutorResult) : list Event * Outcome :=
  match m with
  | (t, Normal r) => (t, Fulfilled r)
  | (t, Returned r) => (t, Fulfilled r)
  | (t, Throw e) => (t, Rejected e)
  end.

Definition failure : ExecutorResult := {| success := false |}.
Definition succeeded : ExecutorResult := {| success := true |}.

(** ** The executor, [tagAndBuild] *)

Section Executor.

Variable env : Env.

Definition consoleLog (msg : string) : M unit := emit (ConsoleLog msg).
Definition consoleWarn (msg : string) : M unit := emit (ConsoleWarn msg).
Definition consoleError (msg : string) : M unit := emit (ConsoleError msg).

Definition call_readJsonFile (path : string) : M PackageJson :=
  ([ReadJsonFile path], liftExc (readJsonFile env path)).

Definition call_exec (command : string) : M ExecOutput :=
  ([Exec command], liftExc (exec env command)).

Definition call_runExecutor (t : Target) (ctx : ExecutorContext)
  : M BuildIterator :=
  ([RunExecutor t], liftExc (runExecutor env t ctx)).

Definition new_RegExp (source : string) : M RegExp :=
  ([], liftExc (newRegExp env source)).

(** Lines 36-38: the variables before any source was read. *)
Definition unset : Versions :=
  {| appVersion := None; majorMinorVersion := None; majorVersion := None |}.

(** Lines 47-49 and again 87-89:
    [const [major, minor] = appVersion.split('.')], then
    [majorMinorVersion = `${major}.${minor}`] and [majorVersion = major]. *)
Definition setVersion (v : string) : Versions :=
  let parts := JS.split "." v in
  let major := nth_error parts 0 in
  let minor := nth_error parts 1 in
  {| appVersion := Some v;
     majorMinorVersion :=
       Some (JS.interp_undef major ++ "." ++ JS.interp_undef minor);
     majorVersion := major |}.

(** [path.join(dir, name)] for a [dir] that may be [undefined], on which
    [path.join] throws. *)
Definition call_pathJoin (dir : option string) (name : string) : M string :=
  match dir with
  | Some dir => ret (Path.join dir name)
  | None => ([], Throw (joinTypeError env))
  end.

(** Lines 40-64: the version of the manifest.  [projectRoot] is
    [projectConfig.root], which may be [undefined]. *)
Definition readPackageJsonVersionAt (appName : string)
    (projectRoot : option string) : M Versions :=
  tryCatch
    (packageJsonPath <- call_pathJoin projectRoot "package.json" ;;
     tryCatch
       (packageJson <- call_readJsonFile packageJsonPath ;;
        JS.ifTruthy (version packageJson)
          (fun v =>
             consoleLog ("Found version " ++ v ++ " in package.json") ;;
             ret (setVersion v))
          (consoleWarn
             ("Warning: Version is not set in package.json for '"
                ++ appName ++ "'. Attempting to derive from Git tags.") ;;
           ret unset))
       (fun readError =>
          consoleWarn
            ("Warning: Could not read package.json for '" ++ appName
               ++ "' at " ++ packageJsonPath ++ ": " ++ readError
               ++ ". Attempting to derive from Git tags.") ;;
          ret unset))
    (fun error =>
       consoleWarn
         ("Warning: General error while trying to read package.json for '"
            ++ appName ++ "': " ++ error
            ++ ". Attempting to derive from Git tags.") ;;
       ret unset).

(** The same for a project of the workspace, whose root is a string. *)
Definition readPackageJsonVersion (appName projectRoot : string)
  : M Versions :=
  readPackageJsonVersionAt appName (Some projectRoot).

Definition gitTagCommand : string := "git tag --points-at HEAD".

(** Line 72: [gitTagsOutput.trim().split('\n').filter(Boolean)] *)
Definition parseTags (gitTagsOutput : string) : list string :=
  JS.filterBoolean (JS.split (ascii_of_nat 10) (JS.trim gitTagsOutput)).

(** Line 74: [tagPrefix || 'v'] *)
Definition effectiveTagPrefix (options : TagAndBuildExecutorSchema)
  : string :=
  JS.orElse (tagPrefix options) "v".

(** Lines 75-77: the source text handed to [new RegExp]. *)
Definition targetTagPattern (options : TagAndBuildExecutorSchema)
  : string :=
  "^" ++ appName options ++ "/" ++ effectiveTagPrefix options ++ "(.*)$".

(** Line 84: [match && match[1] ? match[1] : null] *)
Definition capturedVersion (m : option (option string)) : option string :=
  match m with
  | Some (Some rest) => if JS.truthy rest then Some rest else None
  | _ => None
  end.

(** Lines 66-114, the body of [if (!appVersion)]: the version of the
    revision tags.  [vs] holds the variables on entry. *)
Definition deriveFromGitTags (options : TagAndBuildExecutorSchema)
    (vs : Versions) : M Versions :=
  consoleLog "Attempting to derive version from Git tags..." ;;
  tryCatch
    (out <- call_exec gitTagCommand ;;
     let tags := parseTags (stdout out) in
     pattern <- new_RegExp (targetTagPattern options) ;;
     let relevantTags := JS.find (re_test pattern) tags in
     JS.ifTruthy relevantTags
       (fun tag =>
          let m := re_exec pattern tag in
          match capturedVersion m with
          | Some v =>
              consoleLog ("Extracted version " ++ v ++ " from Git tag") ;;
              ret (setVersion v)
          | None =>
              consoleError
                ("Error: Could not find Git tag for " ++ appName options
                   ++ " matching pattern " ++ re_toString pattern) ;;
              consoleError
                "Please ensure your project has been released and a corresponding Git tag exists (e.g., frontend/v1.2.3)." ;;
              return_ failure
          end)
       (consoleWarn
          ("Warning: No relevant Git tags found for " ++ appName options) ;;
        ret vs))
    (fun error =>
       consoleError
         (JS.LF ++ "Error reading Git tags for '" ++ appName options
            ++ "': " ++ error
            ++ ". Ensure Git is available and the repository has tags.") ;;
       return_ failure).

(** Lines 36-121: version resolution.  Carries on with the variables
    only when [appVersion] is set.  [projectRoot] is [projectConfig.root],
    which may be [undefined]. *)
Definition resolveVersionAt (options : TagAndBuildExecutorSchema)
    (projectRoot : option string) : M Versions :=
  vs <- readPackageJsonVersionAt (appName options) projectRoot ;;
  vs <- (if negb (JS.truthy_opt (appVersion vs))
         then deriveFromGitTags options vs
         else ret vs) ;;
  if negb (JS.truthy_opt (appVersion vs))
  then
    consoleError
      (JS.LF ++ "Error: Could not determine version for '"
         ++ appName options
         ++ "'. Please ensure your project has a version set in package.json or a corresponding Git tag exists.") ;;
    return_ failure
  else ret vs.

(** The same for a project of the workspace, whose root is a string. *)
Definition resolveVersion (options : TagAndBuildExecutorSchema)
    (projectRoot : string) : M Versions :=
  resolveVersionAt options (Some projectRoot).

(** Lines 134-143, the body of the loop on the results that the iterator
    yields.  [atEnd] is what happens once they are used up; [onReturn] is
    what the [return] of line 141 comes to. *)
Fixpoint awaitResults (options : TagAndBuildExecutorSchema)
    (results : list ExecutorResult) (atEnd onReturn : M unit) : M unit :=
  match results with
  | [] => atEnd
  | result :: rest =>
      if success result
      then
        consoleLog
          ("Build target '" ++ buildTarget options ++ "' for '"
             ++ appName options ++ "' completed successfully") ;;
        awaitResults options rest atEnd onReturn
      else
        consoleError
          ("Build target '" ++ buildTarget options ++ "' for '"
             ++ appName options ++ "' failed") ;;
        onReturn
  end.

(** Lines 134-143: [for await (const result of buildResult)].  The loop
    is inside no [try]: when [next()] throws, so does the executor.  The
    [return] of line 141 leaves the loop before the end, so the iterator
    is closed first; when [return()] throws, the executor throws that
    error instead of returning its result. *)
Definition awaitBuildResults (options : TagAndBuildExecutorSchema)
    (buildResult : BuildIterator) : M unit :=
  awaitResults options (yielded buildResult)
    match ending buildResult with
    | None => ret tt
    | Some e => ([], Throw e)
    end
    match closing buildResult with
    | None => return_ failure
    | Some e => ([], Throw e)
    end.

(** Lines 123-143: the build target. *)
Definition runBuildTarget (options : TagAndBuildExecutorSchema)
    (ctx : ExecutorContext) : M unit :=
  consoleLog
    (JS.LF ++ "Running build target '" ++ buildTarget options ++ "' for '"
       ++ appName options ++ "'...") ;;
  buildResult <-
    call_runExecutor
      {| project := appName options;
         target := buildTarget options;
         configuration := "production" |} ctx ;;
  awaitBuildResults options buildResult.

(** Line 146 *)
Definition baseImageName (options : TagAndBuildExecutorSchema) : string :=
  dockerRepository options ++ "/" ++ appName options.

(** Lines 145-164: the tags pushed before the revision is queried. *)
Definition versionTags (options : TagAndBuildExecutorSchema)
    (vs : Versions) : list string :=
  let dockerTags : list string := [] in
  let dockerTags :=
    JS.push dockerTags
      (baseImageName options ++ ":" ++ JS.interp (appVersion vs)) in
  let dockerTags :=
    match generateMajorMinor options with
    | Some true =>
        let dockerTags :=
          if JS.truthy_opt (majorMinorVersion vs)
             && negb (JS.strictEq (majorMinorVersion vs) (appVersion vs))
          then JS.push dockerTags
                 (baseImageName options ++ ":"
                    ++ JS.interp (majorMinorVersion vs))
          else dockerTags in
        if JS.truthy_opt (majorVersion vs)
           && negb (JS.strictEq (majorVersion vs) (appVersion vs))
           && negb (JS.strictEq (majorVersion vs) (majorMinorVersion vs))
        then JS.push dockerTags
               (baseImageName options ++ ":" ++ JS.interp (majorVersion vs))
        else dockerTags
    | _ => dockerTags
    end in
  match additionalTags options with
  | Some extra =>
      if Nat.ltb 0 (List.length extra)
      then JS.forEach extra
             (fun dockerTags tag =>
                JS.push dockerTags (baseImageName options ++ ":" ++ tag))
             dockerTags
      else dockerTags
  | None => dockerTags
  end.

Definition gitShaCommand : string := "git rev-parse HEAD".

(** Lines 145-170: tag generation.  Carries on with [dockerTags] and
    [gitSha]. *)
Definition generateDockerTags (options : TagAndBuildExecutorSchema)
    (vs : Versions) : M (list string * string) :=
  let dockerTags := versionTags options vs in
  out <- call_exec gitShaCommand ;;
  let gitSha := JS.substring0 7 (JS.trim (stdout out)) in
  let dockerTags :=
    JS.push dockerTags (baseImageName options ++ ":sha-" ++ gitSha) in
  consoleLog
    (JS.LF ++ "Generated Docker Tags: " ++ JS.join ", " dockerTags) ;;
  ret (dockerTags, gitSha).

(** Lines 181-183 *)
Definition finalDockerfile (options : TagAndBuildExecutorSchema)
    (ctx : ExecutorContext) : string :=
  JS.ifTruthy (dockerfile options)
    (fun dockerfile => Path.join (root ctx) dockerfile)
    (Path.join (root ctx) "Dockerfile").

(** Line 184 *)
Definition finalContext (options : TagAndBuildExecutorSchema)
    (ctx : ExecutorContext) : string :=
  JS.ifTruthy (context options)
    (fun dockerContext => Path.join (root ctx) dockerContext)
    (root ctx).

(** Lines 172-188: the command line of the container build. *)
Definition dockerCommand (options : TagAndBuildExecutorSchema)
    (ctx : ExecutorContext) (vs : Versions) (dockerTags : list string)
    (gitSha : string) : string :=
  let dockerCommand := "docker buildx build" in
  let dockerCommand :=
    if push options then dockerCommand ++ " --push" else dockerCommand in
  let dockerCommand :=
    JS.forEach dockerTags
      (fun dockerCommand tag =>
         dockerCommand ++ " -t " ++ JS.DQ ++ tag ++ JS.DQ)
      dockerCommand in
  let dockerCommand :=
    dockerCommand ++ " -f " ++ JS.DQ ++ finalDockerfile options ctx
      ++ JS.DQ ++ " " ++ JS.DQ ++ finalContext options ctx ++ JS.DQ in
  let dockerCommand :=
    dockerCommand ++ " --build-arg APP_VERSION=" ++ JS.DQ
      ++ JS.interp (appVersion vs) ++ JS.DQ in
  dockerCommand ++ " --build-arg BUILD_SHA=" ++ JS.DQ ++ gitSha ++ JS.DQ.

(** Lines 172-203: the container build. *)
Definition dockerBuild (options : TagAndBuildExecutorSchema)
    (ctx : ExecutorContext) (vs : Versions) (dockerTags : list string)
    (gitSha : string) : M ExecutorResult :=
  let dockerCommand := dockerCommand options ctx vs dockerTags gitSha in
  consoleLog
    (JS.LF ++ "Executing Docker build command:" ++ JS.LF ++ dockerCommand
       ++ JS.LF) ;;
  tryCatch
    (out <- call_exec dockerCommand ;;
     (if JS.truthy (stderr out) then consoleError (stderr out)
      else ret tt) ;;
     consoleLog
       (JS.LF
          ++ "--- Successfully built and tagged/pushed Docker image(s) for '"
          ++ appName options ++ "' ---") ;;
     return_ succeeded)
    (fun error =>
       consoleError
         (JS.LF ++ "Error: Docker build failed for '" ++ appName options
            ++ "'.") ;;
       return_ failure).

(** Lines 8-204: the body of the executor. *)
Definition tagAndBuildBody (options : TagAndBuildExecutorSchema)
    (ctx : ExecutorContext) : M ExecutorResult :=
  consoleLog
    (JS.LF ++ "---Starting Docker Image Tag & Build executor for "
       ++ appName options ++ "---" ++ JS.LF) ;;
  consoleLog "Executor Options" ;;
  match lookupProjectRoot ctx (appName options) with
  | None =>
      consoleError
        ("Error: Project configuration for '" ++ appName options
           ++ "' not found.") ;;
      return_ failure
  | Some projectRoot =>
      vs <- resolveVersionAt options projectRoot ;;
      runBuildTarget options ctx ;;
      tagsAndSha <- generateDockerTags options vs ;;
      dockerBuild options ctx vs (fst tagsAndSha) (snd tagsAndSha)
  end.

(** The executor: the events of one invocation and how its promise
    settles. *)
Definition tagAndBuild (options : TagAndBuildExecutorSchema)
    (ctx : ExecutorContext) : list Event * Outcome :=
  settle (tagAndBuildBody options ctx).

End Executor.

(** ** A concrete environment: the fixture of the test suite

    [tag-and-build.spec.ts] runs the executor on project [test-app], rooted
    at [apps/test-app] in the workspace [/test/root], against mocked
    collaborators.  The same set-up serves the examples below. *)

Module Fixture.

(** The characters with a meaning of their own in a pattern. *)
Definition isSyntaxCharacter (c : ascii) : bool :=
  existsb (Ascii.eqb c) (list_ascii_of_string "\^$.|?*+()[]{}").

(** The characters [.] does not match, among the code units below 256. *)
Definition isLineTerminator (c : ascii) : bool :=
  Ascii.eqb c (ascii_of_nat 10) || Ascii.eqb c (ascii_of_nat 13).

Fixpoint stripPrefix (p s : string) : option string :=
  match p, s with
  | EmptyString, _ => Some s
  | String a p', String b s' =>
      if Ascii.eqb a b then stripPrefix p' s' else None
  | String _ _, EmptyString => None
  end.

Fixpoint stripSuffix (suffix s : string) : option string :=
  if s =? suffix then Some EmptyString
  else match s with
       | EmptyString => None
       | String c rest => option_map (String c) (stripSuffix suffix rest)
       end.

Fixpoint escapeSlashes (s : string) : string :=
  match s with
  | EmptyString => EmptyString
  | String c rest =>
      if Ascii.eqb c "/"%char then "\/" ++ escapeSlashes rest
      else String c (escapeSlashes rest)
  end.

(** The regular expression that anchors a text [lit], free of syntax
    characters, at the start and captures whatever follows up to the end:
    a subject matches when it starts with [lit] and what follows holds no
    line terminator, which is then captured. *)
Definition literalRegExp (lit : string) : RegExp :=
  {| re_exec := fun s =>
       match stripPrefix lit s with
       | Some rest =>
           if forallb (fun c => negb (isLineTerminator c))
                (list_ascii_of_string rest)
           then Some (Some rest) else None
       | None => None
       end;
     re_toString := "/^" ++ escapeSlashes lit ++ "(.*)$/" |}.

(** The engine on the sources that [targetTagPattern] builds from option
    values free of syntax characters, which is all the examples need; it
    turns any other source down. *)
Definition literalEngine (source : string) : Exc RegExp :=
  match stripPrefix "^" source with
  | Some body =>
      match stripSuffix "(.*)$" body with
      | Some lit =>
          if forallb (fun c => negb (isSyntaxCharacter c))
               (list_ascii_of_string lit)
          then Ok (literalRegExp lit)
          else Raise "SyntaxError: pattern outside the supported fragment"
      | None => Raise "SyntaxError: pattern outside the supported fragment"
      end
  | None => Raise "SyntaxError: pattern outside the supported fragment"
  end.

(** [mockContext] *)
Definition mockContext : ExecutorContext :=
  {| root := "/test/root";
     projects := fun name =>
       if name =? "test-app"
       then Some {| projectRoot := "apps/test-app" |}
       else None |}.

(** The options every test starts from. *)
Definition baseOptions : TagAndBuildExecutorSchema :=
  {| appName := "test-app";
     dockerRepository := "test-repo";
     buildTarget := "build";
     dockerfile := Some "Dockerfile";
     context := Some ".";
     push := false;
     additionalTags := None;
     generateMajorMinor := None;
     tagPrefix := None |}.

(** What [path.join] throws on [undefined], in the wording of Node 20. *)
Definition invalidArgType : string :=
  "TypeError [ERR_INVALID_ARG_TYPE]: The " ++ JS.DQ ++ "path" ++ JS.DQ
    ++ " argument must be of type string. Received undefined".

(** An environment from the answers of its collaborators: the manifest
    of [test-app], the two git queries, the build target and the
    container build. *)
Definition mkEnvOn (manifest : Exc PackageJson) (gitTags gitSha : Exc string)
    (build : Exc BuildIterator) (docker : Exc ExecOutput) : Env :=
  {| readJsonFile := fun path =>
       if path =? "apps/test-app/package.json" then manifest
       else Raise "Error: ENOENT";
     exec := fun command =>
       let answer (r : Exc string) :=
         match r with
         | Ok out => Ok {| stdout := out; stderr := EmptyString |}
         | Raise e => Raise e
         end in
       if command =? gitTagCommand then answer gitTags
       else if command =? gitShaCommand then answer gitSha
       else docker;
     runExecutor := fun _ _ => build;
     newRegExp := literalEngine;
     joinTypeError := invalidArgType |}.

(** The same for a build target whose iterator yields its results and is
    done. *)
Definition mkEnv (manifest : Exc PackageJson) (gitTags gitSha : Exc string)
    (build : Exc (list ExecutorResult)) (docker : Exc ExecOutput) : Env :=
  mkEnvOn manifest gitTags gitSha
    match build with
    | Ok results => Ok (doneAfter results)
    | Raise e => Raise e
    end
    docker.

Definition quiet : ExecOutput :=
  {| stdout := EmptyString; stderr := EmptyString |}.

(** A run on which everything but version resolution succeeds. *)
Definition envWith (manifest : Exc PackageJson) (gitTags : Exc string)
  : Env :=
  mkEnv manifest gitTags (Ok "abc1234") (Ok [succeeded]) (Ok quiet).

Definition withVersion (v : string) : Exc PackageJson :=
  Ok {| version := Some v |}.

Definition withoutVersion : Exc PackageJson := Ok {| version := None |}.

(** The events of a run that are calls to [exec]. *)
Definition execCommands (t : list Event) : list string :=
  flat_map (fun e => match e with Exec c => [c] | _ => [] end) t.

End Fixture.

(** ** Vocabulary of the properties *)

(** Events by the step of the executor they belong to. *)
Definition isConsole (e : Event) : bool :=
  match e with
  | ConsoleLog _ | ConsoleWarn _ | ConsoleError _ => true
  | _ => false
  end.

(** The manifest read and the revision-tag listing. *)
Definition isVersionResolution (e : Event) : bool :=
  match e with
  | ReadJsonFile _ => true
  | Exec c => c =? gitTagCommand
  | _ => false
  end.

Definition isBuildTarget (e : Event) : bool :=
  match e with RunExecutor _ => true | _ => false end.

(** The revision-identifier query and the report of the generated tags. *)
Definition isTagGeneration (e : Event) : bool :=
  match e with
  | Exec c => c =? gitShaCommand
  | ConsoleLog msg => prefix (JS.LF ++ "Generated Docker Tags: ") msg
  | _ => false
  end.

Definition isContainerBuild (e : Event) : bool :=
  match e with
  | Exec c => prefix "docker buildx build" c
  | _ => false
  end.

(** A query to revision control. *)
Definition isGitCommand (c : string) : bool := prefix "git " c.

(** Where the executor looks for the manifest of a project. *)
Definition manifestPath (pc : ProjectConfiguration) : string :=
  Path.join (projectRoot pc) "package.json".

(** The manifest declares the non-empty version [v]. *)
Definition manifestYields (env : Env) (pc : ProjectConfiguration)
    (v : string) : Prop :=
  exists packageJson,
    readJsonFile env (manifestPath pc) = Ok packageJson
    /\ version packageJson = Some v
    /\ v <> EmptyString.

(** The manifest gives no version: it cannot be read, or its version is
    missing or empty. *)
Definition manifestYieldsNothing (env : Env) (pc : ProjectConfiguration)
  : Prop :=
  (exists e, readJsonFile env (manifestPath pc) = Raise e)
  \/ (exists packageJson,
        readJsonFile env (manifestPath pc) = Ok packageJson
        /\ (version packageJson = None
            \/ version packageJson = Some EmptyString)).

(** [tag] is the first of [tags], in listing order, that [re] matches. *)
Definition firstMatch (re : RegExp) (tags : list string) (tag : string)
  : Prop :=
  exists before after,
    tags = (before ++ tag :: after)%list
    /\ (forall t, In t before -> re_exec re t = None)
    /\ re_exec re tag <> None.

(** The build target that the executor runs. *)
Definition buildTargetOf (options : TagAndBuildExecutorSchema) : Target :=
  {| project := appName options;
     target := buildTarget options;
     configuration := "production" |}.

(** The two lines every invocation starts with. *)
Definition header (options : TagAndBuildExecutorSchema) : list Event :=
  [ConsoleLog
     (JS.LF ++ "---Starting Docker Image Tag & Build executor for "
        ++ appName options ++ "---" ++ JS.LF);
   ConsoleLog "Executor Options"].

(** The line that announces the fallback to the revision tags. *)
Definition attempting : Event :=
  ConsoleLog "Attempting to derive version from Git tags...".

(** The line that announces the build target. *)
Definition runningMessage (options : TagAndBuildExecutorSchema) : string :=
  JS.LF ++ "Running build target '" ++ buildTarget options ++ "' for '"
    ++ appName options ++ "'...".

(** The line logged for each successful result of the build target. *)
Definition completedMessage (options : TagAndBuildExecutorSchema) : string :=
  "Build target '" ++ buildTarget options ++ "' for '"
    ++ appName options ++ "' completed successfully".


(** *** The tag list in the words of the specification *)

Module Spec.

(** [<repository>/<appName>:<label>] *)
Definition imageRef (repository appName label : string) : string :=
  repository ++ "/" ++ appName ++ ":" ++ label.

(** The labels as the specification lists them: the version; with
    [generateMajorMinor], the minor compound when it differs from the
    version and the major when it differs from both; the additional
    tags; the revision label. *)
Definition labels (version major minorCompound : string)
    (generateMajorMinor : bool) (additionalTags : list string)
    (revisionShaShort : string) : list string :=
  let revisionLabel := "sha-" ++ revisionShaShort in
  ([version]
     ++ (if generateMajorMinor
         then (if minorCompound =? version then [] else [minorCompound])
                ++ (if (major =? version) || (major =? minorCompound)
                    then [] else [major])
         else [])
     ++ additionalTags
     ++ [revisionLabel])%list.

(** The same, with the major label only for a non-empty major. *)
Definition labelsNonEmptyMajor (version major minorCompound : string)
    (generateMajorMinor : bool) (additionalTags : list string)
    (revisionShaShort : string) : list string :=
  let revisionLabel := "sha-" ++ revisionShaShort in
  ([version]
     ++ (if generateMajorMinor
         then (if minorCompound =? version then [] else [minorCompound])
                ++ (if (major =? EmptyString) || (major =? version)
                       || (major =? minorCompound)
                    then [] else [major])
         else [])
     ++ additionalTags
     ++ [revisionLabel])%list.

(** The first [n] dot-separated segments of [v], joined by dots. *)
Definition firstSegments (n : nat) (v : string) : string :=
  JS.join "." (firstn n (JS.split "." v)).

(** The dockerfile and the build context resolved against the root of
    the project, as the specification has it. *)
Definition dockerfileUnderProject (options : TagAndBuildExecutorSchema)
    (pc : ProjectConfiguration) : string :=
  Path.join (projectRoot pc) (JS.orElse (dockerfile options) "Dockerfile").

Definition contextUnderProject (options : TagAndBuildExecutorSchema)
    (pc : ProjectConfiguration) : string :=
  Path.join (projectRoot pc) (JS.orElse (context options) ".").

End Spec.

(** [generateMajorMinor] and [additionalTags] with their defaults. *)
Definition generateMajorMinorOr (options : TagAndBuildExecutorSchema) : bool :=
  match generateMajorMinor options with Some b => b | None => false end.

Definition additionalTagsOr (options : TagAndBuildExecutorSchema)
  : list string :=
  match additionalTags options with Some l => l | None => [] end.

(** The short revision id: the first seven characters of the trimmed
    answer to [git rev-parse HEAD]. *)
Definition revisionShaShort (out : ExecOutput) : string :=
  JS.substring0 7 (JS.trim (stdout out)).

(** Every event that [m] emits satisfies [P]. *)
Definition emitsOnly {A} (P : Event -> Prop) (m : M A) : Prop :=
  Forall P (fst m).

(** Nothing of the steps after version resolution. *)
Definition beforeBuild (e : Event) : Prop :=
  isBuildTarget e = false /\ isTagGeneration e = false
  /\ isContainerBuild e = false.

(** Nothing of tag generation or of the container build. *)
Definition beforeTags (e : Event) : Prop :=
  isTagGeneration e = false /\ isContainerBuild e = false.

Arguments resolveVersion : simpl never.
Arguments resolveVersionAt : simpl never.
Arguments runBuildTarget : simpl never.
Arguments generateDockerTags : simpl never.
Arguments dockerBuild : simpl never.
Arguments dockerCommand : simpl never.
Arguments setVersion : simpl never.
Arguments Path.join : simpl never.
Arguments JS.trim : simpl never.
Arguments parseTags : simpl never.
Arguments targetTagPattern : simpl never.

(** *** Further vocabulary: single steps and their messages *)

Definition isManifestRead (e : Event) : bool :=
  match e with ReadJsonFile _ => true | _ => false end.

Definition isTagListing (e : Event) : bool :=
  match e with Exec c => c =? gitTagCommand | _ => false end.

Definition isRevisionQuery (e : Event) : bool :=
  match e with Exec c => c =? gitShaCommand | _ => false end.

(** How many events of a trace satisfy [p]. *)
Definition countWhere (p : Event -> bool) (t : list Event) : nat :=
  List.length (filter p t).

(** The tags of line 168: those of [versionTags], then the revision tag. *)
Definition generatedTags (options : TagAndBuildExecutorSchema)
    (vs : Versions) (out : ExecOutput) : list string :=
  JS.push (versionTags options vs)
    (baseImageName options ++ ":sha-" ++ revisionShaShort out).

(** Lines 148-168: the tag that carries [label]. *)
Definition tagOf (options : TagAndBuildExecutorSchema) (label : string)
  : string :=
  baseImageName options ++ ":" ++ label.

(** The line of line 170. *)
Definition generatedMessage (dockerTags : list string) : string :=
  JS.LF ++ "Generated Docker Tags: " ++ JS.join ", " dockerTags.

(** The line of line 190. *)
Definition executingMessage (command : string) : string :=
  JS.LF ++ "Executing Docker build command:" ++ JS.LF ++ command ++ JS.LF.

(** The line of lines 196-198. *)
Definition builtMessage (options : TagAndBuildExecutorSchema) : string :=
  JS.LF ++ "--- Successfully built and tagged/pushed Docker image(s) for '"
    ++ appName options ++ "' ---".

(** The line of line 201. *)
Definition buildFailedMessage (options : TagAndBuildExecutorSchema)
  : string :=
  JS.LF ++ "Error: Docker build failed for '" ++ appName options ++ "'.".

(** The events of the container build once its command was run. *)
Definition afterContainerBuild (options : TagAndBuildExecutorSchema)
    (answer : Exc ExecOutput) : list Event :=
  match answer with
  | Ok out =>
      if JS.truthy (stderr out)
      then [ConsoleError (stderr out); ConsoleLog (builtMessage options)]
      else [ConsoleLog (builtMessage options)]
  | Raise _ => [ConsoleError (buildFailedMessage options)]
  end.

(** One [-t] flag per tag, in the order of the tags. *)
Definition tagFlags (dockerTags : list string) : string :=
  fold_right
    (fun tag flags => " -t " ++ JS.DQ ++ tag ++ JS.DQ ++ flags)
    EmptyString dockerTags.

(** [s] holds no character [c]. *)
Definition hasNoChar (c : ascii) (s : string) : bool :=
  forallb (fun x => negb (Ascii.eqb x c)) (list_ascii_of_string s).

(** [s] holds no white space. *)
Definition hasNoWhiteSpace (s : string) : bool :=
  forallb (fun x => negb (JS.isWhiteSpace x)) (list_ascii_of_string s).

(** What [git tag] prints for a list of tags: one tag per line. *)
Definition gitTagOutput (tags : list string) : string :=
  fold_right (fun tag out => tag ++ JS.LF ++ out) EmptyString tags.

(** How the loop on the results of the build target ends when every
    result reports success: it carries on when the iterator is done, and
    throws when the iterator does. *)
Definition loopEnd (buildResult : BuildIterator) : Completion unit :=
  match ending buildResult with
  | None => Normal tt
  | Some e => Throw e
  end.

(** How the loop is left at a result that reports failure: with the
    failure result when the iterator closes, and by throwing when closing
    it throws. *)
Definition loopExit (buildResult : BuildIterator) : Completion unit :=
  match closing buildResult with
  | None => Returned failure
  | Some e => Throw e
  end.

(** The outcome of an invocation that is left at a result that reports
    failure. *)
Definition exitOutcome (buildResult : BuildIterator) : Outcome :=
  match closing buildResult with
  | None => Fulfilled failure
  | Some e => Rejected e
  end.

(** The line that reports a project that is not found. *)
Definition notFoundMessage (options : TagAndBuildExecutorSchema) : string :=
  "Error: Project configuration for '" ++ appName options ++ "' not found.".

(** The warning of the handler of lines 60-64. *)
Definition generalErrorMessage (options : TagAndBuildExecutorSchema)
    (error : string) : string :=
  "Warning: General error while trying to read package.json for '"
    ++ appName options ++ "': " ++ error
    ++ ". Attempting to derive from Git tags.".

(** ** The script [start-local-registry.ts]

    The default export of [tools/scripts/start-local-registry.ts], jest's
    global set-up: it starts the local registry, keeps the function that
    stops it in [global.stopLocalRegistry], then versions and publishes
    the packages.  Its three collaborators answer or throw; the handle of
    the registry is of any type. *)

Module LocalRegistry.

Record StartOptions := {
  localRegistryTarget : string;
  storage : string;
  verbose : bool
}.

Record VersionOptions := {
  specifier : string;
  stageChanges : bool;
  gitCommit : bool;
  gitTag : bool;
  firstRelease : bool;
  skipLockFileUpdate : bool
}.

Record PublishOptions := {
  tag : string;
  publishFirstRelease : bool
}.

(** The calls of the script, in program order. *)
Inductive Call : Type :=
| StartLocalRegistry (o : StartOptions)
| ReleaseVersion (o : VersionOptions)
| ReleasePublish (o : PublishOptions).

Record Collaborators (Handle : Type) := {
  startLocalRegistry : StartOptions -> Exc Handle;
  releaseVersion : VersionOptions -> Exc unit;
  releasePublish : PublishOptions -> Exc unit
}.
Arguments startLocalRegistry {Handle} _ _.
Arguments releaseVersion {Handle} _ _.
Arguments releasePublish {Handle} _ _.

(** One run of the script: its calls, [global.stopLocalRegistry] when it
    ends, and the error its promise rejects with, if any. *)
Record Run (Handle : Type) := {
  calls : list Call;
  stopLocalRegistry : option Handle;
  rejection : option string
}.
Arguments calls {Handle} _.
Arguments stopLocalRegistry {Handle} _.
Arguments rejection {Handle} _.

(** Lines 15-19 *)
Definition startOptions : StartOptions :=
  {| localRegistryTarget := "@mschoenbo/nx-build-tools/source:local-registry";
     storage := "./tmp/local-registry/storage";
     verbose := false |}.

(** Lines 21-30 *)
Definition versionOptions : VersionOptions :=
  {| specifier := "0.0.0-e2e";
     stageChanges := false;
     gitCommit := false;
     gitTag := false;
     firstRelease := true;
     skipLockFileUpdate := true |}.

(** Lines 31-34 *)
Definition publishOptions : PublishOptions :=
  {| tag := "e2e"; publishFirstRelease := true |}.

(** Lines 11-35.  [before] is [global.stopLocalRegistry] on entry. *)
Definition globalSetup {Handle} (env : Collaborators Handle)
    (before : option Handle) : Run Handle :=
  match startLocalRegistry env startOptions with
  | Raise e =>
      {| calls := [StartLocalRegistry startOptions];
         stopLocalRegistry := before;
         rejection := Some e |}
  | Ok stop =>
      match releaseVersion env versionOptions with
      | Raise e =>
          {| calls := [StartLocalRegistry startOptions;
                       ReleaseVersion versionOptions];
             stopLocalRegistry := Some stop;
             rejection := Some e |}
      | Ok _ =>
          match releasePublish env publishOptions with
          | Raise e =>
              {| calls := [StartLocalRegistry startOptions;
                           ReleaseVersion versionOptions;
                           ReleasePublish publishOptions];
                 stopLocalRegistry := Some stop;
                 rejection := Some e |}
          | Ok _ =>
              {| calls := [StartLocalRegistry startOptions;
                           ReleaseVersion versionOptions;
                           ReleasePublish publishOptions];
                 stopLocalRegistry := Some stop;
                 rejection := None |}
          end
      end
  end.

End LocalRegistry.

(** Splits a goal about the events of an explicit trace into one goal per
    event and settles those that hold by computation. *)
Ltac event_fact :=
  first [ reflexivity | now left | now right | split; event_fact ].

Ltac each_event :=
  unfold emitsOnly; simpl;
  repeat first [apply Forall_nil | apply Forall_cons];
  try solve [ event_fact ].

(** ** The model on the cases of the test suite *)

Example split_semver : JS.split "." "1.2.3" = ["1"; "2"; "3"].
Proof. reflexivity. Qed.

Example split_single : JS.split "." "5" = ["5"].
Proof. reflexivity. Qed.

Example split_empty : JS.split "." EmptyString = [EmptyString].
Proof. reflexivity. Qed.

Example trim_stdout :
  JS.trim ("  abc1234" ++ JS.LF) = "abc1234".
Proof. reflexivity. Qed.

Example join_root_dockerfile :
  Path.join "/test/root" "docker/Dockerfile.prod"
  = "/test/root/docker/Dockerfile.prod".
Proof. reflexivity. Qed.

Example join_root_dot : Path.join "/test/root" "." = "/test/root".
Proof. reflexivity. Qed.

Example join_project_manifest :
  Path.join "apps/test-app" "package.json" = "apps/test-app/package.json".
Proof. reflexivity. Qed.

Example join_dotdot : Path.join "a/b" "../../../c/" = "../c/".
Proof. reflexivity. Qed.

Example split_trailing_dot : JS.split "." "1." = ["1"; EmptyString].
Proof. reflexivity. Qed.

Example parseTags_lines :
  parseTags ("test-app/v1.2.3" ++ JS.LF ++ JS.LF ++ "other-tag" ++ JS.LF)
  = ["test-app/v1.2.3"; "other-tag"].
Proof. reflexivity. Qed.

Example setVersion_semver :
  setVersion "1.2.3"
  = {| appVersion := Some "1.2.3";
       majorMinorVersion := Some "1.2";
       majorVersion := Some "1" |}.
Proof. reflexivity. Qed.

(** [should execute Docker build with correct parameters] *)
Example run_manifest_version :
  let run :=
    tagAndBuild
      (Fixture.envWith (Fixture.withVersion "1.2.3") (Ok EmptyString))
      Fixture.baseOptions Fixture.mockContext in
  snd run = Fulfilled succeeded
  /\ Fixture.execCommands (fst run)
     = [ "git rev-parse HEAD";
         "docker buildx build -t " ++ JS.DQ ++ "test-repo/test-app:1.2.3"
           ++ JS.DQ ++ " -t " ++ JS.DQ ++ "test-repo/test-app:sha-abc1234"
           ++ JS.DQ ++ " -f " ++ JS.DQ ++ "/test/root/Dockerfile" ++ JS.DQ
           ++ " " ++ JS.DQ ++ "/test/root" ++ JS.DQ
           ++ " --build-arg APP_VERSION=" ++ JS.DQ ++ "1.2.3" ++ JS.DQ
           ++ " --build-arg BUILD_SHA=" ++ JS.DQ ++ "abc1234" ++ JS.DQ ].
Proof. split; reflexivity. Qed.

(** [should fall back to Git tags when package.json version is not
    available] *)
Example run_tag_fallback :
  let run :=
    tagAndBuild
      (Fixture.envWith Fixture.withoutVersion
         (Ok ("test-app/v1.2.3" ++ JS.LF ++ "other-tag")))
      Fixture.baseOptions Fixture.mockContext in
  snd run = Fulfilled succeeded
  /\ In (Exec "git tag --points-at HEAD") (fst run)
  /\ In (ConsoleLog "Extracted version 1.2.3 from Git tag") (fst run).
Proof. cbv zeta. repeat split; cbv; tauto. Qed.

(** [should use custom tag prefix when provided] *)
Example run_custom_prefix :
  snd (tagAndBuild
         (Fixture.envWith Fixture.withoutVersion
            (Ok "test-app/release-1.2.3"))
         {| appName := "test-app";
            dockerRepository := "test-repo";
            buildTarget := "build";
            dockerfile := Some "Dockerfile";
            context := Some ".";
            push := false;
            additionalTags := None;
            generateMajorMinor := None;
            tagPrefix := Some "release-" |}
         Fixture.mockContext)
  = Fulfilled succeeded.
Proof. reflexivity. Qed.

(** [should fail when no version can be determined] *)
Example run_no_version :
  snd (tagAndBuild
         (Fixture.envWith Fixture.withoutVersion (Ok EmptyString))
         Fixture.baseOptions Fixture.mockContext)
  = Fulfilled failure.
Proof. reflexivity. Qed.

(** [should fail when build target fails] *)
Example run_build_fails :
  snd (tagAndBuild
         (Fixture.mkEnv (Fixture.withVersion "1.2.3") (Ok EmptyString)
            (Ok "abc1234") (Ok [failure]) (Ok Fixture.quiet))
         Fixture.baseOptions Fixture.mockContext)
  = Fulfilled failure.
Proof. reflexivity. Qed.

(** [should handle Docker build failures] *)
Example run_docker_fails :
  snd (tagAndBuild
         (Fixture.mkEnv (Fixture.withVersion "1.2.3") (Ok EmptyString)
            (Ok "abc1234") (Ok [succeeded]) (Raise "Error: Docker build failed"))
         Fixture.baseOptions Fixture.mockContext)
  = Fulfilled failure.
Proof. reflexivity. Qed.

(** [should handle missing project configuration] *)
Example run_unknown_project :
  snd (tagAndBuild
         (Fixture.envWith (Fixture.withVersion "1.2.3") (Ok EmptyString))
         Fixture.baseOptions
         {| root := "/test/root"; projects := fun _ => None |})
  = Fulfilled failure.
Proof. reflexivity. Qed.

(** A revision query that fails is not caught: the promise rejects. *)
Example run_revision_query_fails :
  snd (tagAndBuild
         (Fixture.mkEnv (Fixture.withVersion "1.2.3") (Ok EmptyString)
            (Raise "Error: not a git repository") (Ok [succeeded])
            (Ok Fixture.quiet))
         Fixture.baseOptions Fixture.mockContext)
  = Rejected "Error: not a git repository".
Proof. reflexivity. Qed.

(** An application name that is no project of the workspace but a member
    that every plain object inherits: the lookup of line 28 finds that
    member, joining the path of the manifest throws on its missing root,
    the handler of lines 60-64 warns, and the version comes from the tags.
    No manifest is read. *)
Example run_inherited_member :
  let run :=
    tagAndBuild
      (Fixture.envWith (Fixture.withVersion "1.2.3")
         (Ok "constructor/v2.0.0"))
      {| appName := "constructor";
         dockerRepository := "test-repo";
         buildTarget := "build";
         dockerfile := Some "Dockerfile";
         context := Some ".";
         push := false;
         additionalTags := None;
         generateMajorMinor := None;
         tagPrefix := None |}
      Fixture.mockContext in
  snd run = Fulfilled succeeded
  /\ firstn 5 (fst run)
     = [ConsoleLog
          (JS.LF
             ++ "---Starting Docker Image Tag & Build executor for constructor---"
             ++ JS.LF);
        ConsoleLog "Executor Options";
        ConsoleWarn
          ("Warning: General error while trying to read package.json for 'constructor': "
             ++ Fixture.invalidArgType
             ++ ". Attempting to derive from Git tags.");
        ConsoleLog "Attempting to derive version from Git tags...";
        Exec "git tag --points-at HEAD"]
  /\ filter (fun e => negb (isConsole e)) (fst run)
     = [Exec "git tag --points-at HEAD";
        RunExecutor
          {| project := "constructor";
             target := "build";
             configuration := "production" |};
        Exec "git rev-parse HEAD";
        Exec
          ("docker buildx build -t " ++ JS.DQ
             ++ "test-repo/constructor:2.0.0" ++ JS.DQ ++ " -t " ++ JS.DQ
             ++ "test-repo/constructor:sha-abc1234" ++ JS.DQ ++ " -f "
             ++ JS.DQ ++ "/test/root/Dockerfile" ++ JS.DQ ++ " " ++ JS.DQ
             ++ "/test/root" ++ JS.DQ ++ " --build-arg APP_VERSION=" ++ JS.DQ
             ++ "2.0.0" ++ JS.DQ ++ " --build-arg BUILD_SHA=" ++ JS.DQ
             ++ "abc1234" ++ JS.DQ)].
Proof. cbv zeta. repeat split. Qed.

(** A build target whose iterator throws after a result that reports
    success: nothing catches the error, the promise rejects. *)
Example run_iterator_throws :
  tagAndBuild
    (Fixture.mkEnvOn (Fixture.withVersion "1.2.3") (Ok EmptyString)
       (Ok "abc1234")
       (Ok (throwsAfter [succeeded] "Error: build process crashed"))
       (Ok Fixture.quiet))
    Fixture.baseOptions Fixture.mockContext
  = ([ConsoleLog
        (JS.LF
           ++ "---Starting Docker Image Tag & Build executor for test-app---"
           ++ JS.LF);
      ConsoleLog "Executor Options";
      ReadJsonFile "apps/test-app/package.json";
      ConsoleLog "Found version 1.2.3 in package.json";
      ConsoleLog (JS.LF ++ "Running build target 'build' for 'test-app'...");
      RunExecutor
        {| project := "test-app";
           target := "build";
           configuration := "production" |};
      ConsoleLog "Build target 'build' for 'test-app' completed successfully"],
     Rejected "Error: build process crashed").
Proof. reflexivity. Qed.

(** ** Facts about the monad *)

Section MonadFacts.

Context {A B : Type}.

Lemma bind_events (m : M A) (f : A -> M B) :
  fst (bind m f)
  = (fst m ++ match snd m with Normal a => fst (f a) | _ => [] end)%list.
Proof.
  destruct m as [t [a | r | e]]; simpl.
  - destruct (f a); reflexivity.
  - now rewrite app_nil_r.
  - now rewrite app_nil_r.
Qed.

Lemma bind_completion (m : M A) (f : A -> M B) :
  snd (bind m f)
  = match snd m with
    | Normal a => snd (f a)
    | Returned r => Returned r
    | Throw e => Throw e
    end.
Proof.
  destruct m as [t [a | r | e]]; simpl; try reflexivity.
  destruct (f a); reflexivity.
Qed.

Lemma bind_normal t a (f : A -> M B) :
  bind (t, Normal a) f = ((t ++ fst (f a))%list, snd (f a)).
Proof. simpl. destruct (f a); reflexivity. Qed.

Lemma bind_ret a (f : A -> M B) : bind (ret a) f = f a.
Proof. unfold ret. simpl. destruct (f a); reflexivity. Qed.

Lemma emitsOnly_bind (P : Event -> Prop) (m : M A) (f : A -> M B) :
  emitsOnly P m ->
  (forall a, snd m = Normal a -> emitsOnly P (f a)) ->
  emitsOnly P (bind m f).
Proof.
  unfold emitsOnly. intros Hm Hf. rewrite bind_events.
  apply Forall_app. split; [assumption |].
  destruct (snd m) eqn:E; auto.
Qed.

Lemma emitsOnly_tryCatch (P : Event -> Prop) (m : M A) (h : string -> M A) :
  emitsOnly P m ->
  (forall e, snd m = Throw e -> emitsOnly P (h e)) ->
  emitsOnly P (tryCatch m h).
Proof.
  unfold emitsOnly. intros Hm Hh.
  destruct m as [t [a | r | e]]; simpl in *; try assumption.
  specialize (Hh e eq_refl). destruct (h e) as [t' c]. simpl in *.
  apply Forall_app. auto.
Qed.

Lemma emitsOnly_weaken (P Q : Event -> Prop) (m : M A) :
  (forall e, P e -> Q e) -> emitsOnly P m -> emitsOnly Q m.
Proof. unfold emitsOnly. intros H. apply Forall_impl. exact H. Qed.

End MonadFacts.

Lemma settle_events (m : M ExecutorResult) : fst (settle m) = fst m.
Proof. destruct m as [t [a | r | e]]; reflexivity. Qed.

Lemma settle_returned t r : settle (t, Returned r) = (t, Fulfilled r).
Proof. reflexivity. Qed.

(** ** Facts about the JavaScript primitives *)

Lemma truthy_nonempty (s : string) : JS.truthy s = true <-> s <> EmptyString.
Proof.
  destruct s; simpl; split; intros H; try congruence; try reflexivity.
Qed.

Lemma split_nonempty sep s : JS.split sep s <> [].
Proof.
  destruct s as [| c s]; simpl; [discriminate |].
  destruct (Ascii.eqb c sep); [discriminate |].
  destruct (JS.split sep s); discriminate.
Qed.

Lemma forEach_push {X} (f : X -> string) (l : list X) (init : list string) :
  JS.forEach l (fun acc x => JS.push acc (f x)) init
  = (init ++ map f l)%list.
Proof.
  unfold JS.forEach, JS.push. revert init.
  induction l as [| x l IH]; intros init; simpl.
  - now rewrite app_nil_r.
  - rewrite IH, <- app_assoc. reflexivity.
Qed.

Lemma find_filter_truthy (p : string -> bool) (l : list string) tag :
  JS.find p (JS.filterBoolean l) = Some tag -> JS.truthy tag = true.
Proof.
  unfold JS.find, JS.filterBoolean. intros H.
  apply find_some in H. destruct H as [H _].
  apply filter_In in H. tauto.
Qed.

Lemma find_firstMatch re tags tag :
  firstMatch re tags tag -> JS.find (re_test re) tags = Some tag.
Proof.
  intros (before & after & -> & Hbefore & Htag).
  unfold JS.find. induction before as [| t before IH]; simpl.
  - unfold re_test. destruct (re_exec re tag); [reflexivity | congruence].
  - unfold re_test at 1. rewrite (Hbefore t (or_introl eq_refl)).
    apply IH. intros t' Ht'. apply Hbefore. now right.
Qed.

Lemma find_noMatch re tags :
  (forall t, In t tags -> re_exec re t = None) ->
  JS.find (re_test re) tags = None.
Proof.
  intros H. unfold JS.find. induction tags as [| t tags IH]; simpl.
  - reflexivity.
  - unfold re_test at 1. rewrite (H t (or_introl eq_refl)).
    apply IH. intros t' Ht'. apply H. now right.
Qed.

Lemma parseTags_truthy out tag :
  In tag (parseTags out) -> JS.truthy tag = true.
Proof.
  unfold parseTags, JS.filterBoolean. intros H.
  apply filter_In in H. tauto.
Qed.

(** ** Version resolution *)

Section Resolution.

Variable env : Env.
Variable options : TagAndBuildExecutorSchema.
Variable pc : ProjectConfiguration.

Lemma setVersion_truthy v :
  v <> EmptyString -> JS.truthy_opt (appVersion (setVersion v)) = true.
Proof. intros H. simpl. now apply truthy_nonempty. Qed.

(** A manifest with a version: two events, and the variables are set
    from it. *)
Lemma readPackageJsonVersion_yields v :
  manifestYields env pc v ->
  readPackageJsonVersion env (appName options) (projectRoot pc)
  = ([ReadJsonFile (manifestPath pc);
      ConsoleLog ("Found version " ++ v ++ " in package.json")],
     Normal (setVersion v)).
Proof.
  intros (pj & Hread & Hv & Hne).
  unfold readPackageJsonVersion, readPackageJsonVersionAt, call_pathJoin,
    call_readJsonFile.
  rewrite bind_ret. fold (manifestPath pc). rewrite Hread. simpl. rewrite Hv.
  apply truthy_nonempty in Hne.
  unfold JS.ifTruthy. rewrite Hne. reflexivity.
Qed.

(** A manifest without a usable version: a warning, and the variables
    stay unset. *)
Lemma readPackageJsonVersion_nothing :
  manifestYieldsNothing env pc ->
  exists msg,
    readPackageJsonVersion env (appName options) (projectRoot pc)
    = ([ReadJsonFile (manifestPath pc); ConsoleWarn msg], Normal unset).
Proof.
  unfold readPackageJsonVersion, readPackageJsonVersionAt, call_pathJoin,
    call_readJsonFile.
  rewrite bind_ret. fold (manifestPath pc).
  intros [(e & Hread) | (pj & Hread & [Hv | Hv])];
    rewrite Hread; simpl; try rewrite Hv; simpl; eexists; reflexivity.
Qed.

(** The manifest step never fails and sets a version only from the
    manifest. *)
Lemma readPackageJsonVersion_total :
  exists msg vs,
    readPackageJsonVersion env (appName options) (projectRoot pc)
    = ([ReadJsonFile (manifestPath pc); msg], Normal vs)
    /\ (isConsole msg = true /\ isTagGeneration msg = false)
    /\ (JS.truthy_opt (appVersion vs) = false -> vs = unset).
Proof.
  unfold readPackageJsonVersion, readPackageJsonVersionAt, call_pathJoin,
    call_readJsonFile.
  rewrite bind_ret. fold (manifestPath pc).
  destruct (readJsonFile env (manifestPath pc)) as [pj | e]; simpl.
  - destruct (version pj) as [v |]; simpl.
    + destruct (JS.truthy v) eqn:Hv; simpl.
      * do 2 eexists. split; [reflexivity |]. split; [now split |].
        simpl. congruence.
      * do 2 eexists. split; [reflexivity |]. split; [now split | auto].
    + do 2 eexists. split; [reflexivity |]. split; [now split | auto].
  - do 2 eexists. split; [reflexivity |]. split; [now split | auto].
Qed.


(** The fallback when no tag matches. *)
Lemma deriveFromGitTags_no_match vs out re :
  exec env gitTagCommand = Ok out ->
  newRegExp env (targetTagPattern options) = Ok re ->
  (forall t, In t (parseTags (stdout out)) -> re_exec re t = None) ->
  exists msg,
    deriveFromGitTags env options vs
    = ([ConsoleLog "Attempting to derive version from Git tags...";
        Exec gitTagCommand; ConsoleWarn msg],
       Normal vs).
Proof.
  intros Hexec Hre Hnone.
  unfold deriveFromGitTags, call_exec, new_RegExp.
  rewrite Hexec. simpl. rewrite Hre. simpl.
  rewrite (find_noMatch _ _ Hnone). simpl.
  eexists. reflexivity.
Qed.


(** The fallback when the first matching tag captured nothing. *)
Lemma deriveFromGitTags_empty_capture vs out re tag r :
  exec env gitTagCommand = Ok out ->
  newRegExp env (targetTagPattern options) = Ok re ->
  firstMatch re (parseTags (stdout out)) tag ->
  re_exec re tag = Some r ->
  JS.truthy_opt r = false ->
  exists msg1 msg2,
    deriveFromGitTags env options vs
    = ([ConsoleLog "Attempting to derive version from Git tags...";
        Exec gitTagCommand; ConsoleError msg1; ConsoleError msg2],
       Returned failure).
Proof.
  intros Hexec Hre Hfirst Hcap Hempty.
  assert (Htag : JS.truthy tag = true).
  { destruct Hfirst as (before & after & Heq & _).
    apply (parseTags_truthy (stdout out)). rewrite Heq.
    apply in_or_app. right. now left. }
  unfold deriveFromGitTags, call_exec, new_RegExp.
  rewrite Hexec. simpl. rewrite Hre. simpl.
  rewrite (find_firstMatch _ _ _ Hfirst). simpl.
  rewrite Htag, Hcap.
  destruct r as [rest |]; simpl in *.
  - rewrite Hempty. simpl. do 2 eexists. reflexivity.
  - do 2 eexists. reflexivity.
Qed.

(** Whatever the collaborators answer, the fallback only logs and lists
    the tags. *)
Lemma deriveFromGitTags_emits vs :
  emitsOnly (fun e => e = Exec gitTagCommand \/ isConsole e = true)
    (deriveFromGitTags env options vs).
Proof.
  unfold emitsOnly, deriveFromGitTags, call_exec, new_RegExp.
  destruct (exec env gitTagCommand) as [out | e]; [| each_event].
  simpl.
  destruct (newRegExp env (targetTagPattern options)) as [re | e];
    [| each_event].
  simpl.
  destruct (JS.find (re_test re) (parseTags (stdout out))) as [tag |];
    [| each_event].
  simpl.
  destruct (JS.truthy tag); [| each_event].
  destruct (capturedVersion (re_exec re tag)); each_event.
Qed.

(** A version in the manifest settles resolution on the spot. *)
Lemma resolveVersion_manifest v :
  manifestYields env pc v ->
  resolveVersion env options (projectRoot pc)
  = ([ReadJsonFile (manifestPath pc);
      ConsoleLog ("Found version " ++ v ++ " in package.json")],
     Normal (setVersion v)).
Proof.
  intros H. unfold resolveVersion, resolveVersionAt.
  fold (readPackageJsonVersion env (appName options) (projectRoot pc)).
  rewrite (readPackageJsonVersion_yields v H).
  destruct H as (_ & _ & _ & Hne).
  cbv beta iota delta [bind ret].
  rewrite (setVersion_truthy v Hne). cbv beta iota delta [negb].
  rewrite (setVersion_truthy v Hne). reflexivity.
Qed.

(** Without a version in the manifest, resolution is the fallback
    followed by the final check. *)
Lemma resolveVersion_fallback :
  manifestYieldsNothing env pc ->
  exists msg,
    resolveVersion env options (projectRoot pc)
    = match deriveFromGitTags env options unset with
      | (t, Normal vs) =>
          if JS.truthy_opt (appVersion vs)
          then (ReadJsonFile (manifestPath pc) :: ConsoleWarn msg :: t,
                Normal vs)
          else (ReadJsonFile (manifestPath pc) :: ConsoleWarn msg
                  :: (t ++ [ConsoleError
                              (JS.LF
                                 ++ "Error: Could not determine version for '"
                                 ++ appName options
                                 ++ "'. Please ensure your project has a version set in package.json or a corresponding Git tag exists.")])%list,
                Returned failure)
      | (t, Returned r) =>
          (ReadJsonFile (manifestPath pc) :: ConsoleWarn msg :: t,
           Returned r)
      | (t, Throw e) =>
          (ReadJsonFile (manifestPath pc) :: ConsoleWarn msg :: t, Throw e)
      end.
Proof.
  intros H. destruct (readPackageJsonVersion_nothing H) as (msg & Hread).
  exists msg. unfold resolveVersion, resolveVersionAt.
  fold (readPackageJsonVersion env (appName options) (projectRoot pc)). rewrite Hread.
  cbv beta iota delta [bind ret].
  change (JS.truthy_opt (appVersion unset)) with false.
  cbv beta iota delta [negb].
  destruct (deriveFromGitTags env options unset) as [t [vs | r | e]];
    try reflexivity.
  destruct (JS.truthy_opt (appVersion vs)); simpl;
    [now rewrite app_nil_r | reflexivity].
Qed.

(** Resolution emits nothing of the later steps. *)
Lemma resolveVersion_emits :
  emitsOnly
    (fun e => (isVersionResolution e = true \/ isConsole e = true)
              /\ beforeBuild e)
    (resolveVersion env options (projectRoot pc)).
Proof.
  assert (Hd : forall vs,
             emitsOnly
               (fun e => (isVersionResolution e = true
                          \/ isConsole e = true) /\ beforeBuild e)
               (deriveFromGitTags env options vs)).
  { intros vs.
    unfold emitsOnly, deriveFromGitTags, call_exec, new_RegExp, beforeBuild.
    destruct (exec env gitTagCommand) as [out | e]; [| each_event].
    simpl.
    destruct (newRegExp env (targetTagPattern options)) as [re | e];
      [| each_event].
    simpl.
    destruct (JS.find (re_test re) (parseTags (stdout out))) as [tag |];
      [| each_event].
    simpl.
    destruct (JS.truthy tag); [| each_event].
    destruct (capturedVersion (re_exec re tag)); each_event. }
  unfold resolveVersion, resolveVersionAt.
  fold (readPackageJsonVersion env (appName options) (projectRoot pc)).
  destruct readPackageJsonVersion_total
    as (msg & vs & Hread & (Hmsg & Hgen) & _).
  rewrite Hread.
  apply emitsOnly_bind.
  - unfold beforeBuild.
    destruct msg; try discriminate; each_event; repeat split; auto.
  - intros a Ha. simpl in Ha. injection Ha as <-.
    apply emitsOnly_bind.
    + destruct (negb (JS.truthy_opt (appVersion vs)));
        [apply Hd | each_event].
    + intros a _. unfold beforeBuild.
      destruct (negb (JS.truthy_opt (appVersion a))); each_event.
Qed.

End Resolution.

(** ** Version resolution for any value of the project root *)

Section ResolutionAt.

Variable env : Env.
Variable options : TagAndBuildExecutorSchema.

(** Without a root, joining the path of the manifest throws: the handler
    of lines 60-64 logs its warning, no file is read and the variables stay
    unset. *)
Lemma readPackageJsonVersionAt_undefined :
  readPackageJsonVersionAt env (appName options) None
  = ([ConsoleWarn (generalErrorMessage options (joinTypeError env))],
     Normal unset).
Proof. reflexivity. Qed.

(** Without a root, resolution is the warning, the fallback and the final
    check. *)
Lemma resolveVersionAt_undefined :
  resolveVersionAt env options None
  = let warning :=
      ConsoleWarn (generalErrorMessage options (joinTypeError env)) in
    match deriveFromGitTags env options unset with
    | (t, Normal vs) =>
        if JS.truthy_opt (appVersion vs)
        then (warning :: t, Normal vs)
        else (warning
                :: (t ++ [ConsoleError
                            (JS.LF
                               ++ "Error: Could not determine version for '"
                               ++ appName options
                               ++ "'. Please ensure your project has a version set in package.json or a corresponding Git tag exists.")])%list,
              Returned failure)
    | (t, Returned r) => (warning :: t, Returned r)
    | (t, Throw e) => (warning :: t, Throw e)
    end.
Proof.
  unfold resolveVersionAt. rewrite readPackageJsonVersionAt_undefined.
  cbv beta iota zeta delta [bind ret].
  change (JS.truthy_opt (appVersion unset)) with false.
  cbv beta iota delta [negb].
  destruct (deriveFromGitTags env options unset) as [t [vs | r | e]];
    try reflexivity.
  destruct (JS.truthy_opt (appVersion vs)); simpl;
    [now rewrite app_nil_r | reflexivity].
Qed.

(** The fallback emits nothing of the later steps. *)
Lemma deriveFromGitTags_before_build vs :
  emitsOnly
    (fun e => (isVersionResolution e = true \/ isConsole e = true)
              /\ beforeBuild e)
    (deriveFromGitTags env options vs).
Proof.
  unfold emitsOnly, deriveFromGitTags, call_exec, new_RegExp, beforeBuild.
  destruct (exec env gitTagCommand) as [out | e]; [| each_event].
  simpl.
  destruct (newRegExp env (targetTagPattern options)) as [re | e];
    [| each_event].
  simpl.
  destruct (JS.find (re_test re) (parseTags (stdout out))) as [tag |];
    [| each_event].
  simpl.
  destruct (JS.truthy tag); [| each_event].
  destruct (capturedVersion (re_exec re tag)); each_event.
Qed.

(** Resolution emits nothing of the later steps, whatever the root. *)
Lemma resolveVersionAt_emits projectRoot :
  emitsOnly
    (fun e => (isVersionResolution e = true \/ isConsole e = true)
              /\ beforeBuild e)
    (resolveVersionAt env options projectRoot).
Proof.
  destruct projectRoot as [dir |].
  - exact (resolveVersion_emits env options {| projectRoot := dir |}).
  - rewrite resolveVersionAt_undefined. cbv zeta.
    pose proof (deriveFromGitTags_before_build unset) as Hd'.
    unfold emitsOnly in *.
    destruct (deriveFromGitTags env options unset) as [t [vs | r | e]];
      cbn [fst] in *.
    + destruct (JS.truthy_opt (appVersion vs)); cbn [fst].
      * constructor; [now repeat split; auto | exact Hd'].
      * constructor; [now repeat split; auto |].
        apply Forall_app. split; [exact Hd' | each_event].
    + constructor; [now repeat split; auto | exact Hd'].
    + constructor; [now repeat split; auto | exact Hd'].
Qed.

End ResolutionAt.

(** ** The build target, tag generation and the container build *)

Lemma append_assoc (a b c : string) : (a ++ b) ++ c = a ++ (b ++ c).
Proof. induction a as [| x a IH]; simpl; [reflexivity | now rewrite IH]. Qed.

Lemma forEach_append {X} (g : X -> string) (l : list X) (init : string) :
  exists r, JS.forEach l (fun cmd x => cmd ++ g x) init = init ++ r.
Proof.
  unfold JS.forEach. revert init.
  induction l as [| x l IH]; intros init; simpl.
  - exists EmptyString. induction init; simpl; congruence.
  - destruct (IH (init ++ g x)) as (r & ->).
    exists (g x ++ r). apply append_assoc.
Qed.

Section Orchestration.

Variable env : Env.
Variable options : TagAndBuildExecutorSchema.
Variable ctx : ExecutorContext.

(** Results that all report success are all consumed, one log line
    each, before the loop ends as the iterator does. *)
Lemma awaitResults_all_succeed results atEnd onReturn :
  forallb success results = true ->
  awaitResults options results atEnd onReturn
  = ((map (fun _ => ConsoleLog (completedMessage options)) results
        ++ fst atEnd)%list, snd atEnd).
Proof.
  induction results as [| r results IH]; simpl; intros H.
  - now destruct atEnd.
  - apply andb_prop in H. destruct H as [Hr Hrest].
    rewrite Hr. rewrite (IH Hrest). reflexivity.
Qed.

(** At the first result that reports failure the loop is left, however
    the iterator would have ended. *)
Lemma awaitResults_failure results atEnd c :
  existsb (fun r => negb (success r)) results = true ->
  exists t,
    awaitResults options results atEnd ([], c) = (t, c)
    /\ Forall (fun e => isConsole e = true /\ beforeTags e) t.
Proof.
  induction results as [| r results IH]; simpl; intros H.
  - discriminate.
  - destruct (success r); simpl in *.
    + destruct (IH H) as (t & -> & Ht).
      eexists. split; [reflexivity |].
      constructor; [event_fact | exact Ht].
    + eexists. split; [reflexivity | each_event].
Qed.

Lemma awaitResults_emits results atEnd onReturn :
  fst atEnd = [] -> fst onReturn = [] ->
  emitsOnly (fun e => isConsole e = true /\ beforeTags e)
    (awaitResults options results atEnd onReturn).
Proof.
  unfold emitsOnly. intros Hend Hret.
  induction results as [| r results IH]; simpl.
  - rewrite Hend. constructor.
  - destruct (success r); simpl.
    + destruct (awaitResults options results atEnd onReturn) as [t c].
      simpl in *. constructor; [event_fact | exact IH].
    + destruct onReturn as [t c]. simpl in *. subst t. each_event.
Qed.

Lemma awaitBuildResults_all_succeed buildResult :
  forallb success (yielded buildResult) = true ->
  awaitBuildResults options buildResult
  = (map (fun _ => ConsoleLog (completedMessage options))
       (yielded buildResult),
     loopEnd buildResult).
Proof.
  intros H. unfold awaitBuildResults, loopEnd.
  rewrite (awaitResults_all_succeed _ _ _ H).
  destruct (ending buildResult); cbn [fst snd ret];
    now rewrite app_nil_r.
Qed.

Lemma awaitBuildResults_failure buildResult :
  existsb (fun r => negb (success r)) (yielded buildResult) = true ->
  exists t,
    awaitBuildResults options buildResult = (t, loopExit buildResult)
    /\ Forall (fun e => isConsole e = true /\ beforeTags e) t.
Proof.
  intros H. unfold awaitBuildResults, loopExit.
  destruct (closing buildResult); now apply awaitResults_failure.
Qed.

Lemma awaitBuildResults_emits buildResult :
  emitsOnly (fun e => isConsole e = true /\ beforeTags e)
    (awaitBuildResults options buildResult).
Proof.
  unfold awaitBuildResults.
  apply awaitResults_emits;
    [destruct (ending buildResult) | destruct (closing buildResult)];
    reflexivity.
Qed.

(** The build step: the announcement, the call, then the results. *)
Lemma runBuildTarget_unfold :
  runBuildTarget env options ctx
  = match runExecutor env (buildTargetOf options) ctx with
    | Ok buildResult =>
        let (t, c) := awaitBuildResults options buildResult in
        (ConsoleLog (runningMessage options)
           :: RunExecutor (buildTargetOf options) :: t, c)
    | Raise e =>
        ([ConsoleLog (runningMessage options);
          RunExecutor (buildTargetOf options)], Throw e)
    end.
Proof.
  unfold runBuildTarget, call_runExecutor. fold (buildTargetOf options).
  destruct (runExecutor env (buildTargetOf options) ctx)
    as [buildResult | e]; simpl; [| reflexivity].
  destruct (awaitBuildResults options buildResult). reflexivity.
Qed.

Lemma runBuildTarget_emits :
  emitsOnly
    (fun e => (e = RunExecutor (buildTargetOf options)
               \/ isConsole e = true)
              /\ isVersionResolution e = false /\ beforeTags e)
    (runBuildTarget env options ctx).
Proof.
  rewrite runBuildTarget_unfold.
  destruct (runExecutor env (buildTargetOf options) ctx)
    as [buildResult | e].
  - pose proof (awaitBuildResults_emits buildResult) as H.
    destruct (awaitBuildResults options buildResult) as [t c].
    unfold emitsOnly in *. simpl in *.
    constructor; [event_fact |]. constructor; [event_fact |].
    eapply Forall_impl; [| exact H].
    intros e (Hc & Hb). split; [now right |]. split; [| exact Hb].
    destruct e; try discriminate; reflexivity.
  - each_event.
Qed.

(** Tag generation when the revision query answers. *)
Lemma generateDockerTags_ok vs out :
  exec env gitShaCommand = Ok out ->
  generateDockerTags env options vs
  = ([Exec gitShaCommand;
      ConsoleLog
        (JS.LF ++ "Generated Docker Tags: "
           ++ JS.join ", "
                (JS.push (versionTags options vs)
                   (baseImageName options ++ ":sha-"
                      ++ revisionShaShort out)))],
     Normal
       (JS.push (versionTags options vs)
          (baseImageName options ++ ":sha-" ++ revisionShaShort out),
        revisionShaShort out)).
Proof.
  intros H. unfold generateDockerTags, call_exec. rewrite H. reflexivity.
Qed.

(** Tag generation when the revision query fails: the executor throws. *)
Lemma generateDockerTags_raise vs e :
  exec env gitShaCommand = Raise e ->
  generateDockerTags env options vs = ([Exec gitShaCommand], Throw e).
Proof.
  intros H. unfold generateDockerTags, call_exec. rewrite H. reflexivity.
Qed.

Lemma generateDockerTags_emits vs :
  emitsOnly
    (fun e => (e = Exec gitShaCommand \/ isConsole e = true)
              /\ isVersionResolution e = false
              /\ isBuildTarget e = false
              /\ isContainerBuild e = false)
    (generateDockerTags env options vs).
Proof.
  destruct (exec env gitShaCommand) as [out | e] eqn:H.
  - rewrite (generateDockerTags_ok vs out H). each_event.
  - rewrite (generateDockerTags_raise vs e H). each_event.
Qed.

(** The command line starts with the name of the builder. *)
Lemma dockerCommand_start vs dockerTags gitSha :
  exists r,
    dockerCommand options ctx vs dockerTags gitSha
    = "docker buildx build" ++ r.
Proof.
  unfold dockerCommand.
  destruct (forEach_append
              (fun tag => " -t " ++ JS.DQ ++ tag ++ JS.DQ) dockerTags
              (if push options then "docker buildx build" ++ " --push"
               else "docker buildx build")) as (r & Hr).
  rewrite Hr.
  destruct (push options);
    repeat rewrite append_assoc; eexists; reflexivity.
Qed.

Lemma dockerCommand_isContainerBuild vs dockerTags gitSha :
  isContainerBuild (Exec (dockerCommand options ctx vs dockerTags gitSha))
  = true
  /\ isGitCommand (dockerCommand options ctx vs dockerTags gitSha) = false.
Proof.
  destruct (dockerCommand_start vs dockerTags gitSha) as (r & ->).
  split; [destruct r |]; reflexivity.
Qed.

(** The container build runs exactly one command, the one composed from
    the options, the tags and the revision. *)
Lemma dockerBuild_emits vs dockerTags gitSha :
  emitsOnly
    (fun e => (e = Exec (dockerCommand options ctx vs dockerTags gitSha)
               \/ isConsole e = true)
              /\ isVersionResolution e = false
              /\ isBuildTarget e = false)
    (dockerBuild env options ctx vs dockerTags gitSha).
Proof.
  unfold dockerBuild, call_exec.
  destruct (dockerCommand_start vs dockerTags gitSha) as (r & Hr).
  destruct (exec env (dockerCommand options ctx vs dockerTags gitSha))
    as [out | e].
  - simpl. destruct (JS.truthy (stderr out)); each_event;
      (split; [now left | rewrite Hr; split; reflexivity]).
  - each_event; (split; [now left | rewrite Hr; split; reflexivity]).
Qed.

End Orchestration.

(** ** The executor as a whole *)

Section Invocation.

Variable env : Env.
Variable options : TagAndBuildExecutorSchema.
Variable ctx : ExecutorContext.

(** A project of the workspace is found, with its root. *)
Lemma lookupProjectRoot_known pc :
  projects ctx (appName options) = Some pc ->
  lookupProjectRoot ctx (appName options) = Some (Some (projectRoot pc)).
Proof. intros H. unfold lookupProjectRoot. now rewrite H. Qed.

(** The three ways the lookup of the project can go. *)
Lemma lookupProjectRoot_cases :
  (exists pc,
     projects ctx (appName options) = Some pc
     /\ lookupProjectRoot ctx (appName options)
        = Some (Some (projectRoot pc)))
  \/ (projects ctx (appName options) = None
      /\ JS.inherited (appName options) = true
      /\ lookupProjectRoot ctx (appName options) = Some None)
  \/ (projects ctx (appName options) = None
      /\ JS.inherited (appName options) = false
      /\ lookupProjectRoot ctx (appName options) = None).
Proof.
  unfold lookupProjectRoot.
  destruct (projects ctx (appName options)) as [pc |].
  - left. now exists pc.
  - destruct (JS.inherited (appName options)); auto.
Qed.

(** A name that the lookup does not find ends the invocation at once. *)
Lemma tagAndBuild_unknown_project :
  lookupProjectRoot ctx (appName options) = None ->
  tagAndBuild env options ctx
  = ((header options ++ [ConsoleError (notFoundMessage options)])%list,
     Fulfilled failure).
Proof.
  intros H. unfold tagAndBuild, tagAndBuildBody. rewrite H. reflexivity.
Qed.

(** When the lookup finds something the invocation is the header followed
    by the four steps, each one run only when the one before carried
    on. *)
Lemma tagAndBuild_steps_at projectRoot :
  lookupProjectRoot ctx (appName options) = Some projectRoot ->
  tagAndBuild env options ctx
  = match resolveVersionAt env options projectRoot with
    | (t1, Normal vs) =>
        match runBuildTarget env options ctx with
        | (t2, Normal _) =>
            match generateDockerTags env options vs with
            | (t3, Normal (dockerTags, gitSha)) =>
                let (t4, c) :=
                  dockerBuild env options ctx vs dockerTags gitSha in
                settle ((header options ++ t1 ++ t2 ++ t3 ++ t4)%list, c)
            | (t3, Returned r) =>
                ((header options ++ t1 ++ t2 ++ t3)%list, Fulfilled r)
            | (t3, Throw e) =>
                ((header options ++ t1 ++ t2 ++ t3)%list, Rejected e)
            end
        | (t2, Returned r) =>
            ((header options ++ t1 ++ t2)%list, Fulfilled r)
        | (t2, Throw e) => ((header options ++ t1 ++ t2)%list, Rejected e)
        end
    | (t1, Returned r) => ((header options ++ t1)%list, Fulfilled r)
    | (t1, Throw e) => ((header options ++ t1)%list, Rejected e)
    end.
Proof.
  intros H. unfold tagAndBuild, tagAndBuildBody. rewrite H.
  cbv beta iota delta [bind consoleLog emit header].
  destruct (resolveVersionAt env options projectRoot)
    as [t1 [vs | r | e]]; try reflexivity.
  destruct (runBuildTarget env options ctx) as [t2 [[] | r | e]];
    try reflexivity.
  destruct (generateDockerTags env options vs)
    as [t3 [[dockerTags gitSha] | r | e]]; try reflexivity.
  cbv beta iota delta [fst snd].
  destruct (dockerBuild env options ctx vs dockerTags gitSha)
    as [t4 [a | r | e]]; reflexivity.
Qed.

(** For a known project the invocation is the header followed by the
    four steps, each one run only when the one before carried on. *)
Lemma tagAndBuild_steps pc :
  projects ctx (appName options) = Some pc ->
  tagAndBuild env options ctx
  = match resolveVersion env options (projectRoot pc) with
    | (t1, Normal vs) =>
        match runBuildTarget env options ctx with
        | (t2, Normal _) =>
            match generateDockerTags env options vs with
            | (t3, Normal (dockerTags, gitSha)) =>
                let (t4, c) :=
                  dockerBuild env options ctx vs dockerTags gitSha in
                settle ((header options ++ t1 ++ t2 ++ t3 ++ t4)%list, c)
            | (t3, Returned r) =>
                ((header options ++ t1 ++ t2 ++ t3)%list, Fulfilled r)
            | (t3, Throw e) =>
                ((header options ++ t1 ++ t2 ++ t3)%list, Rejected e)
            end
        | (t2, Returned r) =>
            ((header options ++ t1 ++ t2)%list, Fulfilled r)
        | (t2, Throw e) => ((header options ++ t1 ++ t2)%list, Rejected e)
        end
    | (t1, Returned r) => ((header options ++ t1)%list, Fulfilled r)
    | (t1, Throw e) => ((header options ++ t1)%list, Rejected e)
    end.
Proof.
  intros H.
  exact (tagAndBuild_steps_at (Some (projectRoot pc))
           (lookupProjectRoot_known pc H)).
Qed.

End Invocation.

(** ** The version of the manifest *)

(** The variables after a version was found: the version itself, its
    first segment as major, and the first segment, a dot and the second
    segment as minor compound, where a missing second segment is rendered
    as the text [undefined]. *)
Lemma setVersion_segments v :
  exists major rest,
    JS.split "." v = major :: rest
    /\ setVersion v
       = {| appVersion := Some v;
            majorMinorVersion :=
              Some (major ++ "."
                      ++ match rest with
                         | minor :: _ => minor
                         | [] => "undefined"
                         end);
            majorVersion := Some major |}.
Proof.
  unfold setVersion.
  destruct (JS.split "." v) as [| major rest] eqn:E.
  - now apply split_nonempty in E.
  - exists major, rest. split; [reflexivity |].
    destruct rest; reflexivity.
Qed.

(** With two segments or more, major and minor compound are the first one
    and the first two segments of the version. *)
Lemma setVersion_two_segments v a b rest :
  JS.split "." v = a :: b :: rest ->
  majorVersion (setVersion v) = Some (Spec.firstSegments 1 v)
  /\ majorMinorVersion (setVersion v) = Some (Spec.firstSegments 2 v).
Proof.
  intros H. unfold setVersion, Spec.firstSegments. rewrite H. simpl.
  split; reflexivity.
Qed.

(** A version in the manifest is the resolved version, whatever the
    revision tags are: the answers of [exec] play no part. *)
Lemma manifest_version_authoritative env options pc v :
  manifestYields env pc v ->
  exists t vs,
    resolveVersion env options (projectRoot pc) = (t, Normal vs)
    /\ appVersion vs = Some v
    /\ majorVersion vs = Some (Spec.firstSegments 1 v)
    /\ (forall a b rest,
          JS.split "." v = a :: b :: rest ->
          majorMinorVersion vs = Some (Spec.firstSegments 2 v))
    /\ Forall (fun e => isVersionResolution e = true -> exists p, e = ReadJsonFile p) t.
Proof.
  intros H. rewrite (resolveVersion_manifest env options pc v H).
  do 2 eexists. split; [reflexivity |].
  split; [reflexivity |]. split; [| split].
  - unfold setVersion, Spec.firstSegments.
    destruct (JS.split "." v) as [| major rest] eqn:E.
    + now apply split_nonempty in E.
    + reflexivity.
  - intros a b rest Hs. now apply (setVersion_two_segments v a b rest).
  - repeat constructor; simpl; intros; try discriminate. eexists; reflexivity.
Qed.

(** C1, evaluated on the manifest version [5]: the version and the major
    are [5], but the minor compound is [5.undefined], where the first two
    dot-separated segments of the version make [5]. *)
Theorem single_segment_manifest_version :
  resolveVersion (Fixture.envWith (Fixture.withVersion "5") (Ok EmptyString))
    Fixture.baseOptions "apps/test-app"
  = ([ReadJsonFile "apps/test-app/package.json";
      ConsoleLog "Found version 5 in package.json"],
     Normal {| appVersion := Some "5";
               majorMinorVersion := Some "5.undefined";
               majorVersion := Some "5" |})
  /\ Spec.firstSegments 1 "5" = "5"
  /\ Spec.firstSegments 2 "5" = "5".
Proof. repeat split. Qed.

(** ** The version of the revision tags *)

(** The prefix of the pattern: the configured one, and [v] when none or an
    empty one is configured. *)
Lemma effectiveTagPrefix_cases options :
  (tagPrefix options = None -> effectiveTagPrefix options = "v")
  /\ (tagPrefix options = Some EmptyString -> effectiveTagPrefix options = "v")
  /\ (forall p, tagPrefix options = Some p -> p <> EmptyString ->
                effectiveTagPrefix options = p).
Proof.
  unfold effectiveTagPrefix, JS.orElse, JS.ifTruthy.
  repeat split.
  - now intros ->.
  - now intros ->.
  - intros p -> Hp. apply truthy_nonempty in Hp. now rewrite Hp.
Qed.

Section TagFallback.

Variable env : Env.
Variable options : TagAndBuildExecutorSchema.
Variable pc : ProjectConfiguration.
Variable out : ExecOutput.
Variable re : RegExp.

Hypothesis manifest_silent : manifestYieldsNothing env pc.
Hypothesis listing : exec env gitTagCommand = Ok out.
Hypothesis pattern :
  newRegExp env
    ("^" ++ appName options ++ "/" ++ effectiveTagPrefix options ++ "(.*)$")
  = Ok re.


(** The first matching tag with an empty capture ends the executor;
    the tags after it are not looked at. *)
Lemma resolveVersion_empty_capture tag r :
  firstMatch re (parseTags (stdout out)) tag ->
  re_exec re tag = Some r ->
  JS.truthy_opt r = false ->
  exists msg msg1 msg2,
    resolveVersion env options (projectRoot pc)
    = ([ReadJsonFile (manifestPath pc); ConsoleWarn msg;
        ConsoleLog "Attempting to derive version from Git tags...";
        Exec gitTagCommand; ConsoleError msg1; ConsoleError msg2],
       Returned failure).
Proof.
  intros Hfirst Hcap Hempty.
  destruct (resolveVersion_fallback env options pc manifest_silent)
    as (msg & ->).
  destruct (deriveFromGitTags_empty_capture env options unset out re tag r
              listing pattern Hfirst Hcap Hempty) as (msg1 & msg2 & ->).
  do 3 eexists. reflexivity.
Qed.

(** No matching tag: the fallback leaves the variables unset and the
    final check ends the executor. *)
Lemma resolveVersion_no_match :
  (forall t, In t (parseTags (stdout out)) -> re_exec re t = None) ->
  exists msg msg1 msg2,
    resolveVersion env options (projectRoot pc)
    = ([ReadJsonFile (manifestPath pc); ConsoleWarn msg;
        ConsoleLog "Attempting to derive version from Git tags...";
        Exec gitTagCommand; ConsoleWarn msg1; ConsoleError msg2],
       Returned failure).
Proof.
  intros Hnone.
  destruct (resolveVersion_fallback env options pc manifest_silent)
    as (msg & ->).
  destruct (deriveFromGitTags_no_match env options unset out re
              listing pattern Hnone) as (msg1 & ->).
  do 3 eexists. reflexivity.
Qed.

End TagFallback.




(** ** The tag list *)

Lemma length_append (a b : string) :
  String.length (a ++ b) = String.length a + String.length b.
Proof. induction a as [| c a IH]; simpl; [reflexivity | now rewrite IH]. Qed.

(** The minor compound holds a dot more than the major: the two never
    coincide, and the minor compound is never empty. *)
Lemma setVersion_major_shorter v major minorCompound :
  setVersion v
  = {| appVersion := Some v;
       majorMinorVersion := Some minorCompound;
       majorVersion := Some major |} ->
  String.length major < String.length minorCompound.
Proof.
  destruct (setVersion_segments v) as (major' & rest & _ & ->).
  intros H. injection H as <- <-.
  rewrite length_append. simpl. lia.
Qed.

(** No version has both its major and its minor compound equal to
    itself. *)
Lemma major_and_minorCompound_never_both_version v :
  ~ (majorVersion (setVersion v) = Some v
     /\ majorMinorVersion (setVersion v) = Some v).
Proof.
  intros [Hmajor Hminor].
  destruct (setVersion_segments v) as (major & rest & _ & Hset).
  pose proof (setVersion_major_shorter v major _ Hset) as Hlt.
  rewrite Hset in Hmajor, Hminor. simpl in *.
  injection Hmajor as ->. injection Hminor as Hminor.
  rewrite Hminor in Hlt. lia.
Qed.

Lemma imageRef_baseImageName options label :
  baseImageName options ++ ":" ++ label
  = Spec.imageRef (dockerRepository options) (appName options) label.
Proof.
  unfold baseImageName, Spec.imageRef. now rewrite !append_assoc.
Qed.

Lemma imageRef_revision options sha :
  baseImageName options ++ ":sha-" ++ sha
  = Spec.imageRef (dockerRepository options) (appName options)
      ("sha-" ++ sha).
Proof. exact (imageRef_baseImageName options ("sha-" ++ sha)). Qed.

(** The tags pushed before the revision is queried, label by label. *)
Lemma versionTags_labels options v major minorCompound :
  setVersion v
  = {| appVersion := Some v;
       majorMinorVersion := Some minorCompound;
       majorVersion := Some major |} ->
  versionTags options (setVersion v)
  = map (Spec.imageRef (dockerRepository options) (appName options))
      ([v]
         ++ (if generateMajorMinorOr options
             then (if minorCompound =? v then [] else [minorCompound])
                    ++ (if (major =? EmptyString) || (major =? v)
                           || (major =? minorCompound)
                        then [] else [major])
             else [])
         ++ additionalTagsOr options)%list.
Proof.
  intros Hset.
  assert (Hmc : JS.truthy minorCompound = true).
  { pose proof (setVersion_major_shorter v major minorCompound Hset).
    destruct minorCompound; [simpl in *; lia | reflexivity]. }
  rewrite Hset. unfold versionTags, generateMajorMinorOr, additionalTagsOr.
  cbn [appVersion majorMinorVersion majorVersion JS.truthy_opt JS.strictEq
       JS.interp].
  rewrite Hmc. rewrite !imageRef_baseImageName.
  assert (Hextra :
    forall init,
      match additionalTags options with
      | Some extra =>
          if Nat.ltb 0 (List.length extra)
          then JS.forEach extra
                 (fun dockerTags tag =>
                    JS.push dockerTags (baseImageName options ++ ":" ++ tag))
                 init
          else init
      | None => init
      end
      = (init
           ++ map (Spec.imageRef (dockerRepository options) (appName options))
                match additionalTags options with
                | Some l => l
                | None => []
                end)%list).
  { intros init. destruct (additionalTags options) as [[| x extra] |].
    - cbn [List.length Nat.ltb Nat.leb map]. now rewrite app_nil_r.
    - cbn [List.length Nat.ltb Nat.leb].
      rewrite (forEach_push
                 (fun tag => baseImageName options ++ ":" ++ tag)).
      f_equal. apply map_ext. intros tag. apply imageRef_baseImageName.
    - cbn [map]. now rewrite app_nil_r. }
  rewrite Hextra. unfold JS.push.
  destruct (generateMajorMinor options) as [[|] |]; try reflexivity.
  destruct (minorCompound =? v), (major =? v), (major =? minorCompound),
    major; reflexivity.
Qed.

(** C3 as stated fails on the version [.5.1], whose major is empty: the
    minor compound [.5] differs from the version and the empty major
    differs from both, yet no tag is built from the major. *)
Lemma empty_major_gets_no_tag :
  let env :=
    Fixture.envWith (Fixture.withVersion ".5.1") (Ok EmptyString) in
  let options :=
    {| appName := "test-app";
       dockerRepository := "test-repo";
       buildTarget := "build";
       dockerfile := Some "Dockerfile";
       context := Some ".";
       push := false;
       additionalTags := None;
       generateMajorMinor := Some true;
       tagPrefix := None |} in
  setVersion ".5.1"
  = {| appVersion := Some ".5.1";
       majorMinorVersion := Some ".5";
       majorVersion := Some EmptyString |}
  /\ snd (generateDockerTags env options (setVersion ".5.1"))
     = Normal (["test-repo/test-app:.5.1"; "test-repo/test-app:.5";
                "test-repo/test-app:sha-abc1234"], "abc1234")
  /\ map (Spec.imageRef "test-repo" "test-app")
       (Spec.labels ".5.1" EmptyString ".5" true [] "abc1234")
     = ["test-repo/test-app:.5.1"; "test-repo/test-app:.5";
        "test-repo/test-app:"; "test-repo/test-app:sha-abc1234"]
  /\ snd (generateDockerTags env options (setVersion ".5.1"))
     <> Normal (map (Spec.imageRef "test-repo" "test-app")
                  (Spec.labels ".5.1" EmptyString ".5" true [] "abc1234"),
                "abc1234").
Proof. cbv zeta. repeat split. discriminate. Qed.

(** C3, amended: the tag list is, in order, the version tag; with
    [generateMajorMinor], the minor-compound tag when the minor compound
    differs from the version, then the major tag when the major is not
    empty and differs from both; one tag per additional tag, in the
    caller's order; and last the revision tag, built from the first seven
    characters of the trimmed revision identifier. *)
Theorem docker_tags_in_order env options v major minorCompound out :
  setVersion v
  = {| appVersion := Some v;
       majorMinorVersion := Some minorCompound;
       majorVersion := Some major |} ->
  exec env gitShaCommand = Ok out ->
  exists t,
    generateDockerTags env options (setVersion v)
    = (t,
       Normal
         (map (Spec.imageRef (dockerRepository options) (appName options))
            (Spec.labelsNonEmptyMajor v major minorCompound
               (generateMajorMinorOr options) (additionalTagsOr options)
               (JS.substring0 7 (JS.trim (stdout out)))),
          JS.substring0 7 (JS.trim (stdout out)))).
Proof.
  intros Hset Hexec.
  rewrite (generateDockerTags_ok env options (setVersion v) out Hexec).
  eexists. f_equal. f_equal. f_equal.
  rewrite (versionTags_labels options v major minorCompound Hset).
  unfold JS.push, Spec.labelsNonEmptyMajor, revisionShaShort.
  rewrite imageRef_revision.
  rewrite <- (map_cons (Spec.imageRef _ _) _ []), <- map_app.
  f_equal. cbv zeta. rewrite <- !app_assoc. reflexivity.
Qed.

Lemma docker_tags_in_order_witness :
  exists t,
    generateDockerTags
      (Fixture.envWith (Fixture.withVersion "1.2.3") (Ok EmptyString))
      {| appName := "test-app";
         dockerRepository := "test-repo";
         buildTarget := "build";
         dockerfile := Some "Dockerfile";
         context := Some ".";
         push := true;
         additionalTags := Some ["latest"];
         generateMajorMinor := Some true;
         tagPrefix := None |}
      (setVersion "1.2.3")
    = (t,
       Normal (["test-repo/test-app:1.2.3"; "test-repo/test-app:1.2";
                "test-repo/test-app:1"; "test-repo/test-app:latest";
                "test-repo/test-app:sha-abc1234"], "abc1234")).
Proof.
  exact (docker_tags_in_order
           (Fixture.envWith (Fixture.withVersion "1.2.3") (Ok EmptyString))
           {| appName := "test-app";
              dockerRepository := "test-repo";
              buildTarget := "build";
              dockerfile := Some "Dockerfile";
              context := Some ".";
              push := true;
              additionalTags := Some ["latest"];
              generateMajorMinor := Some true;
              tagPrefix := None |}
           "1.2.3" "1" "1.2"
           {| stdout := "abc1234"; stderr := EmptyString |}
           eq_refl eq_refl).
Defined.

(** C4, evaluated on the single-segment version [5] with
    [generateMajorMinor]: the major tag is left out, but a minor tag
    [5.undefined] is appended after the version tag. *)
Theorem single_segment_version_tags :
  snd (generateDockerTags
         (Fixture.envWith (Fixture.withVersion "5") (Ok EmptyString))
         {| appName := "test-app";
            dockerRepository := "test-repo";
            buildTarget := "build";
            dockerfile := Some "Dockerfile";
            context := Some ".";
            push := false;
            additionalTags := None;
            generateMajorMinor := Some true;
            tagPrefix := None |}
         (setVersion "5"))
  = Normal (["test-repo/test-app:5"; "test-repo/test-app:5.undefined";
             "test-repo/test-app:sha-abc1234"], "abc1234").
Proof. reflexivity. Qed.

(** ** The events of an invocation *)

(** What the steps after version resolution may emit. *)
Lemma later_steps_emit env options ctx vs :
  let later (e : Event) :=
    isVersionResolution e = false
    /\ (isConsole e = true
        \/ e = RunExecutor (buildTargetOf options)
        \/ e = Exec gitShaCommand
        \/ exists vs dockerTags gitSha,
             e = Exec (dockerCommand options ctx vs dockerTags gitSha)) in
  emitsOnly later (runBuildTarget env options ctx)
  /\ emitsOnly later (generateDockerTags env options vs)
  /\ forall dockerTags gitSha,
       emitsOnly later (dockerBuild env options ctx vs dockerTags gitSha).
Proof.
  cbv zeta. split; [| split].
  - eapply emitsOnly_weaken; [| apply runBuildTarget_emits].
    intros e ([-> | Hc] & Hv & _); split; auto.
  - eapply emitsOnly_weaken; [| apply generateDockerTags_emits].
    intros e ([-> | Hc] & Hv & _); split; auto.
  - intros dockerTags gitSha.
    eapply emitsOnly_weaken; [| apply dockerBuild_emits].
    intros e ([-> | Hc] & Hv & _); split; auto.
    right. right. right. now exists vs, dockerTags, gitSha.
Qed.

(** The events of an invocation once the lookup found something: the
    header, the events of version resolution, and then only events of the
    later steps, none of them unless resolution carried on. *)
Lemma tagAndBuild_trace_at env options ctx projectRoot :
  lookupProjectRoot ctx (appName options) = Some projectRoot ->
  exists later,
    fst (tagAndBuild env options ctx)
    = (header options
         ++ fst (resolveVersionAt env options projectRoot) ++ later)%list
    /\ Forall
         (fun e =>
            isVersionResolution e = false
            /\ (isConsole e = true
                \/ e = RunExecutor (buildTargetOf options)
                \/ e = Exec gitShaCommand
                \/ exists vs dockerTags gitSha,
                     e = Exec (dockerCommand options ctx vs dockerTags
                                 gitSha)))
         later
    /\ (later <> [] ->
        exists vs,
          snd (resolveVersionAt env options projectRoot) = Normal vs).
Proof.
  intros Hproj. rewrite (tagAndBuild_steps_at env options ctx _ Hproj).
  destruct (resolveVersionAt env options projectRoot)
    as [t1 [vs | r | e]]; cbn [fst snd].
  2, 3: exists []; rewrite app_nil_r; repeat split; auto; congruence.
  destruct (later_steps_emit env options ctx vs) as (Hb & Hg & Hd).
  unfold emitsOnly in *.
  destruct (runBuildTarget env options ctx) as [t2 [[] | r | e]];
    cbn [fst snd] in *.
  2, 3: exists t2; repeat split; eauto.
  destruct (generateDockerTags env options vs)
    as [t3 [[dockerTags gitSha] | r | e]]; cbn [fst snd] in *.
  2, 3: exists (t2 ++ t3)%list; repeat split; eauto using Forall_app;
        apply Forall_app; auto.
  specialize (Hd dockerTags gitSha).
  destruct (dockerBuild env options ctx vs dockerTags gitSha) as [t4 c].
  cbn [fst snd] in *. rewrite settle_events. cbn [fst].
  exists (t2 ++ t3 ++ t4)%list. repeat split; eauto.
  repeat (apply Forall_app; split); auto.
Qed.

(** The events of an invocation on a known project: the header, the
    events of version resolution, and then only events of the later steps,
    none of them unless resolution carried on. *)
Lemma tagAndBuild_trace env options ctx pc :
  projects ctx (appName options) = Some pc ->
  exists later,
    fst (tagAndBuild env options ctx)
    = (header options
         ++ fst (resolveVersion env options (projectRoot pc)) ++ later)%list
    /\ Forall
         (fun e =>
            isVersionResolution e = false
            /\ (isConsole e = true
                \/ e = RunExecutor (buildTargetOf options)
                \/ e = Exec gitShaCommand
                \/ exists vs dockerTags gitSha,
                     e = Exec (dockerCommand options ctx vs dockerTags
                                 gitSha)))
         later
    /\ (later <> [] ->
        exists vs,
          snd (resolveVersion env options (projectRoot pc)) = Normal vs).
Proof.
  intros Hproj.
  exact (tagAndBuild_trace_at env options ctx (Some (projectRoot pc))
           (lookupProjectRoot_known options ctx pc Hproj)).
Qed.

(** Every command that an invocation runs is one of the two revision
    queries or the container build. *)
Lemma tagAndBuild_commands env options ctx c :
  In (Exec c) (fst (tagAndBuild env options ctx)) ->
  c = gitTagCommand \/ c = gitShaCommand
  \/ exists vs dockerTags gitSha,
       c = dockerCommand options ctx vs dockerTags gitSha.
Proof.
  destruct (lookupProjectRoot ctx (appName options)) as [projectRoot |]
    eqn:Hproj.
  - destruct (tagAndBuild_trace_at env options ctx projectRoot Hproj)
      as (later & -> & Hlater & _).
    intros H. apply in_app_or in H. destruct H as [H | H].
    { simpl in H. intuition discriminate. }
    apply in_app_or in H. destruct H as [H | H].
    + pose proof (resolveVersionAt_emits env options projectRoot) as Hres.
      unfold emitsOnly in Hres. rewrite Forall_forall in Hres.
      destruct (Hres _ H) as ([Hv | Hc] & _); [| discriminate].
      left. simpl in Hv. now apply String.eqb_eq.
    + rewrite Forall_forall in Hlater.
      destruct (Hlater _ H) as (_ & [Hc | [Hc | [Hc | Hc]]]);
        try discriminate.
      * injection Hc as ->. auto.
      * destruct Hc as (vs & dockerTags & gitSha & Hc).
        injection Hc as ->. eauto 6.
  - rewrite (tagAndBuild_unknown_project env options ctx Hproj).
    intros H. simpl in H. intuition discriminate.
Qed.

(** ** The paths of the container build *)

(** C5 as stated fails on the fixture of the test suite, whose project is
    rooted at [apps/test-app] in the workspace [/test/root]: the dockerfile
    and the context handed to the container build are resolved against the
    workspace, not against the project. *)
Lemma paths_not_resolved_against_project_root :
  let env :=
    Fixture.envWith (Fixture.withVersion "1.2.3") (Ok EmptyString) in
  let pc := {| projectRoot := "apps/test-app" |} in
  projects Fixture.mockContext (appName Fixture.baseOptions) = Some pc
  /\ Spec.dockerfileUnderProject Fixture.baseOptions pc
     = "apps/test-app/Dockerfile"
  /\ Spec.contextUnderProject Fixture.baseOptions pc = "apps/test-app"
  /\ finalDockerfile Fixture.baseOptions Fixture.mockContext
     = "/test/root/Dockerfile"
  /\ finalContext Fixture.baseOptions Fixture.mockContext = "/test/root"
  /\ Fixture.execCommands
       (fst (tagAndBuild env Fixture.baseOptions Fixture.mockContext))
     = [ "git rev-parse HEAD";
         "docker buildx build -t " ++ JS.DQ ++ "test-repo/test-app:1.2.3"
           ++ JS.DQ ++ " -t " ++ JS.DQ ++ "test-repo/test-app:sha-abc1234"
           ++ JS.DQ ++ " -f " ++ JS.DQ ++ "/test/root/Dockerfile" ++ JS.DQ
           ++ " " ++ JS.DQ ++ "/test/root" ++ JS.DQ
           ++ " --build-arg APP_VERSION=" ++ JS.DQ ++ "1.2.3" ++ JS.DQ
           ++ " --build-arg BUILD_SHA=" ++ JS.DQ ++ "abc1234" ++ JS.DQ ]
  /\ finalDockerfile Fixture.baseOptions Fixture.mockContext
     <> Spec.dockerfileUnderProject Fixture.baseOptions pc
  /\ finalContext Fixture.baseOptions Fixture.mockContext
     <> Spec.contextUnderProject Fixture.baseOptions pc
  /\ finalDockerfile Fixture.baseOptions Fixture.mockContext
     <> Path.join (root Fixture.mockContext)
          (Spec.dockerfileUnderProject Fixture.baseOptions pc)
  /\ finalContext Fixture.baseOptions Fixture.mockContext
     <> Path.join (root Fixture.mockContext)
          (Spec.contextUnderProject Fixture.baseOptions pc).
Proof. cbv zeta. repeat split; discriminate. Qed.

Lemma finalDockerfile_workspace options ctx :
  finalDockerfile options ctx
  = Path.join (root ctx) (JS.orElse (dockerfile options) "Dockerfile").
Proof.
  unfold finalDockerfile, JS.orElse, JS.ifTruthy.
  destruct (dockerfile options) as [d |]; [| reflexivity].
  destruct (JS.truthy d); reflexivity.
Qed.

Lemma finalContext_workspace options ctx :
  finalContext options ctx
  = match context options with
    | Some (String c p) => Path.join (root ctx) (String c p)
    | _ => root ctx
    end.
Proof.
  unfold finalContext, JS.ifTruthy.
  destruct (context options) as [[| c p] |]; reflexivity.
Qed.

(** C5, amended: the container build gets the dockerfile (default
    [Dockerfile]) joined to the root of the workspace, and as build context
    the configured context joined to the root of the workspace or, when
    none is configured, that root itself. *)
Theorem paths_resolved_against_workspace_root env options ctx c :
  In (Exec c) (fst (tagAndBuild env options ctx)) ->
  isContainerBuild (Exec c) = true ->
  exists head tail,
    c = head ++ " -f " ++ JS.DQ
          ++ Path.join (root ctx)
               (JS.orElse (dockerfile options) "Dockerfile")
          ++ JS.DQ ++ " " ++ JS.DQ
          ++ match context options with
             | Some (String a p) => Path.join (root ctx) (String a p)
             | _ => root ctx
             end
          ++ JS.DQ ++ tail.
Proof.
  intros Hin Hbuild.
  destruct (tagAndBuild_commands env options ctx c Hin)
    as [-> | [-> | (vs & dockerTags & gitSha & ->)]]; try discriminate.
  rewrite <- finalDockerfile_workspace, <- finalContext_workspace.
  unfold dockerCommand.
  exists (JS.forEach dockerTags
            (fun dockerCommand tag =>
               dockerCommand ++ " -t " ++ JS.DQ ++ tag ++ JS.DQ)
            (if push options then "docker buildx build" ++ " --push"
             else "docker buildx build")),
    (" --build-arg APP_VERSION=" ++ JS.DQ ++ JS.interp (appVersion vs)
       ++ JS.DQ ++ " --build-arg BUILD_SHA=" ++ JS.DQ ++ gitSha ++ JS.DQ).
  now rewrite !append_assoc.
Qed.

Lemma paths_resolved_against_workspace_root_witness :
  exists head tail,
    "docker buildx build -t " ++ JS.DQ ++ "test-repo/test-app:1.2.3"
      ++ JS.DQ ++ " -t " ++ JS.DQ ++ "test-repo/test-app:sha-abc1234"
      ++ JS.DQ ++ " -f " ++ JS.DQ ++ "/test/root/docker/Dockerfile.prod"
      ++ JS.DQ ++ " " ++ JS.DQ ++ "/test/root/apps/test-app" ++ JS.DQ
      ++ " --build-arg APP_VERSION=" ++ JS.DQ ++ "1.2.3" ++ JS.DQ
      ++ " --build-arg BUILD_SHA=" ++ JS.DQ ++ "abc1234" ++ JS.DQ
    = head ++ " -f " ++ JS.DQ ++ "/test/root/docker/Dockerfile.prod"
        ++ JS.DQ ++ " " ++ JS.DQ ++ "/test/root/apps/test-app" ++ JS.DQ
        ++ tail.
Proof.
  refine (paths_resolved_against_workspace_root
            (Fixture.envWith (Fixture.withVersion "1.2.3") (Ok EmptyString))
            {| appName := "test-app";
               dockerRepository := "test-repo";
               buildTarget := "build";
               dockerfile := Some "docker/Dockerfile.prod";
               context := Some "apps/test-app";
               push := false;
               additionalTags := None;
               generateMajorMinor := None;
               tagPrefix := None |}
            Fixture.mockContext
            ("docker buildx build -t " ++ JS.DQ ++ "test-repo/test-app:1.2.3"
               ++ JS.DQ ++ " -t " ++ JS.DQ
               ++ "test-repo/test-app:sha-abc1234" ++ JS.DQ ++ " -f "
               ++ JS.DQ ++ "/test/root/docker/Dockerfile.prod" ++ JS.DQ
               ++ " " ++ JS.DQ ++ "/test/root/apps/test-app" ++ JS.DQ
               ++ " --build-arg APP_VERSION=" ++ JS.DQ ++ "1.2.3" ++ JS.DQ
               ++ " --build-arg BUILD_SHA=" ++ JS.DQ ++ "abc1234" ++ JS.DQ)
            _ eq_refl).
  cbv. repeat first [left; reflexivity | right].
Defined.

(** ** The revision queries of an invocation *)

(** C10: when the manifest yields a version, the tags are never listed;
    the only query to revision control is the one for the revision
    identifier. *)
Theorem manifest_version_skips_tag_listing env options ctx pc v :
  projects ctx (appName options) = Some pc ->
  manifestYields env pc v ->
  ~ In (Exec gitTagCommand) (fst (tagAndBuild env options ctx))
  /\ forall c,
       In (Exec c) (fst (tagAndBuild env options ctx)) ->
       isGitCommand c = true -> c = gitShaCommand.
Proof.
  intros Hproj Hm.
  destruct (tagAndBuild_trace env options ctx pc Hproj)
    as (later & Htrace & Hlater & _).
  rewrite Htrace, (resolveVersion_manifest env options pc v Hm).
  cbn [fst]. rewrite Forall_forall in Hlater.
  split.
  - intros H. apply in_app_or in H. destruct H as [H | H].
    { simpl in H. intuition discriminate. }
    apply in_app_or in H. destruct H as [H | H].
    { simpl in H. intuition discriminate. }
    destruct (Hlater _ H) as (Hv & _). discriminate.
  - intros c H Hgit. apply in_app_or in H. destruct H as [H | H].
    { simpl in H. intuition discriminate. }
    apply in_app_or in H. destruct H as [H | H].
    { simpl in H. intuition discriminate. }
    destruct (Hlater _ H) as (_ & [Hc | [Hc | [Hc | Hc]]]);
      try discriminate.
    + now injection Hc.
    + destruct Hc as (vs & dockerTags & gitSha & Hc). injection Hc as ->.
      destruct (dockerCommand_isContainerBuild options ctx vs dockerTags
                  gitSha) as (_ & Hno).
      congruence.
Qed.

Lemma manifest_version_skips_tag_listing_witness :
  let t :=
    fst (tagAndBuild
           (Fixture.envWith (Fixture.withVersion "1.2.3")
              (Ok "test-app/v9.9.9"))
           Fixture.baseOptions Fixture.mockContext) in
  ~ In (Exec gitTagCommand) t
  /\ forall c, In (Exec c) t -> isGitCommand c = true -> c = gitShaCommand.
Proof.
  refine (manifest_version_skips_tag_listing
            (Fixture.envWith (Fixture.withVersion "1.2.3")
               (Ok "test-app/v9.9.9"))
            Fixture.baseOptions Fixture.mockContext
            {| projectRoot := "apps/test-app" |} "1.2.3" eq_refl _).
  eexists. split; [reflexivity |]. split; [reflexivity | discriminate].
Defined.

(** ** Failures of the two version sources *)

(** The fallback starts by announcing itself and listing the tags. *)
Lemma deriveFromGitTags_starts env options vs :
  exists t c,
    deriveFromGitTags env options vs
    = (attempting :: Exec gitTagCommand :: t, c).
Proof.
  unfold deriveFromGitTags, call_exec, new_RegExp, attempting.
  destruct (exec env gitTagCommand) as [out | e];
    [| do 2 eexists; reflexivity].
  simpl.
  destruct (newRegExp env (targetTagPattern options)) as [re | e];
    [| do 2 eexists; reflexivity].
  simpl.
  destruct (JS.find (re_test re) (parseTags (stdout out))) as [tag |];
    [| do 2 eexists; reflexivity].
  simpl.
  destruct (JS.truthy tag); [| do 2 eexists; reflexivity].
  destruct (capturedVersion (re_exec re tag)); do 2 eexists; reflexivity.
Qed.




(** ** No version from either source *)

(** C7: when the manifest yields no version and either no tag matches or
    the first matching tag captured the empty text, the invocation ends
    with a failure result, and none of its events belongs to the build
    target, to tag generation or to the container build. *)
Theorem no_version_no_build env options ctx pc out re :
  projects ctx (appName options) = Some pc ->
  manifestYieldsNothing env pc ->
  exec env gitTagCommand = Ok out ->
  newRegExp env (targetTagPattern options) = Ok re ->
  (forall t, In t (parseTags (stdout out)) -> re_exec re t = None)
  \/ (exists tag,
        firstMatch re (parseTags (stdout out)) tag
        /\ re_exec re tag = Some (Some EmptyString)) ->
  snd (tagAndBuild env options ctx) = Fulfilled failure
  /\ Forall
       (fun e =>
          isBuildTarget e = false /\ isTagGeneration e = false
          /\ isContainerBuild e = false)
       (fst (tagAndBuild env options ctx)).
Proof.
  intros Hproj Hm Hexec Hre Hcase.
  rewrite (tagAndBuild_steps env options ctx pc Hproj).
  destruct Hcase as [Hnone | (tag & Hfirst & Hcap)].
  - destruct (resolveVersion_no_match env options pc out re Hm Hexec Hre
                Hnone) as (msg & msg1 & msg2 & ->).
    split; [reflexivity | each_event].
  - destruct (resolveVersion_empty_capture env options pc out re Hm Hexec
                Hre tag (Some EmptyString) Hfirst Hcap eq_refl)
      as (msg & msg1 & msg2 & ->).
    split; [reflexivity | each_event].
Qed.

Lemma no_version_no_build_witness :
  let env := Fixture.envWith Fixture.withoutVersion (Ok EmptyString) in
  snd (tagAndBuild env Fixture.baseOptions Fixture.mockContext)
  = Fulfilled failure
  /\ Forall
       (fun e =>
          isBuildTarget e = false /\ isTagGeneration e = false
          /\ isContainerBuild e = false)
       (fst (tagAndBuild env Fixture.baseOptions Fixture.mockContext)).
Proof.
  refine (no_version_no_build
            (Fixture.envWith Fixture.withoutVersion (Ok EmptyString))
            Fixture.baseOptions Fixture.mockContext
            {| projectRoot := "apps/test-app" |}
            {| stdout := EmptyString; stderr := EmptyString |}
            (Fixture.literalRegExp "test-app/v")
            eq_refl _ eq_refl eq_refl _).
  - right. eexists. split; [reflexivity | now left].
  - left. intros t [].
Defined.

(** ** The build target *)

(** Tag generation starts with the revision query. *)
Lemma generateDockerTags_starts env options vs :
  exists t c,
    generateDockerTags env options vs = (Exec gitShaCommand :: t, c).
Proof.
  destruct (exec env gitShaCommand) as [out | e] eqn:H.
  - rewrite (generateDockerTags_ok env options vs out H).
    do 2 eexists. reflexivity.
  - rewrite (generateDockerTags_raise env options vs e H).
    do 2 eexists. reflexivity.
Qed.

Lemma existsb_negb_forallb {X} (p : X -> bool) (l : list X) :
  existsb (fun x => negb (p x)) l = negb (forallb p l).
Proof.
  induction l as [| x l IH]; [reflexivity |].
  simpl. rewrite IH. now destruct (p x).
Qed.

(** The container build: the announcement, the command, and what its
    answer leads to; it always ends the executor with a result. *)
Lemma dockerBuild_unfold env options ctx vs dockerTags gitSha :
  dockerBuild env options ctx vs dockerTags gitSha
  = (ConsoleLog
       (executingMessage (dockerCommand options ctx vs dockerTags gitSha))
       :: Exec (dockerCommand options ctx vs dockerTags gitSha)
       :: afterContainerBuild options
            (exec env (dockerCommand options ctx vs dockerTags gitSha)),
     Returned
       match exec env (dockerCommand options ctx vs dockerTags gitSha) with
       | Ok _ => succeeded
       | Raise _ => failure
       end).
Proof.
  unfold dockerBuild, call_exec, afterContainerBuild.
  destruct (exec env (dockerCommand options ctx vs dockerTags gitSha))
    as [out | e]; [| reflexivity].
  cbn [liftExc]. cbv beta iota delta [bind tryCatch consoleLog emit].
  destruct (JS.truthy (stderr out)); reflexivity.
Qed.

Lemma afterContainerBuild_console options answer :
  Forall (fun e => isConsole e = true) (afterContainerBuild options answer).
Proof.
  unfold afterContainerBuild. destruct answer as [out | e].
  - destruct (JS.truthy (stderr out)); repeat constructor.
  - repeat constructor.
Qed.

(** A console line is neither a read of version resolution nor the call
    of the build target. *)
Lemma console_is_no_call (t : list Event) :
  Forall (fun e => isConsole e = true) t ->
  Forall (fun e => isVersionResolution e = false /\ isBuildTarget e = false)
    t.
Proof.
  apply Forall_impl. intros [] H; try discriminate; now split.
Qed.

Lemma completed_lines_console options (results : list ExecutorResult) :
  Forall (fun e => isConsole e = true)
    (map (fun _ => ConsoleLog (completedMessage options)) results).
Proof.
  apply Forall_forall. intros e He. apply in_map_iff in He.
  destruct He as (_ & <- & _). reflexivity.
Qed.

(** An invocation whose version is resolved, by the answers of the
    collaborators: its events and its outcome in each case. *)
Lemma tagAndBuild_cases_at env options ctx projectRoot t1 vs :
  lookupProjectRoot ctx (appName options) = Some projectRoot ->
  resolveVersionAt env options projectRoot = (t1, Normal vs) ->
  let start :=
    (header options ++ t1
       ++ [ConsoleLog (runningMessage options);
           RunExecutor (buildTargetOf options)])%list in
  match runExecutor env (buildTargetOf options) ctx with
  | Raise e => tagAndBuild env options ctx = (start, Rejected e)
  | Ok buildResult =>
      if forallb success (yielded buildResult)
      then
        let built :=
          (start ++ map (fun _ => ConsoleLog (completedMessage options))
                      (yielded buildResult))%list in
        match ending buildResult with
        | Some e => tagAndBuild env options ctx = (built, Rejected e)
        | None =>
            match exec env gitShaCommand with
            | Raise e =>
                tagAndBuild env options ctx
                = ((built ++ [Exec gitShaCommand])%list, Rejected e)
            | Ok out =>
                let dockerTags := generatedTags options vs out in
                let command :=
                  dockerCommand options ctx vs dockerTags
                    (revisionShaShort out) in
                tagAndBuild env options ctx
                = ((built
                      ++ [Exec gitShaCommand;
                          ConsoleLog (generatedMessage dockerTags);
                          ConsoleLog (executingMessage command);
                          Exec command]
                      ++ afterContainerBuild options (exec env command))%list,
                   Fulfilled
                     match exec env command with
                     | Ok _ => succeeded
                     | Raise _ => failure
                     end)
            end
        end
      else
        exists logs,
          tagAndBuild env options ctx
          = ((start ++ logs)%list, exitOutcome buildResult)
          /\ Forall (fun e => isConsole e = true /\ beforeTags e) logs
  end.
Proof.
  intros Hproj Hres. cbv zeta.
  rewrite (tagAndBuild_steps_at env options ctx projectRoot Hproj), Hres.
  rewrite runBuildTarget_unfold.
  destruct (runExecutor env (buildTargetOf options) ctx)
    as [buildResult | e].
  2: { reflexivity. }
  destruct (forallb success (yielded buildResult)) eqn:Hall.
  - rewrite (awaitBuildResults_all_succeed options buildResult Hall).
    unfold loopEnd. destruct (ending buildResult) as [e |].
    + f_equal. repeat rewrite <- app_assoc. reflexivity.
    + destruct (exec env gitShaCommand) as [out | e] eqn:Hsha.
      * rewrite (generateDockerTags_ok env options vs out Hsha).
        rewrite dockerBuild_unfold.
        unfold settle, generatedTags, generatedMessage.
        f_equal. repeat rewrite <- app_assoc. reflexivity.
      * rewrite (generateDockerTags_raise env options vs e Hsha).
        f_equal. repeat rewrite <- app_assoc. reflexivity.
  - assert (Hex : existsb (fun r => negb (success r)) (yielded buildResult)
                  = true).
    { now rewrite existsb_negb_forallb, Hall. }
    destruct (awaitBuildResults_failure options buildResult Hex)
      as (logs & -> & Hlogs).
    exists logs. split; [| exact Hlogs].
    unfold loopExit, exitOutcome.
    destruct (closing buildResult); f_equal;
      repeat rewrite <- app_assoc; reflexivity.
Qed.

(** An invocation on a known project whose build target yields its
    results and is done, by the answers of the collaborators. *)
Lemma tagAndBuild_cases env options ctx pc t1 vs results :
  projects ctx (appName options) = Some pc ->
  resolveVersion env options (projectRoot pc) = (t1, Normal vs) ->
  runExecutor env (buildTargetOf options) ctx = Ok (doneAfter results) ->
  let start :=
    (header options ++ t1
       ++ [ConsoleLog (runningMessage options);
           RunExecutor (buildTargetOf options)])%list in
  if forallb success results
  then
    let built :=
      (start ++ map (fun _ => ConsoleLog (completedMessage options))
                  results)%list in
    match exec env gitShaCommand with
    | Raise e =>
        tagAndBuild env options ctx
        = ((built ++ [Exec gitShaCommand])%list, Rejected e)
    | Ok out =>
        let dockerTags := generatedTags options vs out in
        let command :=
          dockerCommand options ctx vs dockerTags (revisionShaShort out) in
        tagAndBuild env options ctx
        = ((built
              ++ [Exec gitShaCommand;
                  ConsoleLog (generatedMessage dockerTags);
                  ConsoleLog (executingMessage command);
                  Exec command]
              ++ afterContainerBuild options (exec env command))%list,
           Fulfilled
             match exec env command with
             | Ok _ => succeeded
             | Raise _ => failure
             end)
    end
  else
    exists logs,
      tagAndBuild env options ctx
      = ((start ++ logs)%list, Fulfilled failure)
      /\ Forall (fun e => isConsole e = true /\ beforeTags e) logs.
Proof.
  intros Hproj Hres Hrun.
  pose proof (tagAndBuild_cases_at env options ctx (Some (projectRoot pc))
                t1 vs (lookupProjectRoot_known options ctx pc Hproj) Hres)
    as H.
  rewrite Hrun in H. exact H.
Qed.

(** C8 as stated fails on a build target whose iterator yields a result
    that reports failure and throws when it is closed.  The executor logs
    the failure and returns from inside the loop of lines 134-143; leaving
    the loop closes the iterator first, and the error of [return()], which
    no [try] surrounds, takes the place of the result: the promise rejects
    where the claim has it fulfil with a failure result.  Nothing of tag
    generation or of the container build is attempted. *)
Lemma failing_result_rejects_when_close_throws :
  let buildResult :=
    {| yielded := [succeeded; failure];
       ending := None;
       closing := Some "Error: cannot stop the build" |} in
  let env :=
    Fixture.mkEnvOn (Fixture.withVersion "1.2.3") (Ok EmptyString)
      (Ok "abc1234") (Ok buildResult) (Ok Fixture.quiet) in
  runExecutor env (buildTargetOf Fixture.baseOptions) Fixture.mockContext
  = Ok buildResult
  /\ existsb (fun r => negb (success r)) (yielded buildResult) = true
  /\ tagAndBuild env Fixture.baseOptions Fixture.mockContext
     = ([ConsoleLog
           (JS.LF
              ++ "---Starting Docker Image Tag & Build executor for test-app---"
              ++ JS.LF);
         ConsoleLog "Executor Options";
         ReadJsonFile "apps/test-app/package.json";
         ConsoleLog "Found version 1.2.3 in package.json";
         ConsoleLog
           (JS.LF ++ "Running build target 'build' for 'test-app'...");
         RunExecutor
           {| project := "test-app";
              target := "build";
              configuration := "production" |};
         ConsoleLog
           "Build target 'build' for 'test-app' completed successfully";
         ConsoleError "Build target 'build' for 'test-app' failed"],
        Rejected "Error: cannot stop the build")
  /\ snd (tagAndBuild env Fixture.baseOptions Fixture.mockContext)
     <> Fulfilled failure.
Proof. cbv zeta. repeat split. discriminate. Qed.

(** C8, amended: the build target runs only once version resolution has
    carried on with a version, and then it does run: the invocation
    announces it and calls it right after the events of resolution, once.
    When all the results of its iterator report success they are all
    consumed, and only when the iterator is done after them does the
    revision query that opens tag generation follow.  When one reports
    failure the invocation ends there, and the events after the call are
    console lines only, none of them of tag generation or of the container
    build; it ends with a failure result, unless closing the iterator
    throws, which makes the promise reject.  When the build target cannot
    be started or its iterator throws, the promise rejects, and nothing of
    tag generation or of the container build follows either. *)
Theorem build_target_gates_container_build env options ctx :
  (forall t,
     In (RunExecutor t) (fst (tagAndBuild env options ctx)) ->
     t = buildTargetOf options
     /\ exists projectRoot t1 vs,
          lookupProjectRoot ctx (appName options) = Some projectRoot
          /\ resolveVersionAt env options projectRoot = (t1, Normal vs))
  /\ (forall projectRoot t1 vs,
        lookupProjectRoot ctx (appName options) = Some projectRoot ->
        resolveVersionAt env options projectRoot = (t1, Normal vs) ->
        exists rest,
          fst (tagAndBuild env options ctx)
          = (header options ++ t1
               ++ ConsoleLog (runningMessage options)
               :: RunExecutor (buildTargetOf options) :: rest)%list
          /\ Forall (fun e => isBuildTarget e = false) (header options ++ t1)
          /\ Forall
               (fun e =>
                  isVersionResolution e = false /\ isBuildTarget e = false)
               rest
          /\ (forall e,
                runExecutor env (buildTargetOf options) ctx = Raise e ->
                rest = []
                /\ snd (tagAndBuild env options ctx) = Rejected e)
          /\ (forall buildResult,
                runExecutor env (buildTargetOf options) ctx = Ok buildResult ->
                existsb (fun r => negb (success r)) (yielded buildResult)
                = true ->
                Forall
                  (fun e =>
                     isConsole e = true /\ isTagGeneration e = false
                     /\ isContainerBuild e = false)
                  rest
                /\ snd (tagAndBuild env options ctx)
                   = match closing buildResult with
                     | None => Fulfilled failure
                     | Some e => Rejected e
                     end)
          /\ (forall buildResult,
                runExecutor env (buildTargetOf options) ctx = Ok buildResult ->
                forallb success (yielded buildResult) = true ->
                match ending buildResult with
                | None =>
                    exists rest',
                      rest
                      = (map (fun _ => ConsoleLog (completedMessage options))
                           (yielded buildResult)
                           ++ Exec gitShaCommand :: rest')%list
                | Some e =>
                    rest
                    = map (fun _ => ConsoleLog (completedMessage options))
                        (yielded buildResult)
                    /\ snd (tagAndBuild env options ctx) = Rejected e
                end)).
Proof.
  split.
  - intros t Hin.
    destruct (lookupProjectRoot ctx (appName options)) as [projectRoot |]
      eqn:Hproj.
    2: { rewrite (tagAndBuild_unknown_project env options ctx Hproj) in Hin.
         simpl in Hin. intuition discriminate. }
    destruct (tagAndBuild_trace_at env options ctx projectRoot Hproj)
      as (later & Htrace & Hlater & Hcarried).
    rewrite Htrace in Hin.
    apply in_app_or in Hin. destruct Hin as [Hin | Hin].
    { simpl in Hin. intuition discriminate. }
    apply in_app_or in Hin. destruct Hin as [Hin | Hin].
    { pose proof (resolveVersionAt_emits env options projectRoot) as Hres.
      unfold emitsOnly in Hres. rewrite Forall_forall in Hres.
      destruct (Hres _ Hin) as (_ & Hb & _). discriminate. }
    split.
    + rewrite Forall_forall in Hlater.
      destruct (Hlater _ Hin) as (_ & [Hc | [Hc | [Hc | Hc]]]);
        try discriminate.
      * now injection Hc.
      * destruct Hc as (vs & dockerTags & gitSha & Hc). discriminate.
    + destruct Hcarried as (vs & Hvs).
      { intros ->. exact Hin. }
      exists projectRoot,
        (fst (resolveVersionAt env options projectRoot)), vs.
      split; [reflexivity |].
      destruct (resolveVersionAt env options projectRoot) as [t1 c].
      cbn [fst snd] in *. now subst c.
  - intros projectRoot t1 vs Hproj Hres.
    pose proof (tagAndBuild_cases_at env options ctx projectRoot t1 vs
                  Hproj Hres) as H.
    cbv zeta in H.
    assert (Hpre : Forall (fun e => isBuildTarget e = false)
                     (header options ++ t1)).
    { pose proof (resolveVersionAt_emits env options projectRoot) as Hemit.
      unfold emitsOnly in Hemit. rewrite Hres in Hemit. cbn [fst] in Hemit.
      apply Forall_app. split; [each_event |].
      eapply Forall_impl; [| exact Hemit]. intros e (_ & Hb & _). exact Hb. }
    destruct (runExecutor env (buildTargetOf options) ctx)
      as [buildResult | e0].
    2: { exists []. rewrite H. cbn [fst snd].
         split; [reflexivity |]. split; [exact Hpre |].
         split; [constructor |].
         split; [intros e He; injection He as <-; now split |].
         split; intros; discriminate. }
    pose proof (completed_lines_console options (yielded buildResult))
      as Hlogs.
    destruct (forallb success (yielded buildResult)) eqn:Hall.
    + assert (Hdone :
        exists rest,
          tagAndBuild env options ctx
          = ((header options ++ t1
                ++ ConsoleLog (runningMessage options)
                :: RunExecutor (buildTargetOf options) :: rest)%list,
             snd (tagAndBuild env options ctx))
          /\ Forall
               (fun e => isVersionResolution e = false
                         /\ isBuildTarget e = false) rest
          /\ match ending buildResult with
             | None =>
                 exists rest',
                   rest
                   = (map (fun _ => ConsoleLog (completedMessage options))
                        (yielded buildResult)
                        ++ Exec gitShaCommand :: rest')%list
             | Some e =>
                 rest
                 = map (fun _ => ConsoleLog (completedMessage options))
                     (yielded buildResult)
                 /\ snd (tagAndBuild env options ctx) = Rejected e
             end).
      { destruct (ending buildResult) as [e1 |].
        - eexists. rewrite H. cbn [snd]. split.
          { f_equal. repeat rewrite <- app_assoc. reflexivity. }
          split; [now apply console_is_no_call | now split].
        - destruct (exec env gitShaCommand) as [out | e1].
          + eexists. rewrite H. cbn [snd]. split.
            { f_equal. repeat rewrite <- app_assoc. reflexivity. }
            split; [| eexists; reflexivity].
            apply Forall_app. split; [now apply console_is_no_call |].
            constructor; [now split |]. constructor; [now split |].
            constructor; [now split |]. constructor.
            { destruct (dockerCommand_start options ctx vs
                          (generatedTags options vs out)
                          (revisionShaShort out)) as (r & ->).
              now split. }
            apply console_is_no_call, afterContainerBuild_console.
          + eexists. rewrite H. cbn [snd]. split.
            { f_equal. repeat rewrite <- app_assoc. reflexivity. }
            split; [| eexists; reflexivity].
            apply Forall_app. split; [now apply console_is_no_call |].
            constructor; [now split | constructor]. }
      destruct Hdone as (rest & Htrace & Hrest & Hopen).
      exists rest. split; [now rewrite Htrace |]. split; [exact Hpre |].
      split; [exact Hrest |].
      split; [intros e He; discriminate |].
      split.
      * intros buildResult' He Hex. injection He as <-.
        rewrite existsb_negb_forallb, Hall in Hex. discriminate.
      * intros buildResult' He _. injection He as <-. exact Hopen.
    + destruct H as (logs & H & Hfail).
      exists logs. rewrite H. cbn [fst snd].
      split; [now repeat rewrite <- app_assoc |]. split; [exact Hpre |].
      split.
      { apply console_is_no_call. eapply Forall_impl; [| exact Hfail].
        now intros e (Hc & _). }
      split; [intros e He; discriminate |].
      split.
      * intros buildResult' He _. injection He as <-. split.
        -- eapply Forall_impl; [| exact Hfail].
           intros e (Hc & Hg & Hb). repeat split; assumption.
        -- reflexivity.
      * intros buildResult' He Hs. injection He as <-. congruence.
Qed.

Lemma build_target_gates_container_build_witness :
  let env :=
    Fixture.mkEnv (Fixture.withVersion "1.2.3") (Ok EmptyString)
      (Ok "abc1234") (Ok [succeeded; failure]) (Ok Fixture.quiet) in
  snd (tagAndBuild env Fixture.baseOptions Fixture.mockContext)
  = Fulfilled failure
  /\ In (RunExecutor (buildTargetOf Fixture.baseOptions))
       (fst (tagAndBuild env Fixture.baseOptions Fixture.mockContext))
  /\ Fixture.execCommands
       (fst (tagAndBuild env Fixture.baseOptions Fixture.mockContext))
     = [].
Proof.
  cbv zeta.
  destruct (proj2
              (build_target_gates_container_build
                 (Fixture.mkEnv (Fixture.withVersion "1.2.3")
                    (Ok EmptyString) (Ok "abc1234")
                    (Ok [succeeded; failure]) (Ok Fixture.quiet))
                 Fixture.baseOptions Fixture.mockContext)
              (Some "apps/test-app")
              [ReadJsonFile "apps/test-app/package.json";
               ConsoleLog "Found version 1.2.3 in package.json"]
              (setVersion "1.2.3") eq_refl eq_refl)
    as (rest & Htrace & _ & _ & _ & Hfail & _).
  split; [exact (proj2 (Hfail (doneAfter [succeeded; failure]) eq_refl
                          eq_refl)) |].
  split; [| reflexivity].
  rewrite Htrace. apply in_or_app. right. apply in_or_app. right.
  right. now left.
Defined.

(** ** Determinism of tag generation *)

(** The tags before the revision tag depend on the repository, the
    application name, the two tagging options and the versions only. *)
Lemma versionTags_ext options1 options2 vs :
  dockerRepository options1 = dockerRepository options2 ->
  appName options1 = appName options2 ->
  generateMajorMinor options1 = generateMajorMinor options2 ->
  additionalTags options1 = additionalTags options2 ->
  versionTags options1 vs = versionTags options2 vs.
Proof.
  intros Hrepo Hname Hmm Hextra.
  unfold versionTags, baseImageName.
  now rewrite Hrepo, Hname, Hmm, Hextra.
Qed.

(** C9: two runs of tag generation that agree on the resolved versions,
    the repository, the application name, the tagging options and the
    short revision id produce the same tags in the same order, and log the
    same; nothing else of the options or of the environment plays a
    part. *)
Theorem tag_generation_deterministic
    env1 env2 options1 options2 vs t1 t2 tags1 tags2 sha :
  dockerRepository options1 = dockerRepository options2 ->
  appName options1 = appName options2 ->
  generateMajorMinor options1 = generateMajorMinor options2 ->
  additionalTags options1 = additionalTags options2 ->
  generateDockerTags env1 options1 vs = (t1, Normal (tags1, sha)) ->
  generateDockerTags env2 options2 vs = (t2, Normal (tags2, sha)) ->
  tags1 = tags2 /\ t1 = t2.
Proof.
  intros Hrepo Hname Hmm Hextra H1 H2.
  destruct (exec env1 gitShaCommand) as [out1 | e1] eqn:E1.
  2: { rewrite (generateDockerTags_raise env1 options1 vs e1 E1) in H1.
       discriminate. }
  destruct (exec env2 gitShaCommand) as [out2 | e2] eqn:E2.
  2: { rewrite (generateDockerTags_raise env2 options2 vs e2 E2) in H2.
       discriminate. }
  rewrite (generateDockerTags_ok env1 options1 vs out1 E1) in H1.
  rewrite (generateDockerTags_ok env2 options2 vs out2 E2) in H2.
  injection H1 as <- <- Hsha1. injection H2 as <- <- Hsha2.
  rewrite Hsha1, Hsha2.
  rewrite (versionTags_ext options1 options2 vs Hrepo Hname Hmm Hextra).
  unfold baseImageName. rewrite Hrepo, Hname. split; reflexivity.
Qed.

Lemma tag_generation_deterministic_witness :
  let env1 :=
    Fixture.envWith (Fixture.withVersion "1.2.3") (Ok EmptyString) in
  let env2 :=
    Fixture.mkEnv Fixture.withoutVersion (Ok "test-app/v1.2.3")
      (Ok ("abc1234def" ++ JS.LF)) (Ok []) (Raise "Error") in
  let options1 :=
    {| appName := "test-app";
       dockerRepository := "test-repo";
       buildTarget := "build";
       dockerfile := Some "Dockerfile";
       context := Some ".";
       push := false;
       additionalTags := Some ["latest"];
       generateMajorMinor := Some true;
       tagPrefix := None |} in
  let options2 :=
    {| appName := "test-app";
       dockerRepository := "test-repo";
       buildTarget := "build:production";
       dockerfile := None;
       context := None;
       push := true;
       additionalTags := Some ["latest"];
       generateMajorMinor := Some true;
       tagPrefix := Some "release-" |} in
  let tags :=
    ["test-repo/test-app:1.2.3"; "test-repo/test-app:1.2";
     "test-repo/test-app:1"; "test-repo/test-app:latest";
     "test-repo/test-app:sha-abc1234"] in
  let t :=
    [Exec gitShaCommand;
     ConsoleLog
       (JS.LF ++ "Generated Docker Tags: " ++ JS.join ", " tags)] in
  generateDockerTags env1 options1 (setVersion "1.2.3")
  = (t, Normal (tags, "abc1234"))
  /\ generateDockerTags env2 options2 (setVersion "1.2.3")
     = (t, Normal (tags, "abc1234"))
  /\ (tags = tags /\ t = t).
Proof.
  cbv zeta.
  split; [reflexivity |]. split; [reflexivity |].
  exact (tag_generation_deterministic
           (Fixture.envWith (Fixture.withVersion "1.2.3") (Ok EmptyString))
           (Fixture.mkEnv Fixture.withoutVersion (Ok "test-app/v1.2.3")
              (Ok ("abc1234def" ++ JS.LF)) (Ok []) (Raise "Error"))
           {| appName := "test-app";
              dockerRepository := "test-repo";
              buildTarget := "build";
              dockerfile := Some "Dockerfile";
              context := Some ".";
              push := false;
              additionalTags := Some ["latest"];
              generateMajorMinor := Some true;
              tagPrefix := None |}
           {| appName := "test-app";
              dockerRepository := "test-repo";
              buildTarget := "build:production";
              dockerfile := None;
              context := None;
              push := true;
              additionalTags := Some ["latest"];
              generateMajorMinor := Some true;
              tagPrefix := Some "release-" |}
           (setVersion "1.2.3")
           [Exec gitShaCommand;
            ConsoleLog
              (JS.LF ++ "Generated Docker Tags: "
                 ++ JS.join ", "
                      ["test-repo/test-app:1.2.3"; "test-repo/test-app:1.2";
                       "test-repo/test-app:1"; "test-repo/test-app:latest";
                       "test-repo/test-app:sha-abc1234"])]
           [Exec gitShaCommand;
            ConsoleLog
              (JS.LF ++ "Generated Docker Tags: "
                 ++ JS.join ", "
                      ["test-repo/test-app:1.2.3"; "test-repo/test-app:1.2";
                       "test-repo/test-app:1"; "test-repo/test-app:latest";
                       "test-repo/test-app:sha-abc1234"])]
           ["test-repo/test-app:1.2.3"; "test-repo/test-app:1.2";
            "test-repo/test-app:1"; "test-repo/test-app:latest";
            "test-repo/test-app:sha-abc1234"]
           ["test-repo/test-app:1.2.3"; "test-repo/test-app:1.2";
            "test-repo/test-app:1"; "test-repo/test-app:latest";
            "test-repo/test-app:sha-abc1234"]
           "abc1234"
           eq_refl eq_refl eq_refl eq_refl eq_refl eq_refl).
Defined.

(** ** Further facts about the JavaScript primitives *)

Lemma prefix_empty (s : string) : prefix EmptyString s = true.
Proof. destruct s; reflexivity. Qed.

Lemma append_empty_r (s : string) : s ++ EmptyString = s.
Proof. induction s; simpl; congruence. Qed.

Lemma prefix_refl (s : string) : prefix s s = true.
Proof.
  induction s as [| c s IH]; simpl; [reflexivity |].
  destruct (ascii_dec c c) as [_ | H]; [exact IH | now elim H].
Qed.

Lemma prefix_append (a x : string) : prefix a (a ++ x) = true.
Proof.
  induction a as [| c a IH]; simpl; [apply prefix_empty |].
  destruct (ascii_dec c c) as [_ | H]; [exact IH | now elim H].
Qed.

Lemma join_cons sep x y l :
  JS.join sep (x :: y :: l) = x ++ sep ++ JS.join sep (y :: l).
Proof. reflexivity. Qed.

(** Joining the segments of a split with the separator gives the string
    back. *)
Lemma split_join sep s :
  JS.join (String sep EmptyString) (JS.split sep s) = s.
Proof.
  induction s as [| c s IH]; [reflexivity |].
  cbn [JS.split].
  destruct (Ascii.eqb_spec c sep) as [-> | Hne].
  - destruct (JS.split sep s) as [| seg segs] eqn:E.
    + now apply split_nonempty in E.
    + cbn [JS.join] in *. rewrite IH. reflexivity.
  - destruct (JS.split sep s) as [| seg segs] eqn:E.
    + now apply split_nonempty in E.
    + destruct segs as [| seg' segs]; cbn [JS.join] in *.
      * now rewrite IH.
      * rewrite <- IH. reflexivity.
Qed.

(** No segment of a split holds the separator. *)
Lemma split_hasNoChar sep s seg :
  In seg (JS.split sep s) -> hasNoChar sep seg = true.
Proof.
  revert seg. induction s as [| c s IH]; intros seg Hin.
  - destruct Hin as [<- | []]. reflexivity.
  - cbn [JS.split] in Hin.
    destruct (Ascii.eqb c sep) eqn:Hc.
    + destruct Hin as [<- | Hin]; [reflexivity | now apply IH].
    + destruct (JS.split sep s) as [| seg0 segs] eqn:E.
      * now apply split_nonempty in E.
      * destruct Hin as [<- | Hin].
        -- unfold hasNoChar. cbn [list_ascii_of_string forallb].
           rewrite Hc. apply (IH seg0). now left.
        -- apply IH. now right.
Qed.




(** ** The fields derived from a version *)

(** X1: whatever the version, its major is the text before the first
    dot: it holds no dot, and the version is either the major itself or
    the major, a dot and more. *)
Theorem major_is_dotless_prefix v :
  exists major,
    majorVersion (setVersion v) = Some major
    /\ prefix major v = true
    /\ hasNoChar "." major = true
    /\ (v = major \/ exists rest, v = major ++ "." ++ rest).
Proof.
  destruct (setVersion_segments v) as (major & rest & Hsplit & ->).
  exists major. split; [reflexivity |].
  assert (Hv : v = JS.join "." (major :: rest)).
  { rewrite <- Hsplit. symmetry. apply split_join. }
  split; [| split].
  - rewrite Hv. destruct rest as [| b rest].
    + apply prefix_refl.
    + rewrite join_cons. apply prefix_append.
  - apply (split_hasNoChar "." v). rewrite Hsplit. now left.
  - destruct rest as [| b rest].
    + now left.
    + right. exists (JS.join "." (b :: rest)). now rewrite Hv, join_cons.
Qed.

(** X2: for a version of two segments or more, the minor compound is a
    prefix of the version: the version up to the end of its second
    segment. *)
Theorem minorCompound_is_prefix v a b rest :
  JS.split "." v = a :: b :: rest ->
  majorMinorVersion (setVersion v) = Some (a ++ "." ++ b)
  /\ prefix (a ++ "." ++ b) v = true
  /\ hasNoChar "." a = true /\ hasNoChar "." b = true.
Proof.
  intros Hsplit. split; [| split; [| split]].
  - unfold setVersion. rewrite Hsplit. reflexivity.
  - assert (Hv : v = JS.join "." (a :: b :: rest)).
    { rewrite <- Hsplit. symmetry. apply split_join. }
    rewrite Hv. destruct rest as [| c rest].
    + apply prefix_refl.
    + rewrite !join_cons.
      replace (a ++ "." ++ b ++ "." ++ JS.join "." (c :: rest))
        with ((a ++ "." ++ b) ++ "." ++ JS.join "." (c :: rest))
        by now rewrite !append_assoc.
      apply prefix_append.
  - apply (split_hasNoChar "." v). rewrite Hsplit. now left.
  - apply (split_hasNoChar "." v). rewrite Hsplit. right. now left.
Qed.

Lemma minorCompound_is_prefix_witness :
  majorMinorVersion (setVersion "1.2.3-rc.1") = Some ("1" ++ "." ++ "2")
  /\ prefix ("1" ++ "." ++ "2") "1.2.3-rc.1" = true
  /\ hasNoChar "." "1" = true /\ hasNoChar "." "2" = true.
Proof.
  exact (minorCompound_is_prefix "1.2.3-rc.1" "1" "2" ["3-rc"; "1"] eq_refl).
Defined.

(** ** The listing of the revision tags *)

(** X3: every tag read off the output of the listing is non-empty and
    holds no line feed, whatever the output is. *)
Theorem parsed_tags_are_clean out tag :
  In tag (parseTags out) ->
  tag <> EmptyString /\ hasNoChar (ascii_of_nat 10) tag = true.
Proof.
  unfold parseTags, JS.filterBoolean. intros H.
  apply filter_In in H. destruct H as [Hin Ht]. split.
  - now apply truthy_nonempty.
  - exact (split_hasNoChar _ _ _ Hin).
Qed.

Lemma parsed_tags_are_clean_witness :
  "other-tag" <> EmptyString
  /\ hasNoChar (ascii_of_nat 10) "other-tag" = true.
Proof.
  refine (parsed_tags_are_clean
            (JS.LF ++ "  test-app/v1.2.3" ++ JS.LF ++ JS.LF ++ "other-tag"
               ++ JS.LF)
            "other-tag" _).
  cbv. tauto.
Defined.

Lemma trimStart_nonwhite c s :
  JS.isWhiteSpace c = false -> JS.trimStart (String c s) = String c s.
Proof. intros H. simpl. now rewrite H. Qed.

Lemma trimEnd_cons_nonwhite c s :
  JS.isWhiteSpace c = false ->
  JS.trimEnd (String c s) = String c (JS.trimEnd s).
Proof.
  intros H. cbn [JS.trimEnd]. rewrite H.
  destruct (JS.trimEnd s); reflexivity.
Qed.

Lemma trimEnd_append_nonwhite t s :
  hasNoWhiteSpace t = true -> JS.trimEnd (t ++ s) = t ++ JS.trimEnd s.
Proof.
  unfold hasNoWhiteSpace. induction t as [| c t IH]; intros H.
  - reflexivity.
  - cbn [list_ascii_of_string forallb] in H.
    apply andb_prop in H. destruct H as [Hc Ht].
    apply negb_true_iff in Hc.
    change (String c t ++ s) with (String c (t ++ s)).
    rewrite (trimEnd_cons_nonwhite c _ Hc), (IH Ht). reflexivity.
Qed.

Lemma hasNoWhiteSpace_noLF t :
  hasNoWhiteSpace t = true -> hasNoChar (ascii_of_nat 10) t = true.
Proof.
  unfold hasNoWhiteSpace, hasNoChar.
  induction t as [| c t IH]; [reflexivity |].
  cbn [list_ascii_of_string forallb]. intros H.
  apply andb_prop in H. destruct H as [Hc Ht].
  rewrite (IH Ht), andb_true_r.
  destruct (Ascii.eqb_spec c (ascii_of_nat 10)) as [-> | _];
    [discriminate | reflexivity].
Qed.

Lemma split_one sep t :
  hasNoChar sep t = true -> JS.split sep t = [t].
Proof.
  unfold hasNoChar. induction t as [| c t IH]; [reflexivity |].
  cbn [list_ascii_of_string forallb JS.split]. intros H.
  apply andb_prop in H. destruct H as [Hc Ht].
  apply negb_true_iff in Hc. rewrite Hc, (IH Ht). reflexivity.
Qed.

Lemma split_append sep t s :
  hasNoChar sep t = true ->
  JS.split sep (t ++ String sep s) = t :: JS.split sep s.
Proof.
  unfold hasNoChar. induction t as [| c t IH]; intros H.
  - cbn [append JS.split]. now rewrite Ascii.eqb_refl.
  - cbn [list_ascii_of_string forallb] in H.
    apply andb_prop in H. destruct H as [Hc Ht].
    apply negb_true_iff in Hc.
    change (String c t ++ String sep s) with (String c (t ++ String sep s)).
    cbn [JS.split]. rewrite Hc, (IH Ht). reflexivity.
Qed.

(** The lines of a listing of well-formed tags, trimmed, are the tags
    joined by line feeds. *)
Lemma trim_gitTagOutput tags :
  Forall (fun t => t <> EmptyString /\ hasNoWhiteSpace t = true) tags ->
  JS.trim (gitTagOutput tags) = JS.join JS.LF tags.
Proof.
  intros Hall. unfold JS.trim.
  assert (Hstart : JS.trimStart (gitTagOutput tags) = gitTagOutput tags).
  { destruct Hall as [| t tags [Hne Hws] _]; [reflexivity |].
    destruct t as [| c t]; [now elim Hne |].
    unfold hasNoWhiteSpace in Hws.
    cbn [list_ascii_of_string forallb] in Hws.
    apply andb_prop in Hws. destruct Hws as [Hc _].
    apply negb_true_iff in Hc.
    cbn [gitTagOutput fold_right].
    change (String c t ++ ?x) with (String c (t ++ x)).
    exact (trimStart_nonwhite c _ Hc). }
  rewrite Hstart. clear Hstart.
  induction Hall as [| t tags [Hne Hws] Hall IH]; [reflexivity |].
  cbn [gitTagOutput fold_right]. fold (gitTagOutput tags).
  rewrite (trimEnd_append_nonwhite t _ Hws).
  change (JS.LF ++ gitTagOutput tags)
    with (String (ascii_of_nat 10) (gitTagOutput tags)).
  cbn [JS.trimEnd]. rewrite IH.
  destruct Hall as [| t' tags [Hne' _] _].
  - cbn. apply append_empty_r.
  - rewrite join_cons.
    destruct (JS.join JS.LF (t' :: tags)) as [| c r] eqn:E; [| reflexivity].
    exfalso. destruct tags; cbn [JS.join] in E.
    + now elim Hne'.
    + destruct t'; [now elim Hne' | discriminate].
Qed.

Lemma split_join_lines tags :
  Forall (fun t => hasNoChar (ascii_of_nat 10) t = true) tags ->
  tags <> [] ->
  JS.split (ascii_of_nat 10) (JS.join JS.LF tags) = tags.
Proof.
  induction 1 as [| t tags Ht Hall IH]; intros Hne; [now elim Hne |].
  destruct tags as [| t' tags].
  - cbn [JS.join]. now apply split_one.
  - rewrite join_cons.
    change (JS.LF ++ ?x) with (String (ascii_of_nat 10) x).
    rewrite (split_append _ t _ Ht). f_equal. apply IH. discriminate.
Qed.

(** X4: a listing that prints well-formed tags, one per line, is read
    back as exactly these tags, in order; the empty listing gives no
    tag. *)
Theorem listing_round_trip tags :
  Forall (fun t => t <> EmptyString /\ hasNoWhiteSpace t = true) tags ->
  parseTags (gitTagOutput tags) = tags.
Proof.
  intros Hall. unfold parseTags. rewrite (trim_gitTagOutput tags Hall).
  destruct tags as [| t tags]; [reflexivity |].
  rewrite split_join_lines; [| | discriminate].
  - unfold JS.filterBoolean. apply forallb_filter_id.
    apply forallb_forall. intros x Hx.
    rewrite Forall_forall in Hall.
    apply truthy_nonempty. exact (proj1 (Hall x Hx)).
  - eapply Forall_impl; [| exact Hall].
    intros x [_ Hx]. now apply hasNoWhiteSpace_noLF.
Qed.

Lemma listing_round_trip_witness :
  parseTags (gitTagOutput ["test-app/v1.2.3"; "other-app/v0.1.0"; "nightly"])
  = ["test-app/v1.2.3"; "other-app/v0.1.0"; "nightly"].
Proof.
  apply (listing_round_trip
           ["test-app/v1.2.3"; "other-app/v0.1.0"; "nightly"]).
  repeat constructor; discriminate.
Defined.

(** ** The short revision id *)


(** ** The ways an invocation can go *)

(** Version resolution ends the executor only with a failure result,
    never throws, and carries on only with a non-empty version. *)
Lemma resolveVersionAt_completion env options projectRoot :
  match snd (resolveVersionAt env options projectRoot) with
  | Normal vs => exists v, appVersion vs = Some v /\ v <> EmptyString
  | Returned r => r = failure
  | Throw _ => False
  end.
Proof.
  unfold resolveVersionAt.
  assert (Hread : exists t vs,
             readPackageJsonVersionAt env (appName options) projectRoot
             = (t, Normal vs)).
  { destruct projectRoot as [dir |].
    - destruct (readPackageJsonVersion_total env options
                  {| projectRoot := dir |}) as (msg & vs & H & _).
      exists [ReadJsonFile (manifestPath {| projectRoot := dir |}); msg], vs.
      exact H.
    - do 2 eexists. apply readPackageJsonVersionAt_undefined. }
  destruct Hread as (t0 & vs & ->).
  cbv beta iota delta [bind ret].
  assert (Hd : forall vs0,
             match snd (deriveFromGitTags env options vs0) with
             | Normal vs1 =>
                 vs1 = vs0
                 \/ exists v, appVersion vs1 = Some v /\ v <> EmptyString
             | Returned r => r = failure
             | Throw _ => False
             end).
  { intros vs0. unfold deriveFromGitTags, call_exec, new_RegExp.
    destruct (exec env gitTagCommand) as [out | e]; [| reflexivity].
    simpl.
    destruct (newRegExp env (targetTagPattern options)) as [re | e];
      [| reflexivity].
    simpl.
    destruct (JS.find (re_test re) (parseTags (stdout out))) as [tag |];
      [| now left].
    simpl. destruct (JS.truthy tag); [| now left].
    unfold capturedVersion.
    destruct (re_exec re tag) as [[rest |] |]; try reflexivity.
    destruct (JS.truthy rest) eqn:Hr; [| reflexivity].
    simpl. right. exists rest. split; [reflexivity |].
    now apply truthy_nonempty. }
  destruct (appVersion vs) as [v |] eqn:Hv; cbn [JS.truthy_opt negb].
  - destruct (JS.truthy v) eqn:Ht; cbn [negb].
    + cbn. rewrite Hv. cbn. rewrite Ht. cbn.
      exists v. split; [exact Hv | now apply truthy_nonempty].
    + specialize (Hd vs).
      destruct (deriveFromGitTags env options vs) as [t [vs1 | r | e]];
        cbn [snd] in *; try assumption.
      destruct (JS.truthy_opt (appVersion vs1)) eqn:H1; cbn.
      * destruct (appVersion vs1) as [v1 |]; [| discriminate].
        exists v1. split; [reflexivity | now apply truthy_nonempty].
      * reflexivity.
  - specialize (Hd vs).
    destruct (deriveFromGitTags env options vs) as [t [vs1 | r | e]];
      cbn [snd] in *; try assumption.
    destruct (JS.truthy_opt (appVersion vs1)) eqn:H1; cbn.
    + destruct (appVersion vs1) as [v1 |]; [| discriminate].
      exists v1. split; [reflexivity | now apply truthy_nonempty].
    + reflexivity.
Qed.

Lemma resolveVersion_completion env options pc :
  match snd (resolveVersion env options (projectRoot pc)) with
  | Normal vs => exists v, appVersion vs = Some v /\ v <> EmptyString
  | Returned r => r = failure
  | Throw _ => False
  end.
Proof. exact (resolveVersionAt_completion env options (Some (projectRoot pc))). Qed.

(** The manifest either yields a version or yields nothing. *)
Lemma manifest_dichotomy env pc :
  (exists v, manifestYields env pc v) \/ manifestYieldsNothing env pc.
Proof.
  unfold manifestYields, manifestYieldsNothing.
  destruct (readJsonFile env (manifestPath pc)) as [pj | e] eqn:Hread.
  - destruct (version pj) as [[| c v] |] eqn:Hv.
    + right. right. exists pj. auto.
    + left. exists (String c v), pj. repeat split; auto. discriminate.
    + right. right. exists pj. auto.
  - right. left. now exists e.
Qed.

(** The fallback lists the tags once, right after announcing itself; the
    rest are console lines. *)
Lemma deriveFromGitTags_shape env options vs :
  exists t c,
    deriveFromGitTags env options vs
    = (attempting :: Exec gitTagCommand :: t, c)
    /\ Forall (fun e => isConsole e = true) t.
Proof.
  unfold deriveFromGitTags, call_exec, new_RegExp, attempting.
  destruct (exec env gitTagCommand) as [out | e];
    [| do 2 eexists; split; [reflexivity | each_event]].
  simpl.
  destruct (newRegExp env (targetTagPattern options)) as [re | e];
    [| do 2 eexists; split; [reflexivity | each_event]].
  simpl.
  destruct (JS.find (re_test re) (parseTags (stdout out))) as [tag |];
    [| do 2 eexists; split; [reflexivity | each_event]].
  simpl.
  destruct (JS.truthy tag);
    [| do 2 eexists; split; [reflexivity | each_event]].
  destruct (capturedVersion (re_exec re tag));
    do 2 eexists; (split; [reflexivity | each_event]).
Qed.

(** The events of version resolution: the manifest read and its console
    line; then, only when the manifest yields nothing, the announcement
    of the fallback, the tag listing and console lines. *)
Lemma resolveVersion_shape env options pc :
  exists msg t,
    isConsole msg = true
    /\ Forall (fun e => isConsole e = true) t
    /\ (((exists v, manifestYields env pc v)
         /\ fst (resolveVersion env options (projectRoot pc))
            = [ReadJsonFile (manifestPath pc); msg])
        \/ (manifestYieldsNothing env pc
            /\ fst (resolveVersion env options (projectRoot pc))
               = ReadJsonFile (manifestPath pc) :: msg :: attempting
                   :: Exec gitTagCommand :: t)).
Proof.
  destruct (manifest_dichotomy env pc) as [(v & Hv) | Hn].
  - rewrite (resolveVersion_manifest env options pc v Hv).
    do 2 eexists. split; [| split; [constructor |]].
    2: { left. split; [now exists v | reflexivity]. }
    reflexivity.
  - destruct (resolveVersion_fallback env options pc Hn) as (msg & ->).
    destruct (deriveFromGitTags_shape env options unset)
      as (t & c & -> & Ht).
    destruct c as [vs | r | e].
    + destruct (JS.truthy_opt (appVersion vs)).
      * exists (ConsoleWarn msg), t. split; [reflexivity |].
        split; [exact Ht |]. right. now split.
      * eexists (ConsoleWarn msg), _. split; [reflexivity |].
        split; [| right; split; [exact Hn | reflexivity]].
        apply Forall_app. split; [exact Ht | each_event].
    + exists (ConsoleWarn msg), t. split; [reflexivity |].
      split; [exact Ht |]. right. now split.
    + exists (ConsoleWarn msg), t. split; [reflexivity |].
      split; [exact Ht |]. right. now split.
Qed.

(** The events of version resolution without a root: the warning of the
    handler, then the announcement of the fallback, the tag listing and
    console lines; no file is read. *)
Lemma resolveVersionAt_undefined_shape env options :
  exists t,
    Forall (fun e => isConsole e = true) t
    /\ fst (resolveVersionAt env options None)
       = ConsoleWarn (generalErrorMessage options (joinTypeError env))
           :: attempting :: Exec gitTagCommand :: t.
Proof.
  rewrite resolveVersionAt_undefined. cbv zeta.
  destruct (deriveFromGitTags_shape env options unset)
    as (t & c & -> & Ht).
  destruct c as [vs | r | e].
  - destruct (JS.truthy_opt (appVersion vs)).
    + now exists t.
    + eexists. split; [| reflexivity].
      apply Forall_app. split; [exact Ht | each_event].
  - now exists t.
  - now exists t.
Qed.

(** The events of an invocation once the lookup found something: the
    header, the events of version resolution and, when a version was
    resolved, the build target with its console lines, then possibly the
    revision query, then possibly the container build and its console
    lines. *)
Lemma tagAndBuild_shape_at env options ctx projectRoot :
  lookupProjectRoot ctx (appName options) = Some projectRoot ->
  exists later,
    fst (tagAndBuild env options ctx)
    = (header options
         ++ fst (resolveVersionAt env options projectRoot)
         ++ later)%list
    /\ (later = []
        \/ exists logs more,
             later
             = (ConsoleLog (runningMessage options)
                  :: RunExecutor (buildTargetOf options) :: logs ++ more)%list
             /\ Forall (fun e => isConsole e = true) logs
             /\ (more = []
                 \/ more = [Exec gitShaCommand]
                 \/ exists vs dockerTags gitSha line1 line2 tail,
                      more
                      = Exec gitShaCommand :: ConsoleLog line1
                          :: ConsoleLog line2
                          :: Exec (dockerCommand options ctx vs dockerTags
                                     gitSha)
                          :: tail
                      /\ Forall (fun e => isConsole e = true) tail)).
Proof.
  intros Hproj.
  pose proof (resolveVersionAt_completion env options projectRoot) as Hc.
  destruct (resolveVersionAt env options projectRoot)
    as [t1 [vs | r | e]] eqn:Hres; cbn [fst snd] in *.
  2: { exists [].
       rewrite (tagAndBuild_steps_at env options ctx _ Hproj), Hres.
       split; [now rewrite app_nil_r | now left]. }
  2: { now elim Hc. }
  pose proof (tagAndBuild_cases_at env options ctx projectRoot t1 vs Hproj
                Hres) as H.
  cbv zeta in H.
  destruct (runExecutor env (buildTargetOf options) ctx)
    as [buildResult | e].
  2: { rewrite H. cbn [fst].
       exists [ConsoleLog (runningMessage options);
               RunExecutor (buildTargetOf options)].
       split; [reflexivity |].
       right. exists [], []. split; [reflexivity |].
       split; [constructor | now left]. }
  destruct (forallb success (yielded buildResult)).
  - pose proof (completed_lines_console options (yielded buildResult))
      as Hlogs.
    destruct (ending buildResult) as [e0 |].
    + rewrite H. cbn [fst].
      exists (ConsoleLog (runningMessage options)
                :: RunExecutor (buildTargetOf options)
                :: map (fun _ : ExecutorResult =>
                          ConsoleLog (completedMessage options))
                     (yielded buildResult))%list.
      split.
      { repeat rewrite <- app_assoc. reflexivity. }
      right.
      exists (map (fun _ : ExecutorResult =>
                     ConsoleLog (completedMessage options))
                (yielded buildResult)), [].
      split; [now rewrite app_nil_r |].
      split; [exact Hlogs | now left].
    + destruct (exec env gitShaCommand) as [out | e].
      * rewrite H. cbn [fst].
        exists (ConsoleLog (runningMessage options)
                  :: RunExecutor (buildTargetOf options)
                  :: map (fun _ : ExecutorResult =>
                            ConsoleLog (completedMessage options))
                       (yielded buildResult)
                  ++ Exec gitShaCommand
                  :: ConsoleLog
                       (generatedMessage (generatedTags options vs out))
                  :: ConsoleLog
                       (executingMessage
                          (dockerCommand options ctx vs
                             (generatedTags options vs out)
                             (revisionShaShort out)))
                  :: Exec (dockerCommand options ctx vs
                             (generatedTags options vs out)
                             (revisionShaShort out))
                  :: afterContainerBuild options
                       (exec env
                          (dockerCommand options ctx vs
                             (generatedTags options vs out)
                             (revisionShaShort out))))%list.
        split.
        { repeat rewrite <- app_assoc. reflexivity. }
        right.
        exists (map (fun _ : ExecutorResult =>
                       ConsoleLog (completedMessage options))
                  (yielded buildResult)).
        eexists. split; [reflexivity |].
        split; [exact Hlogs |]. right. right.
        eexists _, _, _, _, _, _. split; [reflexivity |].
        apply afterContainerBuild_console.
      * rewrite H. cbn [fst].
        exists (ConsoleLog (runningMessage options)
                  :: RunExecutor (buildTargetOf options)
                  :: map (fun _ : ExecutorResult =>
                            ConsoleLog (completedMessage options))
                       (yielded buildResult)
                  ++ [Exec gitShaCommand])%list.
        split.
        { repeat rewrite <- app_assoc. reflexivity. }
        right.
        exists (map (fun _ : ExecutorResult =>
                       ConsoleLog (completedMessage options))
                  (yielded buildResult)),
          [Exec gitShaCommand].
        split; [reflexivity |].
        split; [exact Hlogs |]. right. now left.
  - destruct H as (logs & -> & Hlogs). cbn [fst].
    exists (ConsoleLog (runningMessage options)
              :: RunExecutor (buildTargetOf options) :: logs).
    split.
    { repeat rewrite <- app_assoc. reflexivity. }
    right. exists logs, []. split; [now rewrite app_nil_r |].
    split; [| now left].
    eapply Forall_impl; [| exact Hlogs]. now intros e [He _].
Qed.

(** The same for a known project. *)
Lemma tagAndBuild_shape env options ctx pc :
  projects ctx (appName options) = Some pc ->
  exists later,
    fst (tagAndBuild env options ctx)
    = (header options
         ++ fst (resolveVersion env options (projectRoot pc))
         ++ later)%list
    /\ (later = []
        \/ exists logs more,
             later
             = (ConsoleLog (runningMessage options)
                  :: RunExecutor (buildTargetOf options) :: logs ++ more)%list
             /\ Forall (fun e => isConsole e = true) logs
             /\ (more = []
                 \/ more = [Exec gitShaCommand]
                 \/ exists vs dockerTags gitSha line1 line2 tail,
                      more
                      = Exec gitShaCommand :: ConsoleLog line1
                          :: ConsoleLog line2
                          :: Exec (dockerCommand options ctx vs dockerTags
                                     gitSha)
                          :: tail
                      /\ Forall (fun e => isConsole e = true) tail)).
Proof.
  intros Hproj.
  exact (tagAndBuild_shape_at env options ctx (Some (projectRoot pc))
           (lookupProjectRoot_known options ctx pc Hproj)).
Qed.

(** ** Unknown projects and the manifest *)

(** X6: when the application name is neither a project of the workspace
    nor a member that the projects object inherits, the invocation ends at
    once: the header, the line that reports the missing configuration, and
    a failure result.  These are the only invocations that touch no
    collaborator: every other one reads the manifest or lists the
    tags. *)
Theorem unknown_project_fails_untouched env options ctx :
  (projects ctx (appName options) = None
   /\ JS.inherited (appName options) = false ->
   tagAndBuild env options ctx
   = ((header options
         ++ [ConsoleError
               ("Error: Project configuration for '" ++ appName options
                  ++ "' not found.")])%list,
      Fulfilled failure))
  /\ (Forall (fun e => isConsole e = true)
        (fst (tagAndBuild env options ctx)) ->
      projects ctx (appName options) = None
      /\ JS.inherited (appName options) = false).
Proof.
  split.
  - intros (Hproj & Hinh). apply tagAndBuild_unknown_project.
    unfold lookupProjectRoot. now rewrite Hproj, Hinh.
  - intros Hall.
    destruct (lookupProjectRoot_cases options ctx)
      as [(pc & Hproj & Hl) | [(Hproj & Hinh & Hl) | (Hproj & Hinh & _)]].
    + exfalso.
      destruct (tagAndBuild_trace env options ctx pc Hproj)
        as (later & Htrace & _).
      rewrite Htrace in Hall.
      apply Forall_app in Hall. destruct Hall as (_ & Hall).
      apply Forall_app in Hall. destruct Hall as (Hall & _).
      destruct (resolveVersion_shape env options pc)
        as (msg & t & _ & _ & [(_ & Hfst) | (_ & Hfst)]);
        rewrite Hfst in Hall; inversion Hall; discriminate.
    + exfalso.
      destruct (tagAndBuild_trace_at env options ctx None Hl)
        as (later & Htrace & _).
      rewrite Htrace in Hall.
      apply Forall_app in Hall. destruct Hall as (_ & Hall).
      apply Forall_app in Hall. destruct Hall as (Hall & _).
      destruct (resolveVersionAt_undefined_shape env options)
        as (t & _ & Hfst).
      rewrite Hfst in Hall.
      inversion Hall as [| ? ? _ Hall1]. inversion Hall1 as [| ? ? _ Hall2].
      inversion Hall2. discriminate.
    + now split.
Qed.

Lemma unknown_project_fails_untouched_witness :
  tagAndBuild
    (Fixture.envWith (Fixture.withVersion "1.2.3") (Ok EmptyString))
    {| appName := "non-existent-app";
       dockerRepository := "test-repo";
       buildTarget := "build";
       dockerfile := Some "Dockerfile";
       context := Some ".";
       push := false;
       additionalTags := None;
       generateMajorMinor := None;
       tagPrefix := None |}
    Fixture.mockContext
  = ([ConsoleLog
        (JS.LF
           ++ "---Starting Docker Image Tag & Build executor for non-existent-app---"
           ++ JS.LF);
      ConsoleLog "Executor Options";
      ConsoleError
        "Error: Project configuration for 'non-existent-app' not found."],
     Fulfilled failure).
Proof.
  exact (proj1
           (unknown_project_fails_untouched
              (Fixture.envWith (Fixture.withVersion "1.2.3") (Ok EmptyString))
              {| appName := "non-existent-app";
                 dockerRepository := "test-repo";
                 buildTarget := "build";
                 dockerfile := Some "Dockerfile";
                 context := Some ".";
                 push := false;
                 additionalTags := None;
                 generateMajorMinor := None;
                 tagPrefix := None |}
              Fixture.mockContext)
           (conj eq_refl eq_refl)).
Defined.

(** X7: for a known project, the first thing after the header is the read
    of [package.json] in the root of the project, and the manifest is not
    read again. *)
Theorem manifest_read_first_and_once env options ctx pc :
  projects ctx (appName options) = Some pc ->
  exists rest,
    fst (tagAndBuild env options ctx)
    = (header options
         ++ ReadJsonFile (Path.join (projectRoot pc) "package.json")
         :: rest)%list
    /\ Forall (fun e => isManifestRead e = false) rest.
Proof.
  intros Hproj.
  destruct (tagAndBuild_shape env options ctx pc Hproj)
    as (later & -> & Hlater).
  assert (Hl : Forall (fun e => isManifestRead e = false) later).
  { assert (Hcons : forall l, Forall (fun e => isConsole e = true) l ->
                              Forall (fun e => isManifestRead e = false) l).
    { intros l. apply Forall_impl. intros [] H; try discriminate;
        reflexivity. }
    destruct Hlater as [-> | (logs & more & -> & Hlogs & Hmore)];
      [constructor |].
    do 2 (constructor; [reflexivity |]).
    apply Forall_app. split; [now apply Hcons |].
    destruct Hmore
      as [-> | [-> | (vs & tags & sha & l1 & l2 & tail & -> & Htail)]];
      repeat (constructor; [reflexivity |]); auto. }
  destruct (resolveVersion_shape env options pc)
    as (msg & t & Hmsg & Ht & [(_ & ->) | (_ & ->)]).
  - eexists. split; [reflexivity |].
    constructor; [destruct msg; try discriminate; reflexivity |]. exact Hl.
  - eexists. split; [reflexivity |].
    constructor; [destruct msg; try discriminate; reflexivity |].
    do 2 (constructor; [reflexivity |]).
    apply Forall_app. split; [| exact Hl].
    eapply Forall_impl; [| exact Ht].
    intros [] H; try discriminate; reflexivity.
Qed.

Lemma manifest_read_first_and_once_witness :
  exists rest,
    fst (tagAndBuild
           (Fixture.envWith Fixture.withoutVersion (Ok "test-app/v1.2.3"))
           Fixture.baseOptions Fixture.mockContext)
    = (header Fixture.baseOptions
         ++ ReadJsonFile "apps/test-app/package.json" :: rest)%list
    /\ Forall (fun e => isManifestRead e = false) rest.
Proof.
  exact (manifest_read_first_and_once
           (Fixture.envWith Fixture.withoutVersion (Ok "test-app/v1.2.3"))
           Fixture.baseOptions Fixture.mockContext
           {| projectRoot := "apps/test-app" |} eq_refl).
Defined.

(** ** When the tags are listed *)

(** X8: the revision tags are listed exactly when the manifest gives no
    version: either the project is known and its manifest yields none, or
    the application name is no project but a member that the projects
    object inherits, for which no manifest is read at all. *)
Theorem tags_listed_iff_manifest_silent env options ctx :
  In (Exec gitTagCommand) (fst (tagAndBuild env options ctx))
  <-> (exists pc,
         projects ctx (appName options) = Some pc
         /\ manifestYieldsNothing env pc)
      \/ (projects ctx (appName options) = None
          /\ JS.inherited (appName options) = true).
Proof.
  split.
  - intros Hin.
    destruct (lookupProjectRoot_cases options ctx)
      as [(pc & Hproj & Hl) | [(Hproj & Hinh & Hl) | (Hproj & Hinh & Hl)]].
    3: { rewrite (tagAndBuild_unknown_project env options ctx Hl) in Hin.
         simpl in Hin. intuition discriminate. }
    2: { right. now split. }
    left. exists pc. split; [exact Hproj |].
    destruct (tagAndBuild_shape env options ctx pc Hproj)
      as (later & Htrace & Hlater).
    destruct (resolveVersion_shape env options pc)
      as (msg & t & Hmsg & Ht & [(_ & Hfst) | (Hn & _)]); [| exact Hn].
    exfalso. rewrite Htrace, Hfst in Hin.
    apply in_app_or in Hin. destruct Hin as [Hin | Hin].
    { simpl in Hin. intuition discriminate. }
    destruct Hin as [Hin | [Hin | Hin]]; try discriminate.
    { rewrite Hin in Hmsg. discriminate. }
    destruct Hlater as [-> | (logs & more & -> & Hlogs & Hmore)];
      [exact Hin |].
    destruct Hin as [Hin | [Hin | Hin]]; try discriminate.
    apply in_app_or in Hin. destruct Hin as [Hin | Hin].
    { rewrite Forall_forall in Hlogs. specialize (Hlogs _ Hin).
      discriminate. }
    destruct Hmore
      as [-> | [-> | (vs & tags & sha & l1 & l2 & tail & -> & Htail)]].
    + exact Hin.
    + destruct Hin as [Hin | []]. discriminate.
    + destruct Hin as [Hin | [Hin | [Hin | [Hin | Hin]]]];
        try discriminate.
      * injection Hin as Hin.
        destruct (dockerCommand_isContainerBuild options ctx vs tags sha)
          as (_ & Hno).
        rewrite Hin in Hno. discriminate.
      * rewrite Forall_forall in Htail. specialize (Htail _ Hin).
        discriminate.
  - intros [(pc & Hproj & Hn) | (Hproj & Hinh)].
    + destruct (tagAndBuild_trace env options ctx pc Hproj)
        as (later & -> & _).
      destruct (resolveVersion_fallback env options pc Hn) as (msg & ->).
      destruct (deriveFromGitTags_starts env options unset) as (t & c & ->).
      apply in_or_app. right. apply in_or_app. left.
      destruct c as [vs | r | e];
        [destruct (JS.truthy_opt (appVersion vs)) | |];
        cbn; auto 6.
    + assert (Hl : lookupProjectRoot ctx (appName options) = Some None).
      { unfold lookupProjectRoot. now rewrite Hproj, Hinh. }
      destruct (tagAndBuild_trace_at env options ctx None Hl)
        as (later & -> & _).
      destruct (resolveVersionAt_undefined_shape env options)
        as (t & _ & ->).
      apply in_or_app. right. apply in_or_app. left.
      right. right. now left.
Qed.

(** ** A pattern that does not compile *)

Lemma deriveFromGitTags_pattern_fails env options vs out e :
  exec env gitTagCommand = Ok out ->
  newRegExp env (targetTagPattern options) = Raise e ->
  deriveFromGitTags env options vs
  = ([attempting; Exec gitTagCommand;
      ConsoleError
        (JS.LF ++ "Error reading Git tags for '" ++ appName options
           ++ "': " ++ e
           ++ ". Ensure Git is available and the repository has tags.")],
     Returned failure).
Proof.
  intros Hexec Hre. unfold deriveFromGitTags, call_exec, new_RegExp.
  rewrite Hexec. simpl. rewrite Hre. reflexivity.
Qed.

(** X9: when the manifest yields no version and the pattern built from
    the application name and the tag prefix is rejected by the engine,
    the invocation ends with a failure result right after the tag listing,
    reporting the engine's error as an error of reading the tags. *)
Theorem rejected_pattern_fails env options ctx pc out e :
  projects ctx (appName options) = Some pc ->
  manifestYieldsNothing env pc ->
  exec env gitTagCommand = Ok out ->
  newRegExp env
    ("^" ++ appName options ++ "/" ++ effectiveTagPrefix options ++ "(.*)$")
  = Raise e ->
  exists msg,
    tagAndBuild env options ctx
    = ((header options
          ++ [ReadJsonFile (manifestPath pc); ConsoleWarn msg;
              ConsoleLog "Attempting to derive version from Git tags...";
              Exec gitTagCommand;
              ConsoleError
                (JS.LF ++ "Error reading Git tags for '" ++ appName options
                   ++ "': " ++ e
                   ++ ". Ensure Git is available and the repository has tags.")])%list,
       Fulfilled failure).
Proof.
  intros Hproj Hn Hexec Hre.
  rewrite (tagAndBuild_steps env options ctx pc Hproj).
  destruct (resolveVersion_fallback env options pc Hn) as (msg & ->).
  rewrite (deriveFromGitTags_pattern_fails env options unset out e Hexec Hre).
  now exists msg.
Qed.

Lemma rejected_pattern_fails_witness :
  exists msg,
    tagAndBuild
      (Fixture.envWith Fixture.withoutVersion (Ok "test-app/v(1.2.3"))
      {| appName := "test-app";
         dockerRepository := "test-repo";
         buildTarget := "build";
         dockerfile := Some "Dockerfile";
         context := Some ".";
         push := false;
         additionalTags := None;
         generateMajorMinor := None;
         tagPrefix := Some "v(" |}
      Fixture.mockContext
    = ((header Fixture.baseOptions
          ++ [ReadJsonFile "apps/test-app/package.json"; ConsoleWarn msg;
              ConsoleLog "Attempting to derive version from Git tags...";
              Exec gitTagCommand;
              ConsoleError
                (JS.LF ++ "Error reading Git tags for 'test-app': "
                   ++ "SyntaxError: pattern outside the supported fragment"
                   ++ ". Ensure Git is available and the repository has tags.")])%list,
       Fulfilled failure).
Proof.
  refine (rejected_pattern_fails
            (Fixture.envWith Fixture.withoutVersion (Ok "test-app/v(1.2.3"))
            {| appName := "test-app";
               dockerRepository := "test-repo";
               buildTarget := "build";
               dockerfile := Some "Dockerfile";
               context := Some ".";
               push := false;
               additionalTags := None;
               generateMajorMinor := None;
               tagPrefix := Some "v(" |}
            Fixture.mockContext {| projectRoot := "apps/test-app" |}
            {| stdout := "test-app/v(1.2.3"; stderr := EmptyString |}
            "SyntaxError: pattern outside the supported fragment"
            eq_refl _ eq_refl eq_refl).
  right. eexists. split; [reflexivity | now left].
Defined.

(** ** Rejection and success *)

(** X10: when the version is resolved and the build target succeeds but
    the revision query fails, the promise of the executor rejects with
    the error of the query: there is no result, and the query is the last
    event, so no container build is attempted. *)
Theorem revision_query_failure_rejects
    env options ctx pc t1 vs results e :
  projects ctx (appName options) = Some pc ->
  resolveVersion env options (projectRoot pc) = (t1, Normal vs) ->
  runExecutor env (buildTargetOf options) ctx = Ok (doneAfter results) ->
  forallb success results = true ->
  exec env gitShaCommand = Raise e ->
  tagAndBuild env options ctx
  = ((header options ++ t1
        ++ [ConsoleLog (runningMessage options);
            RunExecutor (buildTargetOf options)]
        ++ map (fun _ => ConsoleLog (completedMessage options)) results
        ++ [Exec gitShaCommand])%list,
     Rejected e).
Proof.
  intros Hproj Hres Hrun Hall Hsha.
  pose proof (tagAndBuild_cases env options ctx pc t1 vs results Hproj Hres
                Hrun) as H.
  cbv zeta in H. rewrite Hall, Hsha in H. rewrite H.
  f_equal. repeat rewrite <- app_assoc. reflexivity.
Qed.

Lemma revision_query_failure_rejects_witness :
  snd (tagAndBuild
         (Fixture.mkEnv (Fixture.withVersion "1.2.3") (Ok EmptyString)
            (Raise "Error: not a git repository") (Ok [succeeded])
            (Ok Fixture.quiet))
         Fixture.baseOptions Fixture.mockContext)
  = Rejected "Error: not a git repository".
Proof.
  exact (f_equal snd
           (revision_query_failure_rejects
              (Fixture.mkEnv (Fixture.withVersion "1.2.3") (Ok EmptyString)
                 (Raise "Error: not a git repository") (Ok [succeeded])
                 (Ok Fixture.quiet))
              Fixture.baseOptions Fixture.mockContext
              {| projectRoot := "apps/test-app" |}
              [ReadJsonFile "apps/test-app/package.json";
               ConsoleLog "Found version 1.2.3 in package.json"]
              (setVersion "1.2.3") [succeeded]
              "Error: not a git repository"
              eq_refl eq_refl eq_refl eq_refl eq_refl)).
Defined.

(** X11: the promise of the executor rejects exactly when a version was
    resolved and then one of the steps outside every [try] throws: the
    start of the build target; its iterator, either after results that all
    report success or when it is closed at a result that reports failure;
    or the revision query, after a build target that succeeded.  It
    rejects with the error of that step.  Failures of the manifest read,
    of the tag listing, of the pattern and of the container build never
    make it reject. *)
Theorem rejection_only_from_unguarded_calls env options ctx e :
  snd (tagAndBuild env options ctx) = Rejected e
  <-> exists projectRoot t1 vs,
        lookupProjectRoot ctx (appName options) = Some projectRoot
        /\ resolveVersionAt env options projectRoot = (t1, Normal vs)
        /\ (runExecutor env (buildTargetOf options) ctx = Raise e
            \/ exists buildResult,
                 runExecutor env (buildTargetOf options) ctx = Ok buildResult
                 /\ ((existsb (fun r => negb (success r))
                        (yielded buildResult) = true
                      /\ closing buildResult = Some e)
                     \/ (forallb success (yielded buildResult) = true
                         /\ ending buildResult = Some e)
                     \/ (forallb success (yielded buildResult) = true
                         /\ ending buildResult = None
                         /\ exec env gitShaCommand = Raise e))).
Proof.
  split.
  - intros Hrej.
    destruct (lookupProjectRoot ctx (appName options)) as [projectRoot |]
      eqn:Hproj.
    2: { rewrite (tagAndBuild_unknown_project env options ctx Hproj) in Hrej.
         discriminate. }
    pose proof (resolveVersionAt_completion env options projectRoot) as Hc.
    destruct (resolveVersionAt env options projectRoot)
      as [t1 [vs | r | e']] eqn:Hres; cbn [snd] in Hc.
    + exists projectRoot, t1, vs.
      split; [reflexivity |]. split; [exact Hres |].
      pose proof (tagAndBuild_cases_at env options ctx projectRoot t1 vs
                    Hproj Hres) as H.
      cbv zeta in H.
      destruct (runExecutor env (buildTargetOf options) ctx)
        as [buildResult | e1].
      * right. exists buildResult. split; [reflexivity |].
        destruct (forallb success (yielded buildResult)) eqn:Hall.
        -- destruct (ending buildResult) as [e1 |].
           ++ rewrite H in Hrej. injection Hrej as ->. right. left.
              now split.
           ++ destruct (exec env gitShaCommand) as [out | e2].
              ** rewrite H in Hrej. discriminate.
              ** rewrite H in Hrej. injection Hrej as ->.
                 right. right. now repeat split.
        -- destruct H as (logs & H & _). rewrite H in Hrej.
           unfold exitOutcome in Hrej. cbn [snd] in Hrej.
           destruct (closing buildResult) as [e1 |]; [| discriminate].
           injection Hrej as ->. left. split; [| reflexivity].
           now rewrite existsb_negb_forallb, Hall.
      * rewrite H in Hrej. injection Hrej as ->. now left.
    + rewrite (tagAndBuild_steps_at env options ctx _ Hproj), Hres in Hrej.
      discriminate.
    + now elim Hc.
  - intros (projectRoot & t1 & vs & Hproj & Hres & Hcase).
    pose proof (tagAndBuild_cases_at env options ctx projectRoot t1 vs
                  Hproj Hres) as H.
    cbv zeta in H.
    destruct Hcase
      as [Hrun | (buildResult & Hrun
                  & [(Hex & Hclose) | [(Hall & Hend)
                                      | (Hall & Hend & Hsha)]])];
      rewrite Hrun in H.
    + now rewrite H.
    + rewrite existsb_negb_forallb in Hex.
      apply negb_true_iff in Hex. rewrite Hex in H.
      destruct H as (logs & H & _). rewrite H.
      unfold exitOutcome. now rewrite Hclose.
    + rewrite Hall, Hend in H. now rewrite H.
    + rewrite Hall, Hend, Hsha in H. now rewrite H.
Qed.

Lemma rejection_only_from_unguarded_calls_witness :
  snd (tagAndBuild
         (Fixture.mkEnvOn (Fixture.withVersion "1.2.3") (Ok EmptyString)
            (Ok "abc1234")
            (Ok (throwsAfter [succeeded] "Error: build process crashed"))
            (Ok Fixture.quiet))
         Fixture.baseOptions Fixture.mockContext)
  = Rejected "Error: build process crashed".
Proof.
  apply (proj2
           (rejection_only_from_unguarded_calls
              (Fixture.mkEnvOn (Fixture.withVersion "1.2.3") (Ok EmptyString)
                 (Ok "abc1234")
                 (Ok (throwsAfter [succeeded] "Error: build process crashed"))
                 (Ok Fixture.quiet))
              Fixture.baseOptions Fixture.mockContext
              "Error: build process crashed")).
  exists (Some "apps/test-app"),
    [ReadJsonFile "apps/test-app/package.json";
     ConsoleLog "Found version 1.2.3 in package.json"],
    (setVersion "1.2.3").
  split; [reflexivity |]. split; [reflexivity |].
  right. exists (throwsAfter [succeeded] "Error: build process crashed").
  split; [reflexivity |]. right. left. split; reflexivity.
Defined.

(** X12: the invocation ends with a success result exactly when the
    lookup of the application name finds something, a version is
    resolved, the build target starts, all the results of its iterator
    report success and the iterator is done after them without throwing,
    the revision query answers, and the container build command, composed
    from the resolved version, the generated tags and the short revision
    id, runs without throwing. *)
Theorem success_iff_every_step_succeeds env options ctx :
  snd (tagAndBuild env options ctx) = Fulfilled succeeded
  <-> exists projectRoot t1 vs buildResult out answer,
        lookupProjectRoot ctx (appName options) = Some projectRoot
        /\ resolveVersionAt env options projectRoot = (t1, Normal vs)
        /\ runExecutor env (buildTargetOf options) ctx = Ok buildResult
        /\ forallb success (yielded buildResult) = true
        /\ ending buildResult = None
        /\ exec env gitShaCommand = Ok out
        /\ exec env
             (dockerCommand options ctx vs (generatedTags options vs out)
                (revisionShaShort out))
           = Ok answer.
Proof.
  split.
  - intros Hok.
    destruct (lookupProjectRoot ctx (appName options)) as [projectRoot |]
      eqn:Hproj.
    2: { rewrite (tagAndBuild_unknown_project env options ctx Hproj) in Hok.
         discriminate. }
    pose proof (resolveVersionAt_completion env options projectRoot) as Hc.
    destruct (resolveVersionAt env options projectRoot)
      as [t1 [vs | r | e']] eqn:Hres; cbn [snd] in Hc.
    + pose proof (tagAndBuild_cases_at env options ctx projectRoot t1 vs
                    Hproj Hres) as H.
      cbv zeta in H.
      destruct (runExecutor env (buildTargetOf options) ctx)
        as [buildResult | e1] eqn:Hrun.
      2: { rewrite H in Hok. discriminate. }
      destruct (forallb success (yielded buildResult)) eqn:Hall.
      2: { destruct H as (logs & H & _). rewrite H in Hok.
           unfold exitOutcome in Hok. cbn [snd] in Hok.
           destruct (closing buildResult); discriminate. }
      destruct (ending buildResult) as [e1 |] eqn:Hend.
      { rewrite H in Hok. discriminate. }
      destruct (exec env gitShaCommand) as [out | e2] eqn:Hsha.
      2: { rewrite H in Hok. discriminate. }
      rewrite H in Hok. cbn [snd] in Hok.
      destruct (exec env
                  (dockerCommand options ctx vs
                     (generatedTags options vs out) (revisionShaShort out)))
        as [answer | e3] eqn:Hdocker; [| discriminate].
      exists projectRoot, t1, vs, buildResult, out, answer. auto 10.
    + rewrite (tagAndBuild_steps_at env options ctx _ Hproj), Hres in Hok.
      subst r. discriminate.
    + now elim Hc.
  - intros (projectRoot & t1 & vs & buildResult & out & answer
            & Hproj & Hres & Hrun & Hall & Hend & Hsha & Hdocker).
    pose proof (tagAndBuild_cases_at env options ctx projectRoot t1 vs
                  Hproj Hres) as H.
    cbv zeta in H. rewrite Hrun, Hall, Hend, Hsha in H.
    rewrite H. cbn [snd]. now rewrite Hdocker.
Qed.

(** X13: output of the container build on its error stream does not make
    the invocation fail: it is logged as an error line right after the
    command, followed by the line of success, and the result is
    success. *)
Theorem stderr_output_is_not_failure
    env options ctx pc t1 vs results out answer :
  projects ctx (appName options) = Some pc ->
  resolveVersion env options (projectRoot pc) = (t1, Normal vs) ->
  runExecutor env (buildTargetOf options) ctx = Ok (doneAfter results) ->
  forallb success results = true ->
  exec env gitShaCommand = Ok out ->
  exec env
    (dockerCommand options ctx vs (generatedTags options vs out)
       (revisionShaShort out))
  = Ok answer ->
  stderr answer <> EmptyString ->
  exists before,
    tagAndBuild env options ctx
    = ((before
          ++ [Exec (dockerCommand options ctx vs
                      (generatedTags options vs out) (revisionShaShort out));
              ConsoleError (stderr answer);
              ConsoleLog (builtMessage options)])%list,
       Fulfilled succeeded).
Proof.
  intros Hproj Hres Hrun Hall Hsha Hdocker Herr.
  pose proof (tagAndBuild_cases env options ctx pc t1 vs results Hproj Hres
                Hrun) as H.
  cbv zeta in H. rewrite Hall, Hsha, Hdocker in H. rewrite H.
  apply truthy_nonempty in Herr.
  unfold afterContainerBuild. rewrite Herr.
  exists
    (header options ++ t1
       ++ [ConsoleLog (runningMessage options);
           RunExecutor (buildTargetOf options)]
       ++ map (fun _ => ConsoleLog (completedMessage options)) results
       ++ [Exec gitShaCommand;
           ConsoleLog (generatedMessage (generatedTags options vs out));
           ConsoleLog
             (executingMessage
                (dockerCommand options ctx vs (generatedTags options vs out)
                   (revisionShaShort out)))])%list.
  f_equal. repeat rewrite <- app_assoc. reflexivity.
Qed.

Lemma stderr_output_is_not_failure_witness :
  exists before,
    tagAndBuild
      (Fixture.mkEnv (Fixture.withVersion "1.2.3") (Ok EmptyString)
         (Ok "abc1234") (Ok [succeeded])
         (Ok {| stdout := EmptyString; stderr := "#1 building" |}))
      Fixture.baseOptions Fixture.mockContext
    = ((before
          ++ [Exec (dockerCommand Fixture.baseOptions Fixture.mockContext
                      (setVersion "1.2.3")
                      ["test-repo/test-app:1.2.3";
                       "test-repo/test-app:sha-abc1234"] "abc1234");
              ConsoleError "#1 building";
              ConsoleLog (builtMessage Fixture.baseOptions)])%list,
       Fulfilled succeeded).
Proof.
  refine (stderr_output_is_not_failure
            (Fixture.mkEnv (Fixture.withVersion "1.2.3") (Ok EmptyString)
               (Ok "abc1234") (Ok [succeeded])
               (Ok {| stdout := EmptyString; stderr := "#1 building" |}))
            Fixture.baseOptions Fixture.mockContext
            {| projectRoot := "apps/test-app" |}
            [ReadJsonFile "apps/test-app/package.json";
             ConsoleLog "Found version 1.2.3 in package.json"]
            (setVersion "1.2.3") [succeeded]
            {| stdout := "abc1234"; stderr := EmptyString |}
            {| stdout := EmptyString; stderr := "#1 building" |}
            eq_refl eq_refl eq_refl eq_refl eq_refl eq_refl _).
  discriminate.
Defined.

(** X14: a container build that throws gives a failure result, not a
    rejection; one fixed error line follows the command, so neither the
    events nor the result depend on the error thrown, and the command is
    not run again. *)
Theorem container_build_failure_is_caught
    env options ctx pc t1 vs results out e :
  projects ctx (appName options) = Some pc ->
  resolveVersion env options (projectRoot pc) = (t1, Normal vs) ->
  runExecutor env (buildTargetOf options) ctx = Ok (doneAfter results) ->
  forallb success results = true ->
  exec env gitShaCommand = Ok out ->
  exec env
    (dockerCommand options ctx vs (generatedTags options vs out)
       (revisionShaShort out))
  = Raise e ->
  exists before,
    tagAndBuild env options ctx
    = ((before
          ++ [Exec (dockerCommand options ctx vs
                      (generatedTags options vs out) (revisionShaShort out));
              ConsoleError
                (JS.LF ++ "Error: Docker build failed for '"
                   ++ appName options ++ "'.")])%list,
       Fulfilled failure)
    /\ Forall (fun ev => isContainerBuild ev = false) before.
Proof.
  intros Hproj Hres Hrun Hall Hsha Hdocker.
  pose proof (tagAndBuild_cases env options ctx pc t1 vs results Hproj Hres
                Hrun) as H.
  cbv zeta in H. rewrite Hall, Hsha, Hdocker in H. rewrite H.
  unfold afterContainerBuild.
  exists
    (header options ++ t1
       ++ [ConsoleLog (runningMessage options);
           RunExecutor (buildTargetOf options)]
       ++ map (fun _ => ConsoleLog (completedMessage options)) results
       ++ [Exec gitShaCommand;
           ConsoleLog (generatedMessage (generatedTags options vs out));
           ConsoleLog
             (executingMessage
                (dockerCommand options ctx vs (generatedTags options vs out)
                   (revisionShaShort out)))])%list.
  split.
  { f_equal. repeat rewrite <- app_assoc. reflexivity. }
  pose proof (resolveVersion_emits env options pc) as Hemit.
  unfold emitsOnly in Hemit. rewrite Hres in Hemit. cbn [fst] in Hemit.
  repeat (apply Forall_app; split); try each_event.
  - eapply Forall_impl; [| exact Hemit]. intros ev (_ & _ & _ & Hb).
    exact Hb.
  - apply Forall_forall. intros ev Hev. apply in_map_iff in Hev.
    destruct Hev as (_ & <- & _). reflexivity.
Qed.

Lemma container_build_failure_is_caught_witness :
  snd (tagAndBuild
         (Fixture.mkEnv (Fixture.withVersion "1.2.3") (Ok EmptyString)
            (Ok "abc1234") (Ok [succeeded])
            (Raise "Error: Docker build failed"))
         Fixture.baseOptions Fixture.mockContext)
  = Fulfilled failure.
Proof.
  destruct (container_build_failure_is_caught
              (Fixture.mkEnv (Fixture.withVersion "1.2.3") (Ok EmptyString)
                 (Ok "abc1234") (Ok [succeeded])
                 (Raise "Error: Docker build failed"))
              Fixture.baseOptions Fixture.mockContext
              {| projectRoot := "apps/test-app" |}
              [ReadJsonFile "apps/test-app/package.json";
               ConsoleLog "Found version 1.2.3 in package.json"]
              (setVersion "1.2.3") [succeeded]
              {| stdout := "abc1234"; stderr := EmptyString |}
              "Error: Docker build failed"
              eq_refl eq_refl eq_refl eq_refl eq_refl eq_refl)
    as (before & H & _).
  exact (f_equal snd H).
Defined.

(** ** The calls of an invocation, in order *)

Lemma filter_console_nil (t : list Event) :
  Forall (fun e => isConsole e = true) t ->
  filter (fun e => negb (isConsole e)) t = [].
Proof.
  induction 1 as [| e t He _ IH]; [reflexivity |].
  simpl. now rewrite He.
Qed.

(** X15: the calls to collaborators that an invocation makes are, in
    order, an initial part of one sequence.  For a project of the
    workspace that is: manifest read, tag listing (only when it is made at
    all), build target, revision query, container build, and the manifest
    read is always made.  For an application name that is no project but a
    member that the projects object inherits, it is the same without the
    manifest read, and the tag listing is always made.  For any other name
    no call is made.  So no call is repeated and none overtakes
    another. *)
Theorem collaborator_calls_in_order env options ctx :
  exists n first command,
    isContainerBuild (Exec command) = true
    /\ filter (fun e => negb (isConsole e))
         (fst (tagAndBuild env options ctx))
       = firstn n
           (first
              ++ [RunExecutor (buildTargetOf options);
                  Exec gitShaCommand; Exec command])%list
    /\ ((exists pc,
           projects ctx (appName options) = Some pc
           /\ 1 <= n
           /\ (first = [ReadJsonFile (manifestPath pc)]
               \/ first
                  = [ReadJsonFile (manifestPath pc); Exec gitTagCommand]))
        \/ (projects ctx (appName options) = None
            /\ first = [Exec gitTagCommand]
            /\ (JS.inherited (appName options) = true -> 1 <= n)
            /\ (JS.inherited (appName options) = false -> n = 0))).
Proof.
  destruct (lookupProjectRoot ctx (appName options)) as [found |]
    eqn:Hlookup.
  2: { rewrite (tagAndBuild_unknown_project env options ctx Hlookup).
       exists 0, [Exec gitTagCommand], "docker buildx build".
       split; [reflexivity |]. split; [reflexivity |]. right.
       unfold lookupProjectRoot in Hlookup.
       destruct (projects ctx (appName options)); [discriminate |].
       destruct (JS.inherited (appName options)); [discriminate |].
       repeat split; auto; discriminate. }
  destruct (tagAndBuild_shape_at env options ctx found Hlookup)
    as (later & Htrace & Hlater).
  rewrite Htrace. rewrite !filter_app.
  change (filter (fun e => negb (isConsole e)) (header options)) with
    (@nil Event).
  cbn [app].
  assert (Hl : exists k command,
             isContainerBuild (Exec command) = true
             /\ filter (fun e => negb (isConsole e)) later
                = firstn k
                    [RunExecutor (buildTargetOf options);
                     Exec gitShaCommand; Exec command]).
  { destruct Hlater as [-> | (logs & more & -> & Hlogs & Hmore)].
    - exists 0, "docker buildx build". split; reflexivity.
    - cbn [filter isConsole negb]. rewrite filter_app.
      rewrite (filter_console_nil logs Hlogs). cbn [app].
      destruct Hmore
        as [-> | [-> | (vs & tags & sha & l1 & l2 & tail & -> & Htail)]].
      + exists 1, "docker buildx build". split; reflexivity.
      + exists 2, "docker buildx build". split; reflexivity.
      + exists 3, (dockerCommand options ctx vs tags sha).
        split; [apply dockerCommand_isContainerBuild |].
        cbn [filter isConsole negb].
        now rewrite (filter_console_nil tail Htail). }
  destruct Hl as (k & command & Hcmd & Hl). rewrite Hl.
  destruct (lookupProjectRoot_cases options ctx)
    as [(pc & Hproj & Hfound) | [(Hproj & Hinh & Hfound) | (_ & _ & Hnone)]].
  3: { congruence. }
  - assert (found = Some (projectRoot pc)) as -> by congruence.
    destruct (resolveVersion_shape env options pc)
      as (msg & t & Hmsg & Ht & [(_ & Hfst) | (_ & Hfst)]);
      unfold resolveVersion in Hfst; rewrite Hfst.
    + exists (S k), [ReadJsonFile (manifestPath pc)], command.
      split; [exact Hcmd |]. split.
      { cbn [filter isConsole negb]. rewrite Hmsg. reflexivity. }
      left. exists pc. split; [exact Hproj |]. split; [lia | now left].
    + exists (S (S k)),
        [ReadJsonFile (manifestPath pc); Exec gitTagCommand], command.
      split; [exact Hcmd |]. split.
      { cbn [filter isConsole negb attempting]. rewrite Hmsg.
        cbn [negb]. rewrite (filter_console_nil t Ht). reflexivity. }
      left. exists pc. split; [exact Hproj |]. split; [lia | now right].
  - assert (found = None) as -> by congruence.
    destruct (resolveVersionAt_undefined_shape env options)
      as (t & Ht & ->).
    exists (S k), [Exec gitTagCommand], command.
    split; [exact Hcmd |]. split.
    { cbn [filter isConsole negb attempting].
      rewrite (filter_console_nil t Ht). reflexivity. }
    right. split; [exact Hproj |]. split; [reflexivity |].
    split; [intros _; lia | congruence].
Qed.

(** ** The command of the container build *)

Lemma forEach_flags (dockerTags : list string) (init : string) :
  JS.forEach dockerTags
    (fun dockerCommand tag => dockerCommand ++ " -t " ++ JS.DQ ++ tag ++ JS.DQ)
    init
  = init ++ tagFlags dockerTags.
Proof.
  unfold JS.forEach. revert init.
  induction dockerTags as [| tag dockerTags IH]; intros init.
  - cbn. now rewrite append_empty_r.
  - cbn [fold_left tagFlags fold_right]. rewrite IH.
    fold (tagFlags dockerTags). now rewrite !append_assoc.
Qed.

(** The command line, flag by flag. *)
Lemma dockerCommand_flat options ctx vs dockerTags gitSha :
  dockerCommand options ctx vs dockerTags gitSha
  = "docker buildx build"
      ++ (if push options then " --push" else EmptyString)
      ++ tagFlags dockerTags
      ++ " -f " ++ JS.DQ ++ finalDockerfile options ctx ++ JS.DQ
      ++ " " ++ JS.DQ ++ finalContext options ctx ++ JS.DQ
      ++ " --build-arg APP_VERSION=" ++ JS.DQ ++ JS.interp (appVersion vs)
      ++ JS.DQ
      ++ " --build-arg BUILD_SHA=" ++ JS.DQ ++ gitSha ++ JS.DQ.
Proof.
  unfold dockerCommand. rewrite forEach_flags.
  destruct (push options); now rewrite !append_assoc.
Qed.

(** The container build of an invocation runs the command composed from
    the resolved versions, the generated tags and the short revision. *)
Lemma container_build_event env options ctx c :
  In (Exec c) (fst (tagAndBuild env options ctx)) ->
  isContainerBuild (Exec c) = true ->
  exists projectRoot t1 vs out,
    lookupProjectRoot ctx (appName options) = Some projectRoot
    /\ resolveVersionAt env options projectRoot = (t1, Normal vs)
    /\ exec env gitShaCommand = Ok out
    /\ c = dockerCommand options ctx vs (generatedTags options vs out)
             (revisionShaShort out).
Proof.
  intros Hin Hbuild.
  destruct (lookupProjectRoot ctx (appName options)) as [projectRoot |]
    eqn:Hproj.
  2: { rewrite (tagAndBuild_unknown_project env options ctx Hproj) in Hin.
       simpl in Hin. intuition discriminate. }
  pose proof (resolveVersionAt_emits env options projectRoot) as Hemit.
  pose proof (resolveVersionAt_completion env options projectRoot) as Hc.
  unfold emitsOnly in Hemit.
  assert (Hpre : forall t1,
             fst (resolveVersionAt env options projectRoot) = t1 ->
             ~ In (Exec c) (header options ++ t1)).
  { intros t1 <- H. apply in_app_or in H. destruct H as [H | H].
    - simpl in H. intuition discriminate.
    - rewrite Forall_forall in Hemit.
      destruct (Hemit _ H) as (_ & _ & _ & Hb). congruence. }
  destruct (resolveVersionAt env options projectRoot)
    as [t1 [vs | r | e]] eqn:Hres; cbn [fst snd] in *.
  2: { rewrite (tagAndBuild_steps_at env options ctx _ Hproj), Hres in Hin.
       now elim (Hpre t1 eq_refl). }
  2: { now elim Hc. }
  specialize (Hpre t1 eq_refl).
  pose proof (tagAndBuild_cases_at env options ctx projectRoot t1 vs Hproj
                Hres) as H.
  cbv zeta in H.
  assert (Hstart : ~ In (Exec c)
                     (header options ++ t1
                        ++ [ConsoleLog (runningMessage options);
                            RunExecutor (buildTargetOf options)])).
  { rewrite app_assoc. intros Hs. apply in_app_or in Hs.
    destruct Hs as [Hs | Hs]; [now elim Hpre |].
    simpl in Hs. intuition discriminate. }
  destruct (runExecutor env (buildTargetOf options) ctx)
    as [buildResult | e].
  2: { rewrite H in Hin. now elim Hstart. }
  destruct (forallb success (yielded buildResult)).
  2: { destruct H as (logs & H & Hlogs). rewrite H in Hin. cbn [fst] in Hin.
       apply in_app_or in Hin. destruct Hin as [Hin | Hin];
         [now elim Hstart |].
       rewrite Forall_forall in Hlogs.
       destruct (Hlogs _ Hin) as (Hcons & _). discriminate. }
  assert (Hbuilt : ~ In (Exec c)
                     ((header options ++ t1
                         ++ [ConsoleLog (runningMessage options);
                             RunExecutor (buildTargetOf options)])
                        ++ map (fun _ : ExecutorResult =>
                                  ConsoleLog (completedMessage options))
                             (yielded buildResult))).
  { intros Hs. apply in_app_or in Hs.
    destruct Hs as [Hs | Hs]; [now elim Hstart |].
    apply in_map_iff in Hs. destruct Hs as (_ & Hs & _). discriminate. }
  destruct (ending buildResult) as [e0 |].
  { rewrite H in Hin. now elim Hbuilt. }
  destruct (exec env gitShaCommand) as [out | e].
  2: { rewrite H in Hin. cbn [fst] in Hin.
       apply in_app_or in Hin. destruct Hin as [Hin | Hin];
         [now elim Hbuilt |].
       destruct Hin as [Hin | []]. injection Hin as <-. discriminate. }
  rewrite H in Hin. cbn [fst] in Hin.
  apply in_app_or in Hin. destruct Hin as [Hin | Hin]; [now elim Hbuilt |].
  apply in_app_or in Hin. destruct Hin as [Hin | Hin].
  - destruct Hin as [Hin | [Hin | [Hin | [Hin | []]]]]; try discriminate.
    + injection Hin as <-. discriminate.
    + injection Hin as <-. now exists projectRoot, t1, vs, out.
  - pose proof (afterContainerBuild_console options
                  (exec env
                     (dockerCommand options ctx vs
                        (generatedTags options vs out)
                        (revisionShaShort out)))) as Hafter.
    rewrite Forall_forall in Hafter. specialize (Hafter _ Hin).
    discriminate.
Qed.

(** X16: the one container build command of an invocation is, in this
    order: the builder, [--push] exactly when pushing is asked for, one
    [-t] flag per generated tag in the order of the tags, the dockerfile,
    the build context, then [APP_VERSION] with the resolved version, which
    is never empty, and [BUILD_SHA] with the short revision id. *)
Theorem container_build_command_shape env options ctx c :
  In (Exec c) (fst (tagAndBuild env options ctx)) ->
  isContainerBuild (Exec c) = true ->
  exists projectRoot t1 vs v out,
    lookupProjectRoot ctx (appName options) = Some projectRoot
    /\ resolveVersionAt env options projectRoot = (t1, Normal vs)
    /\ appVersion vs = Some v /\ v <> EmptyString
    /\ exec env gitShaCommand = Ok out
    /\ snd (generateDockerTags env options vs)
       = Normal (generatedTags options vs out, revisionShaShort out)
    /\ c = "docker buildx build"
             ++ (if push options then " --push" else EmptyString)
             ++ tagFlags (generatedTags options vs out)
             ++ " -f " ++ JS.DQ ++ finalDockerfile options ctx ++ JS.DQ
             ++ " " ++ JS.DQ ++ finalContext options ctx ++ JS.DQ
             ++ " --build-arg APP_VERSION=" ++ JS.DQ ++ v ++ JS.DQ
             ++ " --build-arg BUILD_SHA=" ++ JS.DQ ++ revisionShaShort out
             ++ JS.DQ.
Proof.
  intros Hin Hbuild.
  destruct (container_build_event env options ctx c Hin Hbuild)
    as (projectRoot & t1 & vs & out & Hproj & Hres & Hsha & ->).
  pose proof (resolveVersionAt_completion env options projectRoot) as Hc.
  rewrite Hres in Hc. cbn [snd] in Hc. destruct Hc as (v & Hv & Hne).
  exists projectRoot, t1, vs, v, out.
  repeat (split; [assumption |]). split.
  - now rewrite (generateDockerTags_ok env options vs out Hsha).
  - rewrite dockerCommand_flat, Hv. reflexivity.
Qed.

Lemma container_build_command_shape_witness :
  exists projectRoot t1 vs v out,
    lookupProjectRoot Fixture.mockContext "test-app" = Some projectRoot
    /\ resolveVersionAt
         (Fixture.envWith (Fixture.withVersion "1.2.3") (Ok EmptyString))
         Fixture.baseOptions projectRoot = (t1, Normal vs)
    /\ appVersion vs = Some v /\ v <> EmptyString
    /\ exec (Fixture.envWith (Fixture.withVersion "1.2.3") (Ok EmptyString))
         gitShaCommand = Ok out
    /\ snd (generateDockerTags
              (Fixture.envWith (Fixture.withVersion "1.2.3") (Ok EmptyString))
              Fixture.baseOptions vs)
       = Normal (generatedTags Fixture.baseOptions vs out,
                 revisionShaShort out)
    /\ dockerCommand Fixture.baseOptions Fixture.mockContext
         (setVersion "1.2.3")
         ["test-repo/test-app:1.2.3"; "test-repo/test-app:sha-abc1234"]
         "abc1234"
       = "docker buildx build"
           ++ EmptyString
           ++ tagFlags (generatedTags Fixture.baseOptions vs out)
           ++ " -f " ++ JS.DQ
           ++ finalDockerfile Fixture.baseOptions Fixture.mockContext
           ++ JS.DQ ++ " " ++ JS.DQ
           ++ finalContext Fixture.baseOptions Fixture.mockContext ++ JS.DQ
           ++ " --build-arg APP_VERSION=" ++ JS.DQ ++ v ++ JS.DQ
           ++ " --build-arg BUILD_SHA=" ++ JS.DQ ++ revisionShaShort out
           ++ JS.DQ.
Proof.
  refine (container_build_command_shape
            (Fixture.envWith (Fixture.withVersion "1.2.3") (Ok EmptyString))
            Fixture.baseOptions Fixture.mockContext
            (dockerCommand Fixture.baseOptions Fixture.mockContext
               (setVersion "1.2.3")
               ["test-repo/test-app:1.2.3"; "test-repo/test-app:sha-abc1234"]
               "abc1234")
            _ eq_refl).
  cbv. repeat first [left; reflexivity | right].
Defined.

(** ** The frame of the tag list *)

Lemma append_inv_head (a x y : string) : a ++ x = a ++ y -> x = y.
Proof.
  induction a as [| c a IH]; simpl; intros H; [exact H |].
  injection H as H. now apply IH.
Qed.

(** The tags before the revision tag, for any values of the working
    variables: the version tag, the tags derived from it, the additional
    tags. *)
Lemma versionTags_frame options vs :
  versionTags options vs
  = (tagOf options (JS.interp (appVersion vs))
       :: match generateMajorMinor options with
          | Some true =>
              (if JS.truthy_opt (majorMinorVersion vs)
                  && negb (JS.strictEq (majorMinorVersion vs) (appVersion vs))
               then [tagOf options (JS.interp (majorMinorVersion vs))]
               else [])
                ++ (if JS.truthy_opt (majorVersion vs)
                       && negb (JS.strictEq (majorVersion vs) (appVersion vs))
                       && negb (JS.strictEq (majorVersion vs)
                                  (majorMinorVersion vs))
                    then [tagOf options (JS.interp (majorVersion vs))]
                    else [])
          | _ => []
          end
       ++ map (tagOf options) (additionalTagsOr options))%list.
Proof.
  unfold versionTags, additionalTagsOr, JS.push.
  assert (Hextra :
    forall init,
      match additionalTags options with
      | Some extra =>
          if Nat.ltb 0 (List.length extra)
          then JS.forEach extra
                 (fun dockerTags tag =>
                    (dockerTags ++ [tagOf options tag])%list)
                 init
          else init
      | None => init
      end
      = (init
           ++ map (tagOf options)
                match additionalTags options with
                | Some l => l
                | None => []
                end)%list).
  { intros init. destruct (additionalTags options) as [[| x extra] |].
    - cbn [List.length Nat.ltb Nat.leb map]. now rewrite app_nil_r.
    - cbn [List.length Nat.ltb Nat.leb].
      exact (forEach_push (tagOf options) (x :: extra) init).
    - cbn [map]. now rewrite app_nil_r. }
  unfold tagOf in *. rewrite Hextra.
  destruct (generateMajorMinor options) as [[|] |]; try reflexivity.
  destruct (JS.truthy_opt (majorMinorVersion vs)
            && negb (JS.strictEq (majorMinorVersion vs) (appVersion vs)));
    destruct (JS.truthy_opt (majorVersion vs)
              && negb (JS.strictEq (majorVersion vs) (appVersion vs))
              && negb (JS.strictEq (majorVersion vs) (majorMinorVersion vs)));
    reflexivity.
Qed.

(** X17: whatever the options and the working variables, the generated
    tags start with the version tag and end with the revision tag; in
    between come at most two derived tags, none without
    [generateMajorMinor], and then one tag per additional tag. *)
Theorem generated_tags_frame env options vs out :
  exec env gitShaCommand = Ok out ->
  exists t derived,
    generateDockerTags env options vs
    = (t,
       Normal
         ((tagOf options (JS.interp (appVersion vs))
             :: derived
             ++ map (tagOf options) (additionalTagsOr options)
             ++ [tagOf options
                   ("sha-" ++ JS.substring0 7 (JS.trim (stdout out)))])%list,
          JS.substring0 7 (JS.trim (stdout out))))
    /\ List.length derived <= 2
    /\ (generateMajorMinor options <> Some true -> derived = []).
Proof.
  intros Hsha.
  rewrite (generateDockerTags_ok env options vs out Hsha).
  unfold JS.push, revisionShaShort. rewrite versionTags_frame.
  eexists. eexists. split.
  { f_equal. f_equal. f_equal. cbn [app]. f_equal.
    rewrite <- app_assoc. reflexivity. }
  split.
  - destruct (generateMajorMinor options) as [[|] |]; cbn; try lia.
    destruct (JS.truthy_opt (majorMinorVersion vs)
              && negb (JS.strictEq (majorMinorVersion vs) (appVersion vs)));
      destruct (JS.truthy_opt (majorVersion vs)
                && negb (JS.strictEq (majorVersion vs) (appVersion vs))
                && negb (JS.strictEq (majorVersion vs)
                           (majorMinorVersion vs)));
      cbn; lia.
  - intros H. destruct (generateMajorMinor options) as [[|] |];
      [now elim H | reflexivity | reflexivity].
Qed.

Lemma generated_tags_frame_witness :
  exists t derived,
    generateDockerTags
      (Fixture.envWith (Fixture.withVersion "2.0.0") (Ok EmptyString))
      {| appName := "test-app";
         dockerRepository := "test-repo";
         buildTarget := "build";
         dockerfile := None;
         context := None;
         push := false;
         additionalTags := Some ["latest"; "stable"];
         generateMajorMinor := Some true;
         tagPrefix := None |}
      (setVersion "2.0.0")
    = (t,
       Normal
         (("test-repo/test-app:2.0.0"
             :: derived
             ++ ["test-repo/test-app:latest"; "test-repo/test-app:stable"]
             ++ ["test-repo/test-app:sha-abc1234"])%list,
          "abc1234"))
    /\ List.length derived <= 2
    /\ (Some true <> Some true -> derived = []).
Proof.
  exact (generated_tags_frame
           (Fixture.envWith (Fixture.withVersion "2.0.0") (Ok EmptyString))
           {| appName := "test-app";
              dockerRepository := "test-repo";
              buildTarget := "build";
              dockerfile := None;
              context := None;
              push := false;
              additionalTags := Some ["latest"; "stable"];
              generateMajorMinor := Some true;
              tagPrefix := None |}
           (setVersion "2.0.0")
           {| stdout := "abc1234"; stderr := EmptyString |} eq_refl).
Defined.

(** X18: once a version is set, the version tag and the tags derived
    from it are pairwise distinct, whatever the derived variables hold;
    only additional tags and the revision tag can repeat a tag. *)
Theorem derived_tags_are_distinct options vs v :
  appVersion vs = Some v ->
  exists derived,
    versionTags options vs
    = (derived ++ map (tagOf options) (additionalTagsOr options))%list
    /\ NoDup derived
    /\ In (tagOf options v) derived
    /\ List.length derived <= 3.
Proof.
  intros Hv. rewrite versionTags_frame, Hv. cbn [JS.interp].
  assert (Hinj : forall x y, tagOf options x = tagOf options y -> x = y).
  { unfold tagOf. intros x y H. apply append_inv_head in H.
    now apply (append_inv_head ":") in H. }
  match goal with
  | |- context [(_ :: ?D ++ map _ _)%list] =>
      exists (tagOf options v :: D)
  end.
  split; [reflexivity |].
  assert (Hdone : forall D,
             NoDup (tagOf options v :: D) -> List.length D <= 2 ->
             NoDup (tagOf options v :: D)
             /\ In (tagOf options v) (tagOf options v :: D)
             /\ List.length (tagOf options v :: D) <= 3).
  { intros D Hn Hl. split; [exact Hn |]. split; [now left | cbn; lia]. }
  apply Hdone.
  2: { destruct (generateMajorMinor options) as [[|] |]; cbn; try lia.
       destruct (JS.truthy_opt (majorMinorVersion vs)
                 && negb (JS.strictEq (majorMinorVersion vs) (Some v)));
         destruct (JS.truthy_opt (majorVersion vs)
                   && negb (JS.strictEq (majorVersion vs) (Some v))
                   && negb (JS.strictEq (majorVersion vs)
                              (majorMinorVersion vs)));
         cbn; lia. }
  destruct (generateMajorMinor options) as [[|] |].
  2, 3: (repeat constructor; intros []).
  destruct (majorMinorVersion vs) as [m |], (majorVersion vs) as [j |];
    cbn [JS.truthy_opt JS.strictEq JS.interp andb negb].
  - destruct (JS.truthy m), (JS.truthy j), (String.eqb_spec m v),
      (String.eqb_spec j v), (String.eqb_spec j m);
      cbn [andb negb app];
      repeat constructor; cbn;
      intros H; repeat destruct H as [H | H]; try contradiction;
      apply Hinj in H; congruence.
  - destruct (JS.truthy m), (String.eqb_spec m v);
      cbn [andb negb app];
      repeat constructor; cbn;
      intros H; repeat destruct H as [H | H]; try contradiction;
      apply Hinj in H; congruence.
  - destruct (JS.truthy j), (String.eqb_spec j v);
      cbn [andb negb app];
      repeat constructor; cbn;
      intros H; repeat destruct H as [H | H]; try contradiction;
      apply Hinj in H; congruence.
  - cbn [app]. repeat constructor. intros [].
Qed.

Lemma derived_tags_are_distinct_witness :
  exists derived,
    versionTags
      {| appName := "test-app";
         dockerRepository := "test-repo";
         buildTarget := "build";
         dockerfile := None;
         context := None;
         push := false;
         additionalTags := Some ["1.2"; "latest"];
         generateMajorMinor := Some true;
         tagPrefix := None |}
      (setVersion "1.2.3")
    = (derived
         ++ ["test-repo/test-app:1.2"; "test-repo/test-app:latest"])%list
    /\ NoDup derived
    /\ In "test-repo/test-app:1.2.3" derived
    /\ List.length derived <= 3.
Proof.
  exact (derived_tags_are_distinct
           {| appName := "test-app";
              dockerRepository := "test-repo";
              buildTarget := "build";
              dockerfile := None;
              context := None;
              push := false;
              additionalTags := Some ["1.2"; "latest"];
              generateMajorMinor := Some true;
              tagPrefix := None |}
           (setVersion "1.2.3") "1.2.3" eq_refl).
Defined.

(** ** The set-up of the local registry *)

(** X19: the set-up script starts the registry, then versions, then
    publishes, and stops at the first call that throws: versioning is
    called exactly when the registry started, publishing exactly when
    versioning answered as well, each once and in this order.  The promise
    fulfils exactly when all three calls answer, and otherwise rejects with
    the error of the call that threw.  As soon as the registry has
    started, the function that stops it is kept in
    [global.stopLocalRegistry] and stays there however versioning and
    publishing end, since the script never stops the registry itself; when
    the registry does not start, the global is left as it was. *)
Theorem registry_setup_outcomes (Handle : Type)
    (env : LocalRegistry.Collaborators Handle) (before : option Handle) :
  let run := LocalRegistry.globalSetup env before in
  let start := LocalRegistry.StartLocalRegistry LocalRegistry.startOptions in
  let version := LocalRegistry.ReleaseVersion LocalRegistry.versionOptions in
  let publish := LocalRegistry.ReleasePublish LocalRegistry.publishOptions in
  let started :=
    exists stop,
      LocalRegistry.startLocalRegistry env LocalRegistry.startOptions
      = Ok stop in
  let versioned :=
    LocalRegistry.releaseVersion env LocalRegistry.versionOptions = Ok tt in
  (exists n,
     1 <= n
     /\ LocalRegistry.calls run = firstn n [start; version; publish])
  /\ (In version (LocalRegistry.calls run) <-> started)
  /\ (In publish (LocalRegistry.calls run) <-> started /\ versioned)
  /\ (LocalRegistry.rejection run = None
      <-> started /\ versioned
          /\ LocalRegistry.releasePublish env LocalRegistry.publishOptions
             = Ok tt)
  /\ (forall e,
        LocalRegistry.rejection run = Some e
        <-> LocalRegistry.startLocalRegistry env LocalRegistry.startOptions
            = Raise e
            \/ (started
                /\ LocalRegistry.releaseVersion env
                     LocalRegistry.versionOptions = Raise e)
            \/ (started /\ versioned
                /\ LocalRegistry.releasePublish env
                     LocalRegistry.publishOptions = Raise e))
  /\ (forall stop,
        LocalRegistry.startLocalRegistry env LocalRegistry.startOptions
        = Ok stop ->
        LocalRegistry.stopLocalRegistry run = Some stop)
  /\ (forall e,
        LocalRegistry.startLocalRegistry env LocalRegistry.startOptions
        = Raise e ->
        LocalRegistry.stopLocalRegistry run = before).
Proof.
  cbv zeta. unfold LocalRegistry.globalSetup.
  destruct (LocalRegistry.startLocalRegistry env LocalRegistry.startOptions)
    as [stop | e0];
    [destruct (LocalRegistry.releaseVersion env LocalRegistry.versionOptions)
       as [[] | e1];
     [destruct (LocalRegistry.releasePublish env
                  LocalRegistry.publishOptions) as [[] | e2] |] |];
    cbn [LocalRegistry.rejection LocalRegistry.stopLocalRegistry
         LocalRegistry.calls];
    (split;
     [first [ exists 3; split; [lia | reflexivity]
            | exists 2; split; [lia | reflexivity]
            | exists 1; split; [lia | reflexivity] ] |]);
    repeat split; intros;
    repeat match goal with
      | H : _ /\ _ |- _ => destruct H
      | H : exists _, _ |- _ => destruct H
      | H : _ \/ _ |- _ => destruct H
      | H : In _ _ |- _ => simpl in H
      | H : False |- _ => elim H
      end;
    try discriminate; try congruence;
    try solve [eexists; reflexivity];
    try solve [simpl; auto];
    try solve [left; congruence];
    try solve [right; left; split; [eexists; reflexivity | congruence]];
    try solve [right; right; repeat split; try congruence;
               eexists; reflexivity].
Qed.
